(** * Force-Measurement: the grip-force experiment runner and the MVC
      calibration tool

    A shallow embedding of [Force_Measurement_LIMBmk4.py],
    [MVC_Measurement_LIMB.py] and [gdxtest.py].  Wall-clock readings and
    sensor samples are Python floats in the programs; here they are exact
    rationals ([Q]), so that the arithmetic of the programs is the
    arithmetic of the model.
    An object is a record of the attributes the transitions read or write;
    a method is a function on that record which returns or raises.  What is
    only drawn (style sheets, curves, message boxes) and the files other
    than the event file and the result table are left out. *)

From Stdlib Require Import QArith Qround Qabs ZArith Ascii String Lia Lqa.
From stdpp Require Import gmap strings list fin_maps pretty.

Local Open Scope string_scope.
Local Open Scope list_scope.

(** ** Python primitives used by both programs *)

Module Py.

(** The exceptions the modelled code can raise. *)
Inductive exn : Type :=
| ZeroDivisionError
| ValueError
| IndexError
| AttributeError
| TypeError.

(** The outcome of running a method on a state: it returns, or it raises
    with the object left as it was at the raise. *)
Inductive outcome (S : Type) : Type :=
| Returned (s : S)
| Raised (e : exn) (s : S).
Arguments Returned {S} s.
Arguments Raised {S} e s.

Definition final {S : Type} (o : outcome S) : S :=
  match o with Returned s => s | Raised _ s => s end.

Definition raised {S : Type} (o : outcome S) : bool :=
  match o with Returned _ => false | Raised _ _ => true end.

Definition exception_of {S : Type} (o : outcome S) : option exn :=
  match o with Returned _ => None | Raised e _ => Some e end.

(** [x < y] on floats. *)
Definition Qltb (x y : Q) : bool := negb (Qle_bool y x).

(** [x % m] on floats with [m > 0]: the remainder has the sign of [m]. *)
Definition fmod (x m : Q) : Q := x - m * inject_Z (Qfloor (x / m)).

(** [min(a, b)] and [max(a, b)]: the first argument unless the second is
    strictly smaller (resp. larger). *)
Definition pymin (a b : Q) : Q := if Qltb b a then b else a.
Definition pymax (a b : Q) : Q := if Qltb a b then b else a.

(** [s[-2:]]: the last two characters, the whole string when shorter. *)
Definition last2 (s : string) : string :=
  String.substring (String.length s - 2) 2 s.

Definition digit (c : ascii) : option Z :=
  let n := nat_of_ascii c in
  if (48 <=? n)%nat && (n <=? 57)%nat then Some (Z.of_nat (n - 48)) else None.

Fixpoint int_digits (acc : Z) (s : string) : option Z :=
  match s with
  | EmptyString => Some acc
  | String c s' =>
      match digit c with
      | Some d => int_digits (10 * acc + d) s'
      | None => None
      end
  end.

(** [int(s)] on a string of decimal digits; anything else is a
    [ValueError] (the sign, blanks and underscores Python also accepts do
    not occur in a trial identifier). *)
Definition pyint (s : string) : option Z :=
  match s with
  | EmptyString => None
  | _ => int_digits 0 s
  end.

(** Digits after the decimal point: the value accumulated so far and the
    power of ten that scales it. *)
Fixpoint frac_digits (acc : Z) (scale : positive) (s : string)
  : option (Z * positive) :=
  match s with
  | EmptyString => Some (acc, scale)
  | String c s' =>
      match digit c with
      | Some d => frac_digits (10 * acc + d) (10 * scale) s'
      | None => None
      end
  end.

(** Digits up to an optional decimal point, then the fraction; [seen]
    records whether a digit was read before the point. *)
Fixpoint float_digits (acc : Z) (seen : bool) (s : string) : option Q :=
  match s with
  | EmptyString => if seen then Some (inject_Z acc) else None
  | String c s' =>
      match digit c with
      | Some d => float_digits (10 * acc + d) true s'
      | None =>
          if Ascii.eqb c "."%char then
            match s' with
            | EmptyString => if seen then Some (inject_Z acc) else None
            | _ =>
                match frac_digits acc 1 s' with
                | Some (n, scale) => Some (n # scale)
                | None => None
                end
            end
          else None
      end
  end.

(** [float(s)] on a plain decimal literal with an optional sign, the form
    in which the calibration tool writes its table; anything else is a
    [ValueError] (exponents, [inf], [nan] and surrounding blanks, which
    Python also accepts, are outside this model). *)
Definition pyfloat (s : string) : option Q :=
  match s with
  | String "-"%char s' => option_map Qopp (float_digits 0 false s')
  | String "+"%char s' => float_digits 0 false s'
  | _ => float_digits 0 false s
  end.

(** [deque(maxlen=n).append(x)]: the oldest entry falls out when full. *)
Definition deque_append {A : Type} (maxlen : nat) (x : A) (d : list A)
  : list A :=
  let d' := d ++ [x] in drop (length d' - maxlen) d'.

(** [s.startswith(p)]. *)
Definition startswith (s p : string) : bool := String.prefix p s.

(** [x[i], x[j] = x[j], x[i]] on a list, both indices in range. *)
Definition swap {A : Type} (i j : nat) (x : list A) : list A :=
  match x !! i, x !! j with
  | Some a, Some b => <[j := a]> (<[i := b]> x)
  | _, _ => x
  end.

(** [random.shuffle(x)]: for [i] from [len(x) - 1] down to [1], swap
    [x[i]] with [x[j]], [j = randbelow(i + 1)].  The generator is the
    stream [rnd] of its draws; a draw is reduced into range. *)
Fixpoint shuffle_from {A : Type} (rnd : nat -> nat) (i : nat) (x : list A)
  : list A :=
  match i with
  | O => x
  | S i' => shuffle_from rnd i' (swap i (rnd i mod (i + 1)) x)
  end.

Definition shuffle {A : Type} (rnd : nat -> nat) (x : list A) : list A :=
  shuffle_from rnd (length x - 1) x.

(** [int(x)] on a float: the fraction is cut off, toward zero. *)
Definition int_of_float (x : Q) : Z :=
  if Qltb x 0 then (- Qfloor (- x))%Z else Qfloor x.

End Py.

Import Py.

(** ** The grip-force experiment: [Force_Measurement_LIMBmk4.py] *)

Module Force.

(** A row of the event file below its header,
    [[section, event, trial_id, timestamp]].  The timestamp is a reading of
    the LSL clock taken while the row is written; no transition reads it
    back and it is not part of the model. *)
Record row : Type := Row {
  row_section : nat;
  row_event : string;
  row_trial : string
}.

#[global] Instance row_eq_dec : EqDecision row.
Proof. solve_decision. Defined.

(** [current_trial_array] is a second name for one of the two block lists,
    never a copy: the tag says which one it aliases. *)
Inductive block : Type := Array1 | Array2.

(** The three normalisation references. *)
Record references : Type := References {
  full_grasp_mvc : Q;
  pinchOne_mvc : Q;
  pinchTwo_mvc : Q
}.

(** The four bounded buffers behind the right-hand plot. *)
Record buffers : Type := Buffers {
  force_data : list Q;
  time_data : list Q;
  trapezoid_main_time_data : list Q;
  trapezoid_main_force_data : list Q
}.

Record state : Type := State {
  trial_array1 : list string;
  trial_array2 : list string;
  phase_events_logged : gset string;
  csv_file : list row;
  current_section : nat;
  trial_in_progress : bool;
  experiment_ended : bool;
  current_trial_array : block;
  current_trial_index : nat;
  current_trial_id : string;
  trapezoid_y : list Q;
  gdx_open : bool;
  plots : buffers;
  timer_active : bool;
  break_timers : nat;
  experiment_running : bool;
  start_time : option Q;
  time_elapsed : Q;
  trial_start_time : Q;
  mvc : references
}.

Definition set_phase_events_logged (v : gset string) (s : state) : state :=
  State
    (trial_array1 s) (trial_array2 s) v (csv_file s) (current_section s)
    (trial_in_progress s) (experiment_ended s) (current_trial_array s)
    (current_trial_index s) (current_trial_id s) (trapezoid_y s)
    (gdx_open s) (plots s) (timer_active s) (break_timers s)
    (experiment_running s) (start_time s) (time_elapsed s)
    (trial_start_time s) (mvc s).
Definition set_csv_file (v : list row) (s : state) : state :=
  State
    (trial_array1 s) (trial_array2 s) (phase_events_logged s) v
    (current_section s) (trial_in_progress s) (experiment_ended s)
    (current_trial_array s) (current_trial_index s) (current_trial_id s)
    (trapezoid_y s) (gdx_open s) (plots s) (timer_active s) (break_timers s)
    (experiment_running s) (start_time s) (time_elapsed s)
    (trial_start_time s) (mvc s).
Definition set_current_section (v : nat) (s : state) : state :=
  State
    (trial_array1 s) (trial_array2 s) (phase_events_logged s) (csv_file s) v
    (trial_in_progress s) (experiment_ended s) (current_trial_array s)
    (current_trial_index s) (current_trial_id s) (trapezoid_y s)
    (gdx_open s) (plots s) (timer_active s) (break_timers s)
    (experiment_running s) (start_time s) (time_elapsed s)
    (trial_start_time s) (mvc s).
Definition set_trial_in_progress (v : bool) (s : state) : state :=
  State
    (trial_array1 s) (trial_array2 s) (phase_events_logged s) (csv_file s)
    (current_section s) v (experiment_ended s) (current_trial_array s)
    (current_trial_index s) (current_trial_id s) (trapezoid_y s)
    (gdx_open s) (plots s) (timer_active s) (break_timers s)
    (experiment_running s) (start_time s) (time_elapsed s)
    (trial_start_time s) (mvc s).
Definition set_experiment_ended (v : bool) (s : state) : state :=
  State
    (trial_array1 s) (trial_array2 s) (phase_events_logged s) (csv_file s)
    (current_section s) (trial_in_progress s) v (current_trial_array s)
    (current_trial_index s) (current_trial_id s) (trapezoid_y s)
    (gdx_open s) (plots s) (timer_active s) (break_timers s)
    (experiment_running s) (start_time s) (time_elapsed s)
    (trial_start_time s) (mvc s).
Definition set_current_trial_array (v : block) (s : state) : state :=
  State
    (trial_array1 s) (trial_array2 s) (phase_events_logged s) (csv_file s)
    (current_section s) (trial_in_progress s) (experiment_ended s) v
    (current_trial_index s) (current_trial_id s) (trapezoid_y s)
    (gdx_open s) (plots s) (timer_active s) (break_timers s)
    (experiment_running s) (start_time s) (time_elapsed s)
    (trial_start_time s) (mvc s).
Definition set_current_trial_index (v : nat) (s : state) : state :=
  State
    (trial_array1 s) (trial_array2 s) (phase_events_logged s) (csv_file s)
    (current_section s) (trial_in_progress s) (experiment_ended s)
    (current_trial_array s) v (current_trial_id s) (trapezoid_y s)
    (gdx_open s) (plots s) (timer_active s) (break_timers s)
    (experiment_running s) (start_time s) (time_elapsed s)
    (trial_start_time s) (mvc s).
Definition set_current_trial_id (v : string) (s : state) : state :=
  State
    (trial_array1 s) (trial_array2 s) (phase_events_logged s) (csv_file s)
    (current_section s) (trial_in_progress s) (experiment_ended s)
    (current_trial_array s) (current_trial_index s) v (trapezoid_y s)
    (gdx_open s) (plots s) (timer_active s) (break_timers s)
    (experiment_running s) (start_time s) (time_elapsed s)
    (trial_start_time s) (mvc s).
Definition set_trapezoid_y (v : list Q) (s : state) : state :=
  State
    (trial_array1 s) (trial_array2 s) (phase_events_logged s) (csv_file s)
    (current_section s) (trial_in_progress s) (experiment_ended s)
    (current_trial_array s) (current_trial_index s) (current_trial_id s) v
    (gdx_open s) (plots s) (timer_active s) (break_timers s)
    (experiment_running s) (start_time s) (time_elapsed s)
    (trial_start_time s) (mvc s).
Definition set_gdx_open (v : bool) (s : state) : state :=
  State
    (trial_array1 s) (trial_array2 s) (phase_events_logged s) (csv_file s)
    (current_section s) (trial_in_progress s) (experiment_ended s)
    (current_trial_array s) (current_trial_index s) (current_trial_id s)
    (trapezoid_y s) v (plots s) (timer_active s) (break_timers s)
    (experiment_running s) (start_time s) (time_elapsed s)
    (trial_start_time s) (mvc s).
Definition set_plots (v : buffers) (s : state) : state :=
  State
    (trial_array1 s) (trial_array2 s) (phase_events_logged s) (csv_file s)
    (current_section s) (trial_in_progress s) (experiment_ended s)
    (current_trial_array s) (current_trial_index s) (current_trial_id s)
    (trapezoid_y s) (gdx_open s) v (timer_active s) (break_timers s)
    (experiment_running s) (start_time s) (time_elapsed s)
    (trial_start_time s) (mvc s).
Definition set_timer_active (v : bool) (s : state) : state :=
  State
    (trial_array1 s) (trial_array2 s) (phase_events_logged s) (csv_file s)
    (current_section s) (trial_in_progress s) (experiment_ended s)
    (current_trial_array s) (current_trial_index s) (current_trial_id s)
    (trapezoid_y s) (gdx_open s) (plots s) v (break_timers s)
    (experiment_running s) (start_time s) (time_elapsed s)
    (trial_start_time s) (mvc s).
Definition set_break_timers (v : nat) (s : state) : state :=
  State
    (trial_array1 s) (trial_array2 s) (phase_events_logged s) (csv_file s)
    (current_section s) (trial_in_progress s) (experiment_ended s)
    (current_trial_array s) (current_trial_index s) (current_trial_id s)
    (trapezoid_y s) (gdx_open s) (plots s) (timer_active s) v
    (experiment_running s) (start_time s) (time_elapsed s)
    (trial_start_time s) (mvc s).
Definition set_experiment_running (v : bool) (s : state) : state :=
  State
    (trial_array1 s) (trial_array2 s) (phase_events_logged s) (csv_file s)
    (current_section s) (trial_in_progress s) (experiment_ended s)
    (current_trial_array s) (current_trial_index s) (current_trial_id s)
    (trapezoid_y s) (gdx_open s) (plots s) (timer_active s) (break_timers s)
    v (start_time s) (time_elapsed s) (trial_start_time s) (mvc s).
Definition set_start_time (v : option Q) (s : state) : state :=
  State
    (trial_array1 s) (trial_array2 s) (phase_events_logged s) (csv_file s)
    (current_section s) (trial_in_progress s) (experiment_ended s)
    (current_trial_array s) (current_trial_index s) (current_trial_id s)
    (trapezoid_y s) (gdx_open s) (plots s) (timer_active s) (break_timers s)
    (experiment_running s) v (time_elapsed s) (trial_start_time s) (mvc s).
Definition set_time_elapsed (v : Q) (s : state) : state :=
  State
    (trial_array1 s) (trial_array2 s) (phase_events_logged s) (csv_file s)
    (current_section s) (trial_in_progress s) (experiment_ended s)
    (current_trial_array s) (current_trial_index s) (current_trial_id s)
    (trapezoid_y s) (gdx_open s) (plots s) (timer_active s) (break_timers s)
    (experiment_running s) (start_time s) v (trial_start_time s) (mvc s).
Definition set_trial_start_time (v : Q) (s : state) : state :=
  State
    (trial_array1 s) (trial_array2 s) (phase_events_logged s) (csv_file s)
    (current_section s) (trial_in_progress s) (experiment_ended s)
    (current_trial_array s) (current_trial_index s) (current_trial_id s)
    (trapezoid_y s) (gdx_open s) (plots s) (timer_active s) (break_timers s)
    (experiment_running s) (start_time s) (time_elapsed s) v (mvc s).
Definition set_mvc (v : references) (s : state) : state :=
  State
    (trial_array1 s) (trial_array2 s) (phase_events_logged s) (csv_file s)
    (current_section s) (trial_in_progress s) (experiment_ended s)
    (current_trial_array s) (current_trial_index s) (current_trial_id s)
    (trapezoid_y s) (gdx_open s) (plots s) (timer_active s) (break_timers s)
    (experiment_running s) (start_time s) (time_elapsed s)
    (trial_start_time s) v.

Definition SAMPLE_RATE : nat := 50.

(** [self.max_samples = int(SAMPLE_RATE * 30)]. *)
Definition max_samples : nat := SAMPLE_RATE * 30.

Definition the_array (b : block) (s : state) : list string :=
  match b with
  | Array1 => trial_array1 s
  | Array2 => trial_array2 s
  end.

(** The list [self.current_trial_array] refers to. *)
Definition current_array (s : state) : list string :=
  the_array (current_trial_array s) s.

(** *** Session construction *)

Definition grips : list string := ["IndexPinch"; "MiddlePinch"; "FullGrasp"].
Definition levels : list string := ["20"; "40"; "60"; "80"].

(** The three nested loops that fill [conditions]. *)
Definition conditions : list string :=
  grip ← grips; mvc ← levels; _ ← seq 0 5; [grip ++ mvc]%string.

(** [int(self.current_trial_id[-2:]) / 100.0]; [None] is the [ValueError]
    of [int]. *)
Definition mvc_normalized (trial_id : string) : option Q :=
  match pyint (last2 trial_id) with
  | Some n => Some (inject_Z n / 100)%Q
  | None => None
  end.

Definition trapezoid_x : list Q := [0; 10; 15; 25; 30]%Q.

Definition trapezoid_of (m : Q) : list Q := [0; 0; m; m; 0]%Q.

Definition empty_buffers : buffers := Buffers [] [] [] [].

(** [__init__], with the two generators' draws as arguments.  The device
    is taken to open; [start_time] starts as [None]. *)
Definition init (rnd1 rnd2 : nat -> nat) : outcome state :=
  let trial_array1 := shuffle rnd1 conditions in
  let trial_array2 := shuffle rnd2 conditions in
  let s :=
    State trial_array1 trial_array2 ∅ [] 1 false false Array1 0 "" []
      true empty_buffers false 0 false None 0%Q 0%Q
      (References 100 100 100) in
  match trial_array1 !! 0%nat with
  | None => Raised IndexError s
  | Some trial_id =>
      let s := set_current_trial_id trial_id s in
      match mvc_normalized (current_trial_id s) with
      | None => Raised ValueError s
      | Some m => Returned (set_trapezoid_y (trapezoid_of m) s)
      end
  end.

(** *** Logging and the phase timer *)

(** [log_event]: one row appended to the event file. *)
Definition log_event (section : nat) (event trial_id : string) (s : state)
  : state :=
  set_csv_file (csv_file s ++ [Row section event trial_id]) s.

Definition start_trial (s : state) : outcome state :=
  let s := set_phase_events_logged ∅ s in
  if negb (experiment_running s) || trial_in_progress s then Returned s
  else
    let s := set_trial_in_progress true s in
    match current_array s !! current_trial_index s with
    | None => Raised IndexError s
    | Some trial_id =>
        let s := set_current_trial_id trial_id s in
        let s := set_trial_start_time (time_elapsed s) s in
        let s := log_event (current_section s) "TrialStart"
                   (current_trial_id s) s in
        let s := set_phase_events_logged ∅ s in
        match mvc_normalized (current_trial_id s) with
        | None => Raised ValueError s
        | Some m => Returned (set_trapezoid_y (trapezoid_of m) s)
        end
    end.

Definition phase_events : list (Q * string) :=
  [ (0%Q, "RestPhaseStart");
    (5%Q, "RestPhaseStop");
    (5%Q, "GetReadyStart");
    (10%Q, "GetReadyStop");
    (10%Q, "RampUpPhaseStart");
    (15%Q, "RampUpPhaseStop");
    (15%Q, "HoldPhaseStart");
    (25%Q, "HoldPhaseStop");
    (25%Q, "RampDownPhaseStart");
    (30%Q, "RampDownPhaseStop") ].

(** The body of the loop of [check_phase_boundaries]. *)
Definition check_boundary (cycle_time : Q) (s : state) (be : Q * string)
  : state :=
  let '(boundary, event) := be in
  if Qle_bool boundary cycle_time
     && negb (bool_decide (event ∈ phase_events_logged s))
  then
    let s := log_event (current_section s) event (current_trial_id s) s in
    set_phase_events_logged ({[event]} ∪ phase_events_logged s) s
  else s.

Definition check_phase_boundaries (cycle_time : Q) (s : state) : state :=
  foldl (check_boundary cycle_time) s phase_events.

(** [get_reference_force(t)]; [None] is the [ValueError] of [int]. *)
Definition get_reference_force (s : state) (t : Q) : option Q :=
  match mvc_normalized (current_trial_id s) with
  | None => None
  | Some mvc_normalized =>
      if Qle_bool 0 t && Qltb t 10 then Some 0%Q
      else if Qle_bool 10 t && Qltb t 15 then
        Some (mvc_normalized * (t - 10) / 5)%Q
      else if Qle_bool 15 t && Qltb t 25 then Some mvc_normalized
      else if Qle_bool 25 t && Qltb t 30 then
        Some (mvc_normalized * (1 - ((t - 25) / 5)))%Q
      else Some 0%Q
  end.

(** *** Calibration loading *)

Definition motions : list string :=
  ["Full Grasp (Grip)"; "Pinch (Index Finger)"; "Pinch (Middle Finger)"].

Definition percentages : list Z := [20; 40; 60; 80]%Z.

(** A row as [csv.DictReader] gives it: under each column of the header
    the text of the field, or [None] where the line is too short to have
    the field. *)
Definition csv_row : Type := gmap string (option string).

(** [float(mvc_data.get(key, '100'))] under [try]: [100] on [ValueError];
    the [TypeError] of [float(None)] is not caught. *)
Definition reference_of (mvc_data : csv_row) (key : string) : exn + Q :=
  match default (Some "100") (mvc_data !! key) with
  | Some text => inr (default 100%Q (pyfloat text))
  | None => inl TypeError
  end.

(** [calculate_mvc_percentages]: per motion present in the row, the four
    fractions of its value.  [float] is not guarded here. *)
Fixpoint calculate_mvc_percentages_from (ms : list string)
    (mvc_data : csv_row) : exn + list (string * list (Z * Q)) :=
  match ms with
  | [] => inr []
  | motion :: ms' =>
      match mvc_data !! motion with
      | None =>
          match calculate_mvc_percentages_from ms' mvc_data with
          | inl x => inl x
          | inr r => inr ((motion, []) :: r)
          end
      | Some None => inl TypeError
      | Some (Some text) =>
          match pyfloat text with
          | None => inl ValueError
          | Some mvc_value =>
              match calculate_mvc_percentages_from ms' mvc_data with
              | inl x => inl x
              | inr r =>
                  inr ((motion,
                        map (fun percent =>
                               (percent,
                                mvc_value * (inject_Z percent / 100))%Q)
                            percentages) :: r)
              end
          end
      end
  end.

Definition calculate_mvc_percentages (mvc_data : csv_row)
  : exn + list (string * list (Z * Q)) :=
  calculate_mvc_percentages_from motions mvc_data.

Definition set_full_grasp_mvc (v : Q) (s : state) : state :=
  set_mvc (References v (pinchOne_mvc (mvc s)) (pinchTwo_mvc (mvc s))) s.
Definition set_pinchOne_mvc (v : Q) (s : state) : state :=
  set_mvc (References (full_grasp_mvc (mvc s)) v (pinchTwo_mvc (mvc s))) s.
Definition set_pinchTwo_mvc (v : Q) (s : state) : state :=
  set_mvc (References (full_grasp_mvc (mvc s)) (pinchOne_mvc (mvc s)) v) s.

(** [load_last_mvc], on the row [load_last_participant_mvc] read ([None]
    when there is no table or no row).  The three references are set one
    after the other, so that an exception leaves those set before it.  The
    percentage files written at the end are not part of the state. *)
Definition load_last_mvc (mvc_data : option csv_row) (s : state)
  : outcome state :=
  match mvc_data with
  | Some d =>
      if bool_decide (d = ∅) then
        Returned (set_mvc (References 100 100 100) s)
      else
        match reference_of d "Full Grasp (Grip)" with
        | inl x => Raised x s
        | inr v =>
            let s := set_full_grasp_mvc v s in
            match reference_of d "Pinch (Index Finger)" with
            | inl x => Raised x s
            | inr v =>
                let s := set_pinchOne_mvc v s in
                match reference_of d "Pinch (Middle Finger)" with
                | inl x => Raised x s
                | inr v =>
                    let s := set_pinchTwo_mvc v s in
                    match calculate_mvc_percentages d with
                    | inl x => Raised x s
                    | inr _ => Returned s
                    end
                end
            end
        end
  | None => Returned (set_mvc (References 100 100 100) s)
  end.

(** *** Starting, stopping and the break *)

Definition clear_buffers (s : state) : state := set_plots empty_buffers s.

(** [start_experiment], at wall-clock time [now]. *)
Definition start_experiment (now : Q) (s : state) : state :=
  let s := log_event (current_section s) "SectionStart" "" s in
  let s := set_experiment_running true s in
  let s := set_start_time (Some now) s in
  let s := set_time_elapsed 0%Q s in
  let s := set_trial_start_time 0%Q s in
  let s := clear_buffers s in
  set_timer_active true s.

Definition stop_experiment (s : state) : state :=
  if negb (experiment_running s) || experiment_ended s then s
  else
    let s := log_event (current_section s) "SectionStop" "" s in
    let s := set_experiment_ended true s in
    let s := set_experiment_running false s in
    let s := set_timer_active false s in
    set_gdx_open false s.

(** [start_break]: the update timer is stopped and a single-shot timer for
    [prepare_next_array] is armed. *)
Definition start_break (s : state) : state :=
  let s := log_event (current_section s) "SectionStop" "" s in
  let s := log_event (current_section s) "BreakStart" "" s in
  let s := set_timer_active false s in
  set_break_timers (S (break_timers s)) s.

Definition prepare_next_array (s : state) : outcome state :=
  let s := log_event (current_section s) "BreakStop" "" s in
  let s := set_current_section 2 s in
  let s := set_current_trial_array Array2 s in
  let s := set_current_trial_index 0 s in
  match current_array s !! current_trial_index s with
  | None => Raised IndexError s
  | Some trial_id =>
      let s := set_current_trial_id trial_id s in
      let s := set_start_time (Some 0%Q) s in
      let s := set_trial_start_time 0%Q s in
      let s := set_time_elapsed 0%Q s in
      let s := clear_buffers s in
      match mvc_normalized (current_trial_id s) with
      | None => Raised ValueError s
      | Some m => Returned (set_trapezoid_y (trapezoid_of m) s)
      end
  end.

(** *** The timer callback *)

(** The [if]/[elif] chain that selects [MAX_FORCE]. *)
Definition select_max_force (s : state) : Q :=
  if startswith (current_trial_id s) "FullGrasp" then full_grasp_mvc (mvc s)
  else if startswith (current_trial_id s) "IndexPinch" then
    pinchOne_mvc (mvc s)
  else if startswith (current_trial_id s) "MiddlePinch" then
    pinchTwo_mvc (mvc s)
  else full_grasp_mvc (mvc s).

Definition MIN_FORCE : Q := 0.

(** The two assignments to [new_force]; [None] is the
    [ZeroDivisionError] of the float division. *)
Definition normalized_force (raw_force MAX_FORCE : Q) : option Q :=
  if Qeq_bool (MAX_FORCE - MIN_FORCE) 0 then None
  else
    let new_force := ((raw_force - MIN_FORCE) / (MAX_FORCE - MIN_FORCE))%Q in
    Some (pymax 0 (pymin new_force 1)).

Definition append_buffers (new_force ref_force : Q) (s : state) : state :=
  let b := plots s in
  set_plots
    (Buffers (deque_append max_samples new_force (force_data b))
             (deque_append max_samples (time_elapsed s) (time_data b))
             (deque_append max_samples (time_elapsed s)
                (trapezoid_main_time_data b))
             (deque_append max_samples ref_force
                (trapezoid_main_force_data b))) s.

(** The trial-transition block at the end of [update_plot]. *)
Definition finish_tick (s : state) : outcome state :=
  let current_trial_duration := (time_elapsed s - trial_start_time s)%Q in
  if Qle_bool 30 current_trial_duration then
    let s := log_event (current_section s) "TrialEnd" (current_trial_id s) s in
    let s := set_trial_in_progress false s in
    let s := set_current_trial_index (current_trial_index s + 1) s in
    if (length (current_array s) <=? current_trial_index s)%nat then
      match current_trial_array s with
      | Array1 => Returned (start_break s)
      | Array2 => Returned (stop_experiment s)
      end
    else start_trial s
  else Returned s.

(** [update_plot], at wall-clock time [now], with what [self.gdx.read()]
    returned.  The sample pushed to the LSL outlet and the redrawing of the
    curves leave the state alone. *)
Definition update_plot (now : Q) (measurements : option (list Q)) (s : state)
  : outcome state :=
  if negb (experiment_running s) then Returned s
  else
    match start_time s with
    | None => Raised TypeError s
    | Some t0 =>
        let s := set_time_elapsed (now - t0)%Q s in
        let cycle_time := fmod (time_elapsed s) 30 in
        let s := check_phase_boundaries cycle_time s in
        match measurements with
        | Some [raw_force; _; _; _] =>
            match normalized_force raw_force (select_max_force s) with
            | None => Raised ZeroDivisionError s
            | Some new_force =>
                match get_reference_force s cycle_time with
                | None => Raised ValueError s
                | Some ref_force =>
                    finish_tick (append_buffers new_force ref_force s)
                end
            end
        | _ => Returned s
        end
    end.

(** *** The event loop *)

(** What the GUI thread can be asked to do. *)
Inductive call : Type :=
| Timeout (now : Q) (measurements : option (list Q))
| BreakTimeout
| ClickStart (now : Q)
| ClickLoadMVC (mvc_data : option csv_row)
| CloseEvent.

(** A timer delivers its callback only while it is armed. *)
Definition dispatch (c : call) (s : state) : outcome state :=
  match c with
  | Timeout now measurements =>
      if timer_active s then update_plot now measurements s else Returned s
  | BreakTimeout =>
      match break_timers s with
      | O => Returned s
      | S n => prepare_next_array (set_break_timers n s)
      end
  | ClickStart now => Returned (start_experiment now s)
  | ClickLoadMVC mvc_data => load_last_mvc mvc_data s
  | CloseEvent => Returned (stop_experiment s)
  end.

(** An unhandled exception ends the session: the run stops there. *)
Fixpoint run (calls : list call) (s : state) : outcome state :=
  match calls with
  | [] => Returned s
  | c :: calls' =>
      match dispatch c s with
      | Returned s' => run calls' s'
      | Raised e s' => Raised e s'
      end
  end.

(** How often an event occurs in the event file. *)
Definition count_event (event : string) (rows : list row) : nat :=
  length (filter (fun r => row_event r = event) rows).

Definition events_of (rows : list row) : list string := map row_event rows.

(** *** The instruction label *)

(** A piece of an f-string: literal text, or an [int] printed in place. *)
Inductive token : Type :=
| Text (text : string)
| Int (n : Z).

(** The instruction label: its text (no piece at all for the empty text)
    and its style sheet. *)
Record label : Type := Label {
  label_text : list token;
  styleSheet : string
}.

(** [update_phase_instruction], on the instruction label. *)
Definition update_phase_instruction (cycle_time : Q) (l : label) : label :=
  if Qle_bool 0 cycle_time && Qltb cycle_time 5 then
    let time_remaining := (10 - cycle_time)%Q in
    Label [Text "Rest Phase
("; Int (int_of_float time_remaining); Text "s)"]
      "color: green; font-size: 48px;"
  else if Qle_bool 5 cycle_time && Qltb cycle_time 10 then
    let time_remaining := (10 - cycle_time)%Q in
    let blink := (int_of_float (cycle_time * 3) mod 2 =? 0)%Z in
    if blink then
      Label [Text "Get Ready!
("; Int (int_of_float time_remaining); Text "s)"]
        "color: red; font-size: 48px;"
    else Label [] (styleSheet l)
  else if Qle_bool 10 cycle_time && Qltb cycle_time 15 then
    let time_remaining := (15 - cycle_time)%Q in
    Label [Text "Ramp-Up Phase
("; Int (int_of_float time_remaining); Text "s)"]
      "color: blue; font-size: 48px;"
  else if Qle_bool 15 cycle_time && Qltb cycle_time 25 then
    let time_remaining := (25 - cycle_time)%Q in
    Label [Text "Hold Phase
("; Int (int_of_float time_remaining); Text "s)"]
      "color: orange; font-size: 48px;"
  else if Qle_bool 25 cycle_time && Qltb cycle_time 30 then
    let time_remaining := (30 - cycle_time)%Q in
    Label [Text "Ramp-Down Phase
("; Int (int_of_float time_remaining); Text "s)"]
      "color: purple; font-size: 48px;"
  else l.

End Force.

(** ** The MVC calibration tool: [MVC_Measurement_LIMB.py] *)

Module MVC.

(** [x / y] on floats: [None] is the [ZeroDivisionError]. *)
Definition pydiv (x y : Q) : option Q :=
  if Qeq_bool y 0 then None else Some (x / y)%Q.

(** [sum(l)]: the additions start from [0], left to right. *)
Definition pysum (l : list Q) : Q := foldl Qplus 0%Q l.

(** *** The sensor object *)

(** What the vendor's device object has been told so far. *)
Inductive device : Type := Opened | Started | Stopped | Closed.

(** A worker is about to test its stop flag, is inside the loop body, or
    has returned. *)
Inductive worker : Type := AtTest | InBody | Returned_.

Record sensor : Type := Sensor {
  gdx_device : option device;
  data_queue : list Q;
  latest_value : Q;
  stop_event : bool;
  thread : worker
}.

(** A method call on [self.gdx_device]: an [AttributeError] when the
    attribute holds [None]. *)
Definition on_device {A : Type} (d : option device) (k : device -> exn + A)
  : exn + A :=
  match d with
  | None => inl AttributeError
  | Some dev => k dev
  end.

(** [GDXForceSensor.__init__].  [open_error] is what [open] raised, if it
    did.  The result is what was printed, and the object or the exception
    the constructor ends with. *)
Definition GDXForceSensor_init (open_error : option string)
  : list string * (exn + sensor) :=
  let '(console, gdx_device) :=
    match open_error with
    | None => ([], Some Opened)
    | Some e => (["Error opening sensor: " ++ e]%string, None)
    end in
  (console,
   on_device gdx_device (fun _ =>            (* select_sensors([1]) *)
   on_device gdx_device (fun _ =>            (* start(20) *)
   inr (Sensor (Some Started) [] 0%Q false AtTest)))).

(** *** Shutdown, with the two worker threads *)

(** The statements of [stop_measurement], with those of
    [GDXForceSensor.stop], which it calls last, in line. *)
Inductive instr : Type :=
| TimerStop
| BlinkTimerStop
| SetSensorStopEvent
| JoinForceThread
| SetStopEvent
| JoinThread
| DeviceStop
| DeviceClose
| SetCountdownText.

Definition GDXForceSensor_stop : list instr :=
  [SetStopEvent; JoinThread; DeviceStop; DeviceClose].


(** What the device saw. *)
Inductive action : Type :=
| Read (d : device)
| DidStop
| DidClose.

Record system : Type := System {
  main : list instr;
  sensor_thread : worker;
  force_thread : worker;
  sys_stop_event : bool;
  sensor_stop_event : bool;
  sys_device : device;
  executed : list instr;
  device_log : list action
}.

Inductive who : Type := Main | SensorThread | ForceThread.

(** One loop step of a worker whose flag is [flag]. *)
Definition worker_step (flag : bool) (w : worker) : worker :=
  match w with
  | AtTest => if flag then Returned_ else InBody
  | InBody => AtTest
  | Returned_ => Returned_
  end.

(** One step of the thread the scheduler picked.  [join] does not move
    until the joined thread has returned. *)
Definition step (w : who) (s : system) : system :=
  match w with
  | SensorThread =>
      System (main s) (worker_step (sys_stop_event s) (sensor_thread s))
        (force_thread s) (sys_stop_event s) (sensor_stop_event s)
        (sys_device s) (executed s)
        (match sensor_thread s with
         | InBody => device_log s ++ [Read (sys_device s)]
         | _ => device_log s
         end)
  | ForceThread =>
      System (main s) (sensor_thread s)
        (worker_step (sensor_stop_event s) (force_thread s))
        (sys_stop_event s) (sensor_stop_event s) (sys_device s) (executed s)
        (device_log s)
  | Main =>
      match main s with
      | [] => s
      | i :: rest =>
          let advance stop_ev sensor_ev dev log :=
            System rest (sensor_thread s) (force_thread s) stop_ev sensor_ev
              dev (executed s ++ [i]) log in
          let same :=
            advance (sys_stop_event s) (sensor_stop_event s) (sys_device s)
              (device_log s) in
          match i with
          | SetSensorStopEvent =>
              advance (sys_stop_event s) true (sys_device s) (device_log s)
          | JoinForceThread =>
              match force_thread s with Returned_ => same | _ => s end
          | SetStopEvent =>
              advance true (sensor_stop_event s) (sys_device s) (device_log s)
          | JoinThread =>
              match sensor_thread s with Returned_ => same | _ => s end
          | DeviceStop =>
              advance (sys_stop_event s) (sensor_stop_event s) Stopped
                (device_log s ++ [DidStop])
          | DeviceClose =>
              advance (sys_stop_event s) (sensor_stop_event s) Closed
                (device_log s ++ [DidClose])
          | TimerStop | BlinkTimerStop | SetCountdownText => same
          end
      end
  end.

Definition schedule (ws : list who) (s : system) : system :=
  foldl (fun s w => step w s) s ws.

(** The system when [body] is entered: the device started, both workers
    anywhere in their loops. *)
Definition entering (body : list instr) (w1 w2 : worker) : system :=
  System body w1 w2 false false Started [] [].


(** *** The experiment object and its final step *)

(** A piece of an f-string: literal text, or a number under [:.2f]. *)
Inductive piece : Type :=
| Lit (text : string)
| Fixed2 (x : Q).

(** A row of [mvc_results.csv]; a motion never measured is written as the
    empty string, here [None].  The date and time columns are clock
    readings and are not part of the model. *)
Record result_row : Type := ResultRow {
  ParticipantID : string;
  row_full_grasp : option Q;
  row_pinch_index : option Q;
  row_pinch_middle : option Q
}.

Record experiment : Type := Experiment {
  time_data : list Q;
  force_data : list Q;
  results : gmap string Q;
  motion : string;                 (* motion_dropdown.currentText() *)
  participant : string;            (* the line edit's text, stripped *)
  mvc_value_label : list piece;
  countdown_label : string;
  timer_active : bool;
  saved : list result_row          (* rows appended to mvc_results.csv *)
}.

(** [f"{x:.2f} N" if x is not None else "--"]. *)
Definition shown (x : option Q) : list piece :=
  match x with
  | Some v => [Fixed2 v; Lit " N"]
  | None => [Lit "--"]
  end.

(** The text [update_mvc_label] sets. *)
Definition update_mvc_label (trial1 trial2 overall : option Q) : list piece :=
  [Lit "Final MVC Results:
Trial 1 Average (5-10s): "] ++ shown trial1 ++
  [Lit "
Trial 2 Average (20-25s): "] ++ shown trial2 ++
  [Lit "
Overall Average: "] ++ shown overall.

(** [[f for t, f in zip(time_data, force_data) if lo <= t <= hi]]. *)
Definition forces_between (lo hi : Q) (time_data force_data : list Q)
  : list Q :=
  map snd
    (filter (fun tf => Qle_bool lo (fst tf) && Qle_bool (fst tf) hi = true)
       (zip time_data force_data)).

(** [sum(fs) / len(fs) if fs else None]. *)
Definition average_or_none (fs : list Q) : exn + option Q :=
  match fs with
  | [] => inr None
  | _ =>
      match pydiv (pysum fs) (inject_Z (Z.of_nat (length fs))) with
      | None => inl ZeroDivisionError
      | Some a => inr (Some a)
      end
  end.

(** The [if]/[else] that combines the two averages. *)
Definition overall_average (avg_trial1 avg_trial2 : option Q) : option Q :=
  match avg_trial1, avg_trial2 with
  | Some a1, Some a2 => Some ((a1 + a2) / 2)%Q
  | Some a1, None => Some a1
  | None, _ => avg_trial2
  end.

(** [save_results_to_csv]: one row appended, the dictionary emptied. *)
Definition save_results_to_csv (e : experiment) : experiment :=
  let participant_id :=
    if String.eqb (participant e) "" then "Unknown" else participant e in
  let row :=
    ResultRow participant_id
      (results e !! "Full Grasp (Grip)")
      (results e !! "Pinch (Index Finger)")
      (results e !! "Pinch (Middle Finger)") in
  Experiment (time_data e) (force_data e) ∅ (motion e) (participant e)
    (mvc_value_label e) (countdown_label e) (timer_active e)
    (saved e ++ [row]).

Definition finish_experiment (e : experiment) : outcome experiment :=
  let e :=
    Experiment (time_data e) (force_data e) (results e) (motion e)
      (participant e) (mvc_value_label e) "" false (saved e) in
  let trial1_forces := forces_between 5 10 (time_data e) (force_data e) in
  let trial2_forces := forces_between 20 25 (time_data e) (force_data e) in
  match average_or_none trial1_forces with
  | inl x => Raised x e
  | inr avg_trial1 =>
      match average_or_none trial2_forces with
      | inl x => Raised x e
      | inr avg_trial2 =>
          let overall_avg := overall_average avg_trial1 avg_trial2 in
          let e :=
            Experiment (time_data e) (force_data e)
              (<[motion e := default 0%Q overall_avg]> (results e))
              (motion e) (participant e)
              (update_mvc_label avg_trial1 avg_trial2 overall_avg)
              (countdown_label e) (timer_active e) (saved e) in
          if (size (results e) =? 3)%nat then Returned (save_results_to_csv e)
          else Returned e
      end
  end.

(** [MVCExperiment.__init__]: the sensor is built first; the rest only
    lays out widgets and empty data. *)
Definition MVCExperiment_init (open_error : option string)
  : list string * (exn + (sensor * experiment)) :=
  let '(console, force_sensor) := GDXForceSensor_init open_error in
  (console,
   match force_sensor with
   | inl x => inl x
   | inr sn =>
       inr (sn,
            Experiment [] [] ∅ "Choose the motion" ""
              (update_mvc_label None None None)
              "Select a movement from the dropdown menu and press Start when ready."
              false [])
   end).

(** *** The sensor's worker *)

(** What [gdx_device.read()] did: it returned a list or [None], or it
    raised. *)
Inductive reading : Type :=
| Measurements (m : option (list Q))
| ReadError.

(** The body of the loop of [_read_sensor_data]; an error of [read] is
    printed and the loop goes on. *)
Definition read_sensor_data_body (r : reading) (sn : sensor) : sensor :=
  match r with
  | Measurements (Some (m0 :: _)) =>
      Sensor (gdx_device sn) (data_queue sn ++ [m0]) m0 (stop_event sn)
        (thread sn)
  | Measurements _ =>
      Sensor (gdx_device sn) (data_queue sn) 0%Q (stop_event sn) (thread sn)
  | ReadError => sn
  end.

(** The loop of [_read_sensor_data], on what the reads did, in turn. *)
Definition read_sensor_data (rs : list reading) (sn : sensor) : sensor :=
  foldl (fun sn r => read_sensor_data_body r sn) sn rs.

Definition get_force (sn : sensor) : Q := latest_value sn.

(** *** The measurement session *)

Inductive phase_name : Type :=
| pre_trial1
| trial1
| rest
| trial2
| post_trial2.

Definition phase_durations (p : phase_name) : Z :=
  match p with
  | pre_trial1 => 5
  | trial1 => 5
  | rest => 10
  | trial2 => 5
  | post_trial2 => 5
  end.

(** The methods handed to [QTimer.singleShot]. *)
Inductive callback : Type :=
| StartTrial1
| EndTrial1
| StartTrial2
| EndTrial2
| FinishExperiment.

(** [cb1 == cb2] on bound methods of the one object. *)
Definition callback_eqb (cb1 cb2 : callback) : bool :=
  match cb1, cb2 with
  | StartTrial1, StartTrial1
  | EndTrial1, EndTrial1
  | StartTrial2, StartTrial2
  | EndTrial2, EndTrial2
  | FinishExperiment, FinishExperiment => true
  | _, _ => false
  end.

(** The experiment object while it measures: the attributes of
    [experiment], and those the phases use.  [single_shots] holds the
    single-shot timers that have not fired yet, with their delay in
    milliseconds; [force_thread_stop] is [sensor_stop_event]. *)
Record session : Type := Session {
  exp : experiment;
  force_queue : list (Q * Q);
  force_thread_stop : bool;
  phase : option phase_name;
  global_start_time : option Q;
  phase_start_time : option Q;
  trial_counter_label : string;
  blink_state : bool;
  blink_timer_active : bool;
  start_button_enabled : bool;
  single_shots : list (Z * callback)
}.

Definition set_exp (v : experiment) (s : session) : session :=
  Session v (force_queue s) (force_thread_stop s) (phase s)
    (global_start_time s) (phase_start_time s) (trial_counter_label s)
    (blink_state s) (blink_timer_active s) (start_button_enabled s)
    (single_shots s).
Definition set_force_queue (v : list (Q * Q)) (s : session) : session :=
  Session (exp s) v (force_thread_stop s) (phase s)
    (global_start_time s) (phase_start_time s) (trial_counter_label s)
    (blink_state s) (blink_timer_active s) (start_button_enabled s)
    (single_shots s).
Definition set_force_thread_stop (v : bool) (s : session) : session :=
  Session (exp s) (force_queue s) v (phase s)
    (global_start_time s) (phase_start_time s) (trial_counter_label s)
    (blink_state s) (blink_timer_active s) (start_button_enabled s)
    (single_shots s).
Definition set_phase (v : option phase_name) (s : session) : session :=
  Session (exp s) (force_queue s) (force_thread_stop s) v
    (global_start_time s) (phase_start_time s) (trial_counter_label s)
    (blink_state s) (blink_timer_active s) (start_button_enabled s)
    (single_shots s).
Definition set_global_start_time (v : option Q) (s : session) : session :=
  Session (exp s) (force_queue s) (force_thread_stop s) (phase s)
    v (phase_start_time s) (trial_counter_label s)
    (blink_state s) (blink_timer_active s) (start_button_enabled s)
    (single_shots s).
Definition set_phase_start_time (v : option Q) (s : session) : session :=
  Session (exp s) (force_queue s) (force_thread_stop s) (phase s)
    (global_start_time s) v (trial_counter_label s)
    (blink_state s) (blink_timer_active s) (start_button_enabled s)
    (single_shots s).
Definition set_trial_counter_label (v : string) (s : session) : session :=
  Session (exp s) (force_queue s) (force_thread_stop s) (phase s)
    (global_start_time s) (phase_start_time s) v
    (blink_state s) (blink_timer_active s) (start_button_enabled s)
    (single_shots s).
Definition set_blink_state (v : bool) (s : session) : session :=
  Session (exp s) (force_queue s) (force_thread_stop s) (phase s)
    (global_start_time s) (phase_start_time s) (trial_counter_label s)
    v (blink_timer_active s) (start_button_enabled s)
    (single_shots s).
Definition set_blink_timer_active (v : bool) (s : session) : session :=
  Session (exp s) (force_queue s) (force_thread_stop s) (phase s)
    (global_start_time s) (phase_start_time s) (trial_counter_label s)
    (blink_state s) v (start_button_enabled s)
    (single_shots s).
Definition set_start_button_enabled (v : bool) (s : session) : session :=
  Session (exp s) (force_queue s) (force_thread_stop s) (phase s)
    (global_start_time s) (phase_start_time s) (trial_counter_label s)
    (blink_state s) (blink_timer_active s) v
    (single_shots s).
Definition set_single_shots (v : list (Z * callback)) (s : session)
  : session :=
  Session (exp s) (force_queue s) (force_thread_stop s) (phase s)
    (global_start_time s) (phase_start_time s) (trial_counter_label s)
    (blink_state s) (blink_timer_active s) (start_button_enabled s)
    v.

Definition set_data (td fd : list Q) (e : experiment) : experiment :=
  Experiment td fd (results e) (motion e) (participant e)
    (mvc_value_label e) (countdown_label e) (timer_active e) (saved e).
Definition set_motion (v : string) (e : experiment) : experiment :=
  Experiment (time_data e) (force_data e) (results e) v (participant e)
    (mvc_value_label e) (countdown_label e) (timer_active e) (saved e).
Definition set_participant (v : string) (e : experiment) : experiment :=
  Experiment (time_data e) (force_data e) (results e) (motion e) v
    (mvc_value_label e) (countdown_label e) (timer_active e) (saved e).
Definition set_mvc_value_label (v : list piece) (e : experiment)
  : experiment :=
  Experiment (time_data e) (force_data e) (results e) (motion e)
    (participant e) v (countdown_label e) (timer_active e) (saved e).
Definition set_countdown_label (v : string) (e : experiment) : experiment :=
  Experiment (time_data e) (force_data e) (results e) (motion e)
    (participant e) (mvc_value_label e) v (timer_active e) (saved e).
Definition set_timer_active (v : bool) (e : experiment) : experiment :=
  Experiment (time_data e) (force_data e) (results e) (motion e)
    (participant e) (mvc_value_label e) (countdown_label e) v (saved e).

(** [QTimer.singleShot(phase_durations[p] * 1000, cb)]. *)
Definition singleShot (p : phase_name) (cb : callback) (s : session)
  : session :=
  set_single_shots (single_shots s ++ [(phase_durations p * 1000, cb)%Z]) s.

(** The entries of the dropdown; the first is the placeholder. *)
Definition motion_items : list string :=
  ["Choose the motion"; "Full Grasp (Grip)"; "Pinch (Index Finger)";
   "Pinch (Middle Finger)"].

(** [motion_dropdown.currentIndex() == 0]: the current text is that of the
    first entry, the entries being distinct. *)
Definition placeholder_selected (s : session) : bool :=
  String.eqb (motion (exp s)) "Choose the motion".

(** The body of the loop of [sensor_reading_thread], [new_force] being what
    [get_force] returned.  The queue has no bound: [put] never finds it
    full. *)
Definition sensor_reading_thread_body (now new_force : Q) (s : session)
  : session :=
  set_force_queue (force_queue s ++ [(now, new_force)]) s.

(** [while not self.force_queue.empty(): _, new_force = self.force_queue.get()]. *)
Fixpoint drain (queue : list (Q * Q)) (new_force : Q) : Q :=
  match queue with
  | [] => new_force
  | (_, f) :: queue' => drain queue' f
  end.

(** [update_measurement]; [now1] and [now2] are its two readings of the
    clock. *)
Definition update_measurement (now1 now2 : Q) (s : session) : session :=
  match global_start_time s with
  | None => s
  | Some g =>
      let current_time := (now1 - g)%Q in
      let phase_elapsed :=
        match phase_start_time s with
        | Some p => if Qeq_bool p 0 then 0%Q else (now2 - p)%Q
        | None => 0%Q
        end in
      let remaining p :=
        pretty (int_of_float (inject_Z (phase_durations p) - phase_elapsed)) in
      let new_force := 0%Q in
      let '(text, queue, new_force) :=
        match phase s with
        | Some pre_trial1 =>
            ("Starting in " ++ remaining pre_trial1 ++ "...",
             force_queue s, new_force)
        | Some trial1 =>
            (countdown_label (exp s), [], drain (force_queue s) new_force)
        | Some rest =>
            ("Rest for " ++ remaining rest ++ " seconds...",
             force_queue s, new_force)
        | Some trial2 =>
            (countdown_label (exp s), [], drain (force_queue s) new_force)
        | Some post_trial2 =>
            ("DONE, Now Rest! (" ++ remaining post_trial2 ++ ")",
             force_queue s, new_force)
        | None => (countdown_label (exp s), force_queue s, new_force)
        end%string in
      let td := time_data (exp s) ++ [current_time] in
      let fd := force_data (exp s) ++ [new_force] in
      let '(td, fd) :=
        if (1500 <? length td)%nat then (drop 1 td, drop 1 fd)
        else (td, fd) in
      set_force_queue queue
        (set_exp (set_data td fd (set_countdown_label text (exp s))) s)
  end.

(** [enable_start_button]. *)
Definition enable_start_button (s : session) : session :=
  set_start_button_enabled (negb (placeholder_selected s)) s.

Definition start_experiment (now : Q) (s : session) : session :=
  if placeholder_selected s then s
  else
    let s := set_start_button_enabled false s in
    let s :=
      set_exp
        (set_mvc_value_label (update_mvc_label None None None)
           (set_data [] [] (exp s))) s in
    let s := set_global_start_time (Some now) s in
    let s := set_phase (Some pre_trial1) s in
    let s := set_phase_start_time (global_start_time s) s in
    let s := set_trial_counter_label "Trial: 0 / 2" s in
    let s := set_exp (set_timer_active true (exp s)) s in
    singleShot pre_trial1 StartTrial1 s.

Definition start_trial1 (now : Q) (s : session) : session :=
  let s := set_phase (Some trial1) s in
  let s := set_phase_start_time (Some now) s in
  let s := set_trial_counter_label "Trial: 1 / 2" s in
  let s := set_blink_state true s in
  let s := set_blink_timer_active true s in
  singleShot trial1 EndTrial1 s.

(** [sum(fs) / len(fs) if fs else 0]. *)
Definition average_or_zero (fs : list Q) : exn + Q :=
  match fs with
  | [] => inr 0%Q
  | _ =>
      match pydiv (pysum fs) (inject_Z (Z.of_nat (length fs))) with
      | None => inl ZeroDivisionError
      | Some a => inr a
      end
  end.

Definition end_trial1 (now : Q) (s : session) : outcome session :=
  let s := set_blink_timer_active false s in
  let s := set_exp (set_countdown_label "" (exp s)) s in
  let trial1_forces :=
    forces_between 5 10 (time_data (exp s)) (force_data (exp s)) in
  match average_or_zero trial1_forces with
  | inl x => Raised x s
  | inr avg_trial1 =>
      let s :=
        set_exp
          (set_mvc_value_label (update_mvc_label (Some avg_trial1) None None)
             (exp s)) s in
      let s := set_phase (Some rest) s in
      let s := set_phase_start_time (Some now) s in
      Returned (singleShot rest StartTrial2 s)
  end.

Definition start_trial2 (now : Q) (s : session) : session :=
  let s := set_phase (Some trial2) s in
  let s := set_phase_start_time (Some now) s in
  let s := set_trial_counter_label "Trial: 2 / 2" s in
  let s := set_blink_state true s in
  let s := set_blink_timer_active true s in
  singleShot trial2 EndTrial2 s.

Definition end_trial2 (now : Q) (s : session) : outcome session :=
  let s := set_blink_timer_active false s in
  let trial2_forces :=
    forces_between 20 25 (time_data (exp s)) (force_data (exp s)) in
  match average_or_zero trial2_forces with
  | inl x => Raised x s
  | inr avg_trial2 =>
      let trial1_forces :=
        forces_between 5 10 (time_data (exp s)) (force_data (exp s)) in
      match average_or_zero trial1_forces with
      | inl x => Raised x s
      | inr avg_trial1 =>
          let s :=
            set_exp
              (set_mvc_value_label
                 (update_mvc_label (Some avg_trial1) (Some avg_trial2) None)
                 (exp s)) s in
          let s := set_phase (Some post_trial2) s in
          let s := set_phase_start_time (Some now) s in
          let s := set_exp (set_countdown_label "DONE, Now Rest!" (exp s)) s in
          Returned (singleShot post_trial2 FinishExperiment s)
      end
  end.

Definition toggle_go_visibility (s : session) : session :=
  let s :=
    set_exp
      (set_countdown_label (if blink_state s then "GO!" else "") (exp s)) s in
  set_blink_state (negb (blink_state s)) s.

(** What [stop_measurement] leaves on the experiment object; what it does
    to the threads and the device is [stop_measurement] above. *)
Definition stop_measurement_session (s : session) : session :=
  let s := set_exp (set_timer_active false (exp s)) s in
  let s := set_blink_timer_active false s in
  let s := set_force_thread_stop true s in
  set_exp (set_countdown_label "Measurement stopped." (exp s)) s.

(** [finish_experiment], on the session. *)
Definition finish_session (s : session) : outcome session :=
  match finish_experiment (exp s) with
  | Returned e => Returned (set_exp e s)
  | Raised x e => Raised x (set_exp e s)
  end.

(** What the session can be asked to do: by the force thread, the two
    timers, a single shot that falls due, and the user. *)
Inductive call : Type :=
| Poll (now new_force : Q)
| TimerTimeout (now1 now2 : Q)
| BlinkTimeout
| Shot (cb : callback) (now : Q)
| ClickStart (now : Q)
| ClickStop
| SelectMotion (text : string)
| EditParticipant (text : string).

(** The single shots left once the first one for [cb] has fired; [None]
    when none is set. *)
Fixpoint fire (cb : callback) (shots : list (Z * callback))
  : option (list (Z * callback)) :=
  match shots with
  | [] => None
  | (ms, cb') :: shots' =>
      if callback_eqb cb' cb then Some shots'
      else option_map (cons (ms, cb')) (fire cb shots')
  end.

Definition invoke (cb : callback) (now : Q) (s : session) : outcome session :=
  match cb with
  | StartTrial1 => Returned (start_trial1 now s)
  | EndTrial1 => end_trial1 now s
  | StartTrial2 => Returned (start_trial2 now s)
  | EndTrial2 => end_trial2 now s
  | FinishExperiment => finish_session s
  end.

(** The force thread runs until its stop event is set; a timer delivers
    its callback only while it is armed, a single shot only once; a
    disabled button is not clicked; the dropdown signals a change of its
    entry only. *)
Definition dispatch (c : call) (s : session) : outcome session :=
  match c with
  | Poll now new_force =>
      if force_thread_stop s then Returned s
      else Returned (sensor_reading_thread_body now new_force s)
  | TimerTimeout now1 now2 =>
      if timer_active (exp s) then Returned (update_measurement now1 now2 s)
      else Returned s
  | BlinkTimeout =>
      if blink_timer_active s then Returned (toggle_go_visibility s)
      else Returned s
  | Shot cb now =>
      match fire cb (single_shots s) with
      | Some shots => invoke cb now (set_single_shots shots s)
      | None => Returned s
      end
  | ClickStart now =>
      if start_button_enabled s then Returned (start_experiment now s)
      else Returned s
  | ClickStop => Returned (stop_measurement_session s)
  | SelectMotion text =>
      if bool_decide (text ∈ motion_items)
         && negb (String.eqb text (motion (exp s)))
      then Returned (enable_start_button (set_exp (set_motion text (exp s)) s))
      else Returned s
  | EditParticipant text =>
      Returned (set_exp (set_participant text (exp s)) s)
  end.

(** An unhandled exception ends the session: the run stops there. *)
Fixpoint run (calls : list call) (s : session) : outcome session :=
  match calls with
  | [] => Returned s
  | c :: calls' =>
      match dispatch c s with
      | Returned s' => run calls' s'
      | Raised e s' => Raised e s'
      end
  end.

(** The session [MVCExperiment.__init__] leaves around its experiment. *)
Definition session_init (e : experiment) : session :=
  Session e [] false None None None "Trial: 0 / 2" true false true [].

End MVC.

(** ** The sensor check: [gdxtest.py] *)

Module Gdxtest.

(** Number of data points of the plotted window. *)
Definition max_points : nat := 200.

(** [queue.Queue(maxsize=100)]. *)
Definition maxsize : nat := 100.

(** The globals of the script that change once the animation runs: the
    plotted window, one row of [max_points] values per enabled sensor, and
    the queue from the reading thread to the animation. *)
Record globals : Type := Globals {
  y_data : list (list Q);
  data_queue : list (list Q)
}.

(** [np.zeros((num_sensors, max_points))] with the empty queue. *)
Definition start (num_sensors : nat) : globals :=
  Globals (replicate num_sensors (replicate max_points 0%Q)) [].

(** [np.clip(x, lo, hi)]. *)
Definition clip (x lo hi : Q) : Q :=
  if Qltb x lo then lo else if Qltb hi x then hi else x.

(** The body of the loop of [sensor_reading_thread], [measurements] being
    what [read] returned: [put_nowait] raises [queue.Full], which is
    passed over, when the queue holds [maxsize] readings. *)
Definition sensor_reading_thread_body (measurements : option (list Q))
    (g : globals) : globals :=
  match measurements with
  | Some m =>
      if (length (data_queue g) <? maxsize)%nat then
        Globals (y_data g) (data_queue g ++ [m])
      else g
  | None => g
  end.

(** The [for] loop of [update] over one reading, from the value of sensor
    [i] on.  Indexing [y_data[i]] raises [IndexError] when there is no row
    [i]; otherwise the row is shifted left by one and takes the new value
    at its end. *)
Fixpoint shift_in (i : nat) (measurements : list Q) (y : list (list Q))
  : outcome (list (list Q)) :=
  match measurements with
  | [] => Returned y
  | value :: measurements' =>
      let normalized_value := clip (value / 50) (-1) 1 in
      match y !! i with
      | None => Raised IndexError y
      | Some row =>
          shift_in (S i) measurements'
            (<[i := drop 1 row ++ [normalized_value]]> y)
      end
  end.

(** The [while True] loop of [update]: it ends when [get_nowait] finds the
    queue empty. *)
Fixpoint process (queue : list (list Q)) (y : list (list Q))
  : outcome globals :=
  match queue with
  | [] => Returned (Globals y [])
  | measurements :: queue' =>
      match shift_in 0 measurements y with
      | Returned y' => process queue' y'
      | Raised e y' => Raised e (Globals y' queue')
      end
  end.

(** [update(frame)]; the lines drawn from [y_data] are left out. *)
Definition update (g : globals) : outcome globals :=
  process (data_queue g) (y_data g).

(** What happens next: the reading thread completes a pass of its loop, or
    the animation calls [update]. *)
Inductive step : Type :=
| Read (measurements : option (list Q))
| Animate.

Definition do_step (st : step) (g : globals) : outcome globals :=
  match st with
  | Read measurements => Returned (sensor_reading_thread_body measurements g)
  | Animate => update g
  end.

(** An exception in [update] ends the animation: the run stops there. *)
Fixpoint run (steps : list step) (g : globals) : outcome globals :=
  match steps with
  | [] => Returned g
  | st :: steps' =>
      match do_step st g with
      | Returned g' => run steps' g'
      | Raised e g' => Raised e g'
      end
  end.

End Gdxtest.

(** ** What the specification says, in its own words *)

Module Spec.

Import Force.

(** The trapezoid of the force guidance: flat zero, a straight line from
    [(10, 0)] to [(15, target)], flat at [target], a straight line from
    [(25, target)] to [(30, 0)], and zero outside the cycle. *)
Definition trapezoid (target t : Q) : Q :=
  if Qlt_le_dec t 10 then 0
  else if Qlt_le_dec t 15 then 0 + (target - 0) * ((t - 10) / (15 - 10))
  else if Qlt_le_dec t 25 then target
  else if Qlt_le_dec t 30 then target + (0 - target) * ((t - 25) / (30 - 25))
  else 0.

(** The %MVC levels with the two characters that spell them. *)
Definition level_texts : list (string * Z) :=
  [("20", 20); ("40", 40); ("60", 60); ("80", 80)]%Z.

(** [clamp(x, lo, hi)]. *)
Definition clamp (x lo hi : Q) : Q :=
  if Qlt_le_dec x lo then lo else if Qlt_le_dec hi x then hi else x.

(** The twelve trial identifiers, one per grip type and level. *)
Definition all_trial_ids : list string :=
  grip ← grips; mvc ← levels; [grip ++ mvc]%string.

(** How many times a trial identifier occurs in a block. *)
Definition occurrences (trial_id : string) (blk : list string) : nat :=
  length (filter (fun x => x = trial_id) blk).

(** The fixed multiset of a block: 60 identifiers, 5 of each of the
    twelve kinds. *)
Definition fixed_multiset (blk : list string) : Prop :=
  length blk = 60%nat
  /\ Forall (fun trial_id => occurrences trial_id blk = 5%nat) all_trial_ids.

(** The contents of the two blocks. *)
Abbreviation blocks s := (trial_array1 s, trial_array2 s).

(** A session as constructed with two fixed generators, for examples. *)
Definition example_session : state :=
  final (init (fun _ => 0) (fun i => i * 7 + 3)).

(** The same session once Start has been pressed. *)
Definition example_running : state :=
  final (run [ClickStart 1000] example_session).

(** A tick at a whole second that reads a sample. *)
Definition tick (t : Z) : call :=
  Timeout (inject_Z t) (Some [50; 0; 0; 0]%Q).

(** The first block after Start at 1000 s: 59 trials with one tick each, on
    the second they complete; the 60th trial with a tick in every phase and
    the one that completes it; then two more ticks. *)
Definition block1_ticks : list call :=
  map (fun k => tick (1000 + 30 * Z.of_nat k)) (seq 1 59)
  ++ map tick [2771; 2776; 2781; 2786; 2796; 2800; 2801; 2802]%Z.

(** The session during the break. *)
Definition example_break : state :=
  final (run (ClickStart 1000 :: block1_ticks) example_session).

(** The session after the break, Start pressed again at 5000 s. *)
Definition example_block2 : state :=
  final (run (block1_ticks ++ [BreakTimeout; ClickStart 5000])
           example_running).

(** The second block: a tick in every phase of the first trial, then one
    tick per completion; after the last, a tick, the window closed, Start
    pressed once more, two ticks and the window closed again. *)
Definition block2_calls : list call :=
  map tick [5001; 5006; 5011; 5016; 5026]%Z
  ++ map (fun k => tick (5000 + 30 * Z.of_nat k)) (seq 1 60)
  ++ [tick 6801; CloseEvent; ClickStart 7000; tick 7031; tick 7032;
      CloseEvent].

(** A last row of the calibration table in which one motion's result is
    zero, the value the calibration tool stores for a run without samples. *)
Definition zero_row : csv_row :=
  {[ "Full Grasp (Grip)" := Some "251.3";
     "Pinch (Index Finger)" := Some "0";
     "Pinch (Middle Finger)" := Some "38.75" ]}.

(** *** The phase timer *)

(** A boundary is due at cycle time [c] when it has been reached and its
    event is not in the set of events fired for the trial. *)
Definition due (c : Q) (logged : gset string) (be : Q * string) : bool :=
  Qle_bool be.1 c && negb (bool_decide (be.2 ∈ logged)).

(** The events of the due boundaries among [l], in the order of [l]. *)
Definition fired (c : Q) (logged : gset string) (l : list (Q * string))
  : list string :=
  (filter (fun be => due c logged be = true) l).*2.

(** Offsets in ascending order. *)
Fixpoint ascending (l : list (Q * string)) : Prop :=
  match l with
  | [] => True
  | be :: l' => Forall (fun be' => (be.1 <= be'.1)%Q) l' /\ ascending l'
  end.

(** *** The trial sequencer *)

(** The rows a run has added to the event file. *)
Definition appended (s0 s' : state) : list row :=
  drop (length (csv_file s0)) (csv_file s').

(** What the trial sequencer goes by: the block in use and the position in
    it, the lengths of the blocks, the timers, the two latches, and the
    tallies of the three rows it is responsible for. *)
Record sequencer : Type := Sequencer {
  q_array : block;
  q_index : nat;
  q_len1 : nat;
  q_len2 : nat;
  q_break_timers : nat;
  q_timer : bool;
  q_running : bool;
  q_ended : bool;
  q_trial_ends : nat;
  q_break_starts : nat;
  q_section_stops : nat
}.

Definition sequencer_of (s : state) : sequencer :=
  Sequencer (current_trial_array s) (current_trial_index s)
    (length (trial_array1 s)) (length (trial_array2 s))
    (break_timers s) (timer_active s) (experiment_running s)
    (experiment_ended s)
    (count_event "TrialEnd" (csv_file s))
    (count_event "BreakStart" (csv_file s))
    (count_event "SectionStop" (csv_file s)).

(** The sequencer's view of [stop_experiment]. *)
Definition q_stop (q : sequencer) : sequencer :=
  if negb (q_running q) || q_ended q then q
  else
    Sequencer (q_array q) (q_index q) (q_len1 q) (q_len2 q)
      (q_break_timers q) false false true
      (q_trial_ends q) (q_break_starts q) (S (q_section_stops q)).

(** The sequencer's view of [start_break]. *)
Definition q_break (q : sequencer) : sequencer :=
  Sequencer (q_array q) (q_index q) (q_len1 q) (q_len2 q)
    (S (q_break_timers q)) false (q_running q) (q_ended q)
    (q_trial_ends q) (S (q_break_starts q)) (S (q_section_stops q)).

(** The sequencer's view of the trial transition, [completed] telling
    whether the trial has lasted its 30 s. *)
Definition q_finish (completed : bool) (q : sequencer) : sequencer :=
  if completed then
    let q1 :=
      Sequencer (q_array q) (q_index q + 1) (q_len1 q) (q_len2 q)
        (q_break_timers q) (q_timer q) (q_running q) (q_ended q)
        (S (q_trial_ends q)) (q_break_starts q) (q_section_stops q) in
    let len := match q_array q with Array1 => q_len1 q | Array2 => q_len2 q end in
    if (len <=? q_index q1)%nat then
      match q_array q with
      | Array1 => q_break q1
      | Array2 => q_stop q1
      end
    else q1
  else q.

(** The sequencer's view of [update_plot]: [sampled] tells whether the
    tick got as far as the trial transition. *)
Definition q_update (sampled completed : bool) (q : sequencer) : sequencer :=
  if negb (q_running q) then q
  else if sampled then q_finish completed q
  else q.

(** The sequencer's view of [prepare_next_array]. *)
Definition q_prepare (q : sequencer) : sequencer :=
  Sequencer Array2 0 (q_len1 q) (q_len2 q)
    (q_break_timers q) (q_timer q) (q_running q) (q_ended q)
    (q_trial_ends q) (q_break_starts q) (q_section_stops q).

(** The sequencer's view of [start_experiment]. *)
Definition q_start (q : sequencer) : sequencer :=
  Sequencer (q_array q) (q_index q) (q_len1 q) (q_len2 q)
    (q_break_timers q) true true (q_ended q)
    (q_trial_ends q) (q_break_starts q) (q_section_stops q).

(** The sequencer's view of a call of the event loop. *)
Definition q_dispatch (c : call) (sampled completed : bool) (q : sequencer)
  : sequencer :=
  match c with
  | Timeout _ _ => if q_timer q then q_update sampled completed q else q
  | BreakTimeout =>
      match q_break_timers q with
      | O => q
      | S n =>
          q_prepare
            (Sequencer (q_array q) (q_index q) (q_len1 q) (q_len2 q) n
               (q_timer q) (q_running q) (q_ended q) (q_trial_ends q)
               (q_break_starts q) (q_section_stops q))
      end
  | ClickStart _ => q_start q
  | ClickLoadMVC _ => q
  | CloseEvent => q_stop q
  end.

Definition is_start (c : call) : bool :=
  match c with ClickStart _ => true | _ => false end.

Definition is_timeout (c : call) : bool :=
  match c with Timeout _ _ => true | _ => false end.

Definition is_load (c : call) : bool :=
  match c with ClickLoadMVC _ => true | _ => false end.

(** In the first block, with no break pending: either the block is still
    running and no break has been entered since [q0], or the break has been
    entered once, on the completion that exhausted the block, and the
    update timer is stopped. *)
Definition first_block_inv (q0 q : sequencer) : Prop :=
  (q_array q = Array1 /\ q_break_timers q = 0%nat
   /\ q_len1 q = q_len1 q0
   /\ (q_index q + q_trial_ends q0 = q_index q0 + q_trial_ends q)%nat
   /\ (q_index q < q_len1 q)%nat
   /\ q_break_starts q = q_break_starts q0)
  \/ (q_timer q = false
      /\ q_break_starts q = S (q_break_starts q0)
      /\ (q_len1 q0 + q_trial_ends q0 = q_index q0 + q_trial_ends q)%nat).

(** In the second block: one termination row since [q0] exactly when the
    latch is set, and until then the position counts the completions and
    stays inside the block. *)
Definition second_block_inv (q0 q : sequencer) : Prop :=
  q_array q = Array2 /\ q_break_timers q = 0%nat
  /\ q_len2 q = q_len2 q0
  /\ q_section_stops q
     = (q_section_stops q0 + if q_ended q then 1 else 0)%nat
  /\ (q_ended q = false ->
      (q_index q + q_trial_ends q0 = q_index q0 + q_trial_ends q)%nat
      /\ (q_index q < q_len2 q)%nat).

(** What the rows of the event file say apart from when they were
    written: section, event and trial. *)
Definition logged (rows : list row) : list (nat * string * string) :=
  map (fun r => (row_section r, row_event r, row_trial r)) rows.

(** *** What a session keeps *)

Definition within (lo hi x : Q) : Prop := (lo <= x /\ x <= hi)%Q.

(** The four plot buffers move together, never hold more than 30 s of
    samples, and hold normalised forces only. *)
Definition buffers_ok (b : buffers) : Prop :=
  length (time_data b) = length (force_data b)
  /\ length (trapezoid_main_time_data b) = length (force_data b)
  /\ length (trapezoid_main_force_data b) = length (force_data b)
  /\ (length (force_data b) <= max_samples)%nat
  /\ Forall (within 0 1) (force_data b)
  /\ Forall (within 0 (4 # 5)) (trapezoid_main_force_data b).

(** The blocks are the generated ones, the trial shown is one of them, and
    a running session has a start time. *)
Definition well_formed (s : state) : Prop :=
  trial_array1 s ≡ₚ conditions
  /\ trial_array2 s ≡ₚ conditions
  /\ current_trial_id s ∈ conditions
  /\ (experiment_running s = true -> is_Some (start_time s)).

(** The trial shown is the one the position in the block points at. *)
Definition shows_current (s : state) : Prop :=
  forall trial_id,
    current_array s !! current_trial_index s = Some trial_id ->
    current_trial_id s = trial_id.

(** No reference is zero. *)
Definition references_nonzero (s : state) : Prop :=
  ~ (full_grasp_mvc (mvc s) == 0)%Q
  /\ ~ (pinchOne_mvc (mvc s) == 0)%Q
  /\ ~ (pinchTwo_mvc (mvc s) == 0)%Q.

(** Text written with digits, a sign and a point only.  On such text
    [float] accepts what [pyfloat] accepts: the exponents, [inf], [nan],
    blanks and underscores that [float] also reads do not occur. *)
Definition plain_char (c : ascii) : bool :=
  match digit c with
  | Some _ => true
  | None => Ascii.eqb c "." || Ascii.eqb c "+" || Ascii.eqb c "-"
  end.

Definition plain (text : string) : bool :=
  forallb plain_char (list_ascii_of_string text).

(** A magnitude that no float rounds to zero from: the least positive
    float is about [4.9e-324]. *)
Definition float_min : Q := 1 # (10 ^ 300).

(** The cells of the three motions that hold text hold plain text. *)
Definition plain_row (d : csv_row) : Prop :=
  Forall (fun motion =>
            match d !! motion with
            | Some (Some text) => plain text = true
            | _ => True
            end) motions.

(** Moreover a number in such a cell is zero or not below [float_min], so
    that the float read from it is zero exactly when the number is. *)
Definition exact_row (d : csv_row) : Prop :=
  Forall (fun motion =>
            match d !! motion with
            | Some (Some text) =>
                plain text = true
                /\ match pyfloat text with
                   | Some q => (q == 0 \/ float_min <= Qabs q)%Q
                   | None => True
                   end
            | _ => True
            end) motions.

(** A calibration row that has, for each of the three motions, no column
    or a cell with a plain number not below [float_min] in magnitude. *)
Definition usable_row (d : csv_row) : Prop :=
  Forall (fun motion =>
            match d !! motion with
            | None => True
            | Some None => False
            | Some (Some text) =>
                plain text = true
                /\ match pyfloat text with
                   | Some q => (float_min <= Qabs q)%Q
                   | None => False
                   end
            end) motions.

(** A row with two measured motions and no column for the third. *)
Definition usable_example : csv_row :=
  {[ "Full Grasp (Grip)" := Some "251.3";
     "Pinch (Index Finger)" := Some "41.5" ]}.

(** Every row loaded during the calls is usable. *)
Definition loads_usable (calls : list call) : Prop :=
  Forall (fun c =>
            match c with
            | ClickLoadMVC (Some d) => usable_row d
            | _ => True
            end) calls.

(** Every row loaded during the calls is exact. *)
Definition loads_exact (calls : list call) : Prop :=
  Forall (fun c =>
            match c with
            | ClickLoadMVC (Some d) => exact_row d
            | _ => True
            end) calls.

(** The reference a row gives for a motion: the number in its cell, the
    placeholder 100 without a cell or a number. *)
Definition reference_value (d : csv_row) (key : string) : Q :=
  match d !! key with
  | Some (Some text) => default 100%Q (pyfloat text)
  | _ => 100%Q
  end.

(** A line of the table that ends after the first motion's column. *)
Definition short_row : csv_row :=
  {[ "ParticipantID" := Some "P01"; "Full Grasp (Grip)" := Some "251.3";
     "Pinch (Index Finger)" := None; "Pinch (Middle Finger)" := None ]}.

(** A row with a cell that is no number. *)
Definition garbled_row : csv_row :=
  {[ "Full Grasp (Grip)" := Some "251.3";
     "Pinch (Index Finger)" := Some "4-1.5";
     "Pinch (Middle Finger)" := Some "38.75" ]}.

(** *** The calibration tool *)

(** Sample [i] of a recording is the [i]-th time with the [i]-th force;
    these are the forces of the samples whose time lies in the window
    [[lo, hi]], in recording order. *)
Definition window_forces (lo hi : Q) (times forces : list Q) : list Q :=
  omap (fun i =>
          match times !! i, forces !! i with
          | Some t, Some f =>
              if Qlt_le_dec t lo then None
              else if Qlt_le_dec hi t then None
              else Some f
          | _, _ => None
          end)
       (seq 0 (length times)).

(** The arithmetic mean. *)
Definition mean (l : list Q) : Q :=
  (fold_right Qplus 0 l / inject_Z (Z.of_nat (length l)))%Q.

(** The average of a window, missing when the window has no sample. *)
Definition window_average (lo hi : Q) (e : MVC.experiment) : option Q :=
  match window_forces lo hi (MVC.time_data e) (MVC.force_data e) with
  | [] => None
  | w => Some (mean w)
  end.

(** The overall MVC: the mean of the two averages, or the one there is. *)
Definition overall_mvc (m1 m2 : option Q) : option Q :=
  match m1, m2 with
  | Some x, Some y => Some ((x + y) / 2)%Q
  | Some x, None => Some x
  | None, Some y => Some y
  | None, None => None
  end.

(** Equal as numbers, missing alike. *)
Definition same_value (x y : option Q) : Prop := option_Forall2 Qeq x y.

(** What becomes of the dictionary [d] that [finish_experiment] has just
    stored into: it stays the session's dictionary, or, holding three
    motions, it is written out as a row and the session starts an empty
    one. *)
Definition kept_or_saved (e e' : MVC.experiment) (d : gmap string Q) : Prop :=
  (size d <> 3%nat /\ MVC.results e' = d /\ MVC.saved e' = MVC.saved e)
  \/ (size d = 3%nat /\ MVC.results e' = ∅
      /\ exists r, MVC.saved e' = MVC.saved e ++ [r]
                   /\ MVC.row_full_grasp r = d !! "Full Grasp (Grip)"
                   /\ MVC.row_pinch_index r = d !! "Pinch (Index Finger)"
                   /\ MVC.row_pinch_middle r = d !! "Pinch (Middle Finger)").

(** A calibration run with samples in both windows. *)
Definition example_recording : MVC.experiment :=
  MVC.Experiment [4; 5; 7.5; 10; 12; 20; 22; 25; 26]%Q
    [0; 100; 120; 110; 0; 90; 100; 95; 0]%Q
    ∅ "Full Grasp (Grip)" "P01" (MVC.update_mvc_label None None None) ""
    true [].

(** A run whose timer never fired: no sample at all, no motion measured
    before. *)
Definition example_silent : MVC.experiment :=
  MVC.Experiment [] [] ∅ "Full Grasp (Grip)" "P01"
    (MVC.update_mvc_label None None None) "" true [].

(** The same silent run as the third motion of a participant. *)
Definition example_silent_third : MVC.experiment :=
  MVC.Experiment [] []
    {[ "Full Grasp (Grip)" := 251.3%Q; "Pinch (Index Finger)" := 41.5%Q ]}
    "Pinch (Middle Finger)" "P01"
    (MVC.update_mvc_label None None None) "" true [].

(** *** The shutdown *)



Definition is_set_sensor_stop (i : MVC.instr) : bool :=
  match i with MVC.SetSensorStopEvent => true | _ => false end.





(** *** The instruction label *)

(** The second of the cycle the countdown shown at [t] runs to. *)
Definition countdown_end (t : Q) : Q :=
  if Qlt_le_dec t 10 then 10
  else if Qlt_le_dec t 15 then 15
  else if Qlt_le_dec t 25 then 25
  else 30.

(** The number a label counts down with, if it shows one. *)
Definition shown_number (l : label) : option Z :=
  match label_text l with
  | [Text _; Int n; Text _] => Some n
  | _ => None
  end.

(** The label is blank. *)
Definition blank (l : label) : bool :=
  match label_text l with [] => true | _ => false end.

(** *** The measurement session of the calibration tool *)

(** The forces the force thread queued during the calls. *)
Definition polled (calls : list MVC.call) : list Q :=
  omap (fun c =>
          match c with
          | MVC.Poll _ new_force => Some new_force
          | _ => None
          end) calls.

(** The recording moves in step, holds at most 1500 samples, and holds
    nothing but zeros and forces out of [fs]; so does the queue. *)
Definition recording_ok (fs : list Q) (s : MVC.session) : Prop :=
  length (MVC.time_data (MVC.exp s)) = length (MVC.force_data (MVC.exp s))
  /\ (length (MVC.force_data (MVC.exp s)) <= 1500)%nat
  /\ Forall (fun f => f = 0%Q \/ f ∈ fs) (MVC.force_data (MVC.exp s))
  /\ Forall (fun tf => tf.2 ∈ fs) (MVC.force_queue s).

(** The phase is one of the two trials. *)
Definition in_trial (p : option MVC.phase_name) : bool :=
  match p with
  | Some MVC.trial1 | Some MVC.trial2 => true
  | _ => false
  end.

(** The first value of a reading that has one. *)
Definition first_value (r : MVC.reading) : option Q :=
  match r with
  | MVC.Measurements (Some (m0 :: _)) => Some m0
  | _ => None
  end.

(** The read did not raise. *)
Definition answered (r : MVC.reading) : bool :=
  match r with MVC.ReadError => false | _ => true end.

(** A session that was started at 1000 s and has reached the first trial,
    with three forces queued since. *)
Definition example_trial1 : MVC.session :=
  final
    (MVC.run
       [MVC.SelectMotion "Full Grasp (Grip)"; MVC.ClickStart 1000;
        MVC.Poll 1004.99 3; MVC.Shot MVC.StartTrial1 1005;
        MVC.Poll 1005.01 120; MVC.Poll 1005.03 125]
       (MVC.session_init example_silent)).

(** A session that was started at 1000 s and is still counting down to the
    first trial. *)
Definition example_countdown : MVC.session :=
  final
    (MVC.run [MVC.SelectMotion "Full Grasp (Grip)"; MVC.ClickStart 1000]
       (MVC.session_init example_silent)).

(** The call is a choice in the dropdown. *)
Definition is_selection (c : MVC.call) : bool :=
  match c with MVC.SelectMotion _ => true | _ => false end.

(** A session with a motion chosen and Start not yet pressed. *)
Definition example_chosen : MVC.session :=
  final
    (MVC.run [MVC.SelectMotion "Full Grasp (Grip)"]
       (MVC.session_init example_silent)).

(** *** The sensor check *)

(** The values of sensor [i] in the readings that have one, in turn. *)
Definition channel (i : nat) (queue : list (list Q)) : list Q :=
  omap (fun measurements => measurements !! i) queue.

(** A sensor value as plotted: a fiftieth of it, cut to [[-1, 1]]. *)
Definition plotted (value : Q) : Q :=
  let v := (value / 50)%Q in
  if Qlt_le_dec v (-1) then (-1)%Q else if Qlt_le_dec 1 v then 1%Q else v.

(** The last [n] entries of a list. *)
Definition last_n {A : Type} (n : nat) (l : list A) : list A :=
  drop (length l - n) l.

(** A row once the value of its sensor, if the reading has one, is
    shifted in. *)
Definition pushed (row : list Q) (value : option Q) : list Q :=
  match value with
  | Some v => drop 1 row ++ [plotted v]
  | None => row
  end.

(** What the rows hold once the readings [good] have been shifted in. *)
Definition shifted (y y' : list (list Q)) (good : list (list Q)) : Prop :=
  length y' = length y
  /\ forall i row,
       y !! i = Some row ->
       y' !! i
       = Some (drop (length (channel i good))
                 (row ++ map plotted (channel i good))).

(** The plotted window has full rows of values in [[-1, 1]]. *)
Definition window_ok (y : list (list Q)) : Prop :=
  Forall (fun row => length row = Gdxtest.max_points
                     /\ Forall (within (-1) 1) row) y.

(** Two enabled sensors, and three readings waiting. *)
Definition example_queue : Gdxtest.globals :=
  final
    (Gdxtest.run
       [Gdxtest.Read (Some [25; -10]%Q); Gdxtest.Read None;
        Gdxtest.Read (Some [75; 5]%Q); Gdxtest.Read (Some [-60; 0]%Q)]
       (Gdxtest.start 2)).

(** The same with a reading of three values in second place. *)
Definition example_long_reading : Gdxtest.globals :=
  final
    (Gdxtest.run
       [Gdxtest.Read (Some [25; -10]%Q); Gdxtest.Read (Some [1; 2; 3]%Q);
        Gdxtest.Read (Some [-60; 0]%Q)]
       (Gdxtest.start 2)).

(** One full row per enabled sensor, and a queue within its bound. *)
Definition check_ok (num_sensors : nat) (g : Gdxtest.globals) : Prop :=
  length (Gdxtest.y_data g) = num_sensors
  /\ window_ok (Gdxtest.y_data g)
  /\ (length (Gdxtest.data_queue g) <= Gdxtest.maxsize)%nat.

End Spec.

(** * Properties *)

Import Force Spec.

(** ** Arithmetic of the primitives *)

Lemma Qltb_lt (x y : Q) : Qltb x y = true <-> (x < y)%Q.
Proof.
  unfold Qltb. rewrite negb_true_iff. split.
  - intros H. apply Qnot_le_lt. intros Hle. apply Qle_bool_iff in Hle.
    congruence.
  - intros H. destruct (Qle_bool y x) eqn:E; [|done].
    apply Qle_bool_iff in E. lra.
Qed.

Lemma Qltb_ge (x y : Q) : Qltb x y = false <-> (y <= x)%Q.
Proof. unfold Qltb. rewrite negb_false_iff. apply Qle_bool_iff. Qed.

Lemma Qle_bool_gt (x y : Q) : Qle_bool x y = false <-> (y < x)%Q.
Proof.
  split.
  - intros H. apply Qnot_le_lt. intros Hle. apply Qle_bool_iff in Hle.
    congruence.
  - intros H. destruct (Qle_bool x y) eqn:E; [|done].
    apply Qle_bool_iff in E. lra.
Qed.

(** Turn the boolean comparisons among the hypotheses into orders on [Q]. *)
Ltac bool_to_Q :=
  repeat match goal with
  | H : _ && _ = true |- _ => apply andb_true_iff in H as [? ?]
  | H : _ && _ = false |- _ => apply andb_false_iff in H
  | H : Qle_bool _ _ = true |- _ => apply Qle_bool_iff in H
  | H : Qle_bool _ _ = false |- _ => apply Qle_bool_gt in H
  | H : Qltb _ _ = true |- _ => apply Qltb_lt in H
  | H : Qltb _ _ = false |- _ => apply Qltb_ge in H
  | H : _ \/ _ |- _ => destruct H
  end.

(** The remainder of a float by a positive modulus lies in [[0, m)]. *)
Lemma fmod_bounds (x m : Q) : (0 < m)%Q -> (0 <= fmod x m /\ fmod x m < m)%Q.
Proof.
  intros Hm. unfold fmod.
  pose proof (Qfloor_le (x / m)) as Hlo.
  pose proof (Qlt_floor (x / m)) as Hhi.
  rewrite inject_Z_plus in Hhi. change (inject_Z 1) with 1%Q in Hhi.
  assert (Hx : (x == m * (x / m))%Q) by (field; lra).
  set (f := inject_Z (Qfloor (x / m))) in *.
  set (q := (x / m)%Q) in *.
  split.
  - assert (H : (m * f <= m * q)%Q) by (apply Qmult_le_l; lra).
    rewrite <- Hx in H. lra.
  - assert (H : (m * q < m * (f + 1))%Q) by (apply Qmult_lt_l; lra).
    rewrite <- Hx in H.
    assert (H2 : (m * (f + 1) == m * f + m)%Q) by ring.
    rewrite H2 in H. lra.
Qed.

(** ** The reference force *)

(** The last two characters of a trial identifier are its level. *)
Lemma mvc_normalized_trial (grip level : string) (L : Z) :
  grip ∈ grips -> (level, L) ∈ level_texts ->
  mvc_normalized (grip ++ level)%string = Some (inject_Z L / 100)%Q.
Proof.
  intros Hg Hl. unfold grips in Hg. unfold level_texts in Hl.
  repeat (apply elem_of_cons in Hg as [-> | Hg]);
    try (by apply elem_of_nil in Hg);
    repeat (apply elem_of_cons in Hl as [[= -> ->] | Hl]);
    try (by apply elem_of_nil in Hl); reflexivity.
Qed.

(** C2.  Whatever the cycle time, for a trial of any grip type whose level
    is [L], [get_reference_force] returns, and what it returns is the
    trapezoid with target [L / 100]: zero before 10 s, the rising line on
    [[10, 15)], the target on [[15, 25)], the falling line on [[25, 30)],
    zero elsewhere. *)
Theorem get_reference_force_trapezoid
    (s : state) (grip level : string) (L : Z) (t : Q) :
  grip ∈ grips -> (level, L) ∈ level_texts ->
  current_trial_id s = (grip ++ level)%string ->
  exists v, get_reference_force s t = Some v
            /\ (v == trapezoid (inject_Z L / 100) t)%Q.
Proof.
  intros Hg Hl Hid. unfold get_reference_force.
  rewrite Hid, (mvc_normalized_trial _ _ _ Hg Hl).
  set (m := (inject_Z L / 100)%Q). unfold trapezoid.
  destruct (Qle_bool 0 t && Qltb t 10) eqn:E1;
    [|destruct (Qle_bool 10 t && Qltb t 15) eqn:E2;
      [|destruct (Qle_bool 15 t && Qltb t 25) eqn:E3;
        [|destruct (Qle_bool 25 t && Qltb t 30) eqn:E4]]];
    eexists; (split; [reflexivity|]);
    bool_to_Q;
    repeat destruct (Qlt_le_dec _ _);
    try lra; try (field_simplify; lra); try (field; lra).
Qed.

Lemma get_reference_force_trapezoid_witness :
  exists v, get_reference_force example_session 12 = Some v
            /\ (v == trapezoid (inject_Z 20 / 100) 12)%Q.
Proof.
  apply (get_reference_force_trapezoid example_session "IndexPinch" "20" 20 12).
  - vm_compute. repeat constructor.
  - vm_compute. repeat constructor.
  - vm_compute. reflexivity.
Defined.

(** The trapezoid is continuous at its four corners. *)
Lemma trapezoid_corners (target : Q) :
  (trapezoid target 10 == 0 /\ trapezoid target 15 == target
   /\ trapezoid target 25 == target /\ trapezoid target 30 == 0)%Q.
Proof.
  unfold trapezoid. repeat split;
    repeat destruct (Qlt_le_dec _ _); try lra; try (exfalso; lra); field.
Qed.

(** ** Normalisation *)

(** With a positive reference the division is defined and the two
    assignments to [new_force] clamp the quotient. *)
Lemma normalized_force_clamp (raw_force MAX_FORCE : Q) :
  (0 < MAX_FORCE)%Q ->
  exists v, normalized_force raw_force MAX_FORCE = Some v
            /\ (v == clamp ((raw_force - 0) / MAX_FORCE) 0 1)%Q
            /\ (0 <= v <= 1)%Q.
Proof.
  intros Hpos. unfold normalized_force, MIN_FORCE.
  destruct (Qeq_bool (MAX_FORCE - 0) 0) eqn:E.
  { apply Qeq_bool_eq in E. lra. }
  eexists. split; [reflexivity|].
  assert (Hq : ((raw_force - 0) / (MAX_FORCE - 0)
                == (raw_force - 0) / MAX_FORCE)%Q) by (field; lra).
  set (q := ((raw_force - 0) / (MAX_FORCE - 0))%Q) in *.
  set (q' := ((raw_force - 0) / MAX_FORCE)%Q) in *.
  unfold pymax, pymin, clamp.
  destruct (Qltb 1 q) eqn:E1; [destruct (Qltb 0 1) eqn:E2|destruct (Qltb 0 q) eqn:E2];
    bool_to_Q; repeat destruct (Qlt_le_dec _ _); split; lra.
Qed.

(** [check_phase_boundaries] only appends rows and grows the set. *)
Lemma check_boundary_shape (c : Q) (s : state) (be : Q * string) :
  exists evs rows,
    check_boundary c s be
    = set_phase_events_logged evs (set_csv_file (csv_file s ++ rows) s).
Proof.
  destruct be as [b e]. unfold check_boundary.
  destruct (_ && _).
  - eexists _, [_]. reflexivity.
  - exists (phase_events_logged s), []. rewrite app_nil_r. by destruct s.
Qed.

Lemma check_boundaries_shape (c : Q) (l : list (Q * string)) (s : state) :
  exists evs rows,
    foldl (check_boundary c) s l
    = set_phase_events_logged evs (set_csv_file (csv_file s ++ rows) s).
Proof.
  revert s. induction l as [|be l IH]; intros s; simpl.
  - exists (phase_events_logged s), []. rewrite app_nil_r. by destruct s.
  - destruct (check_boundary_shape c s be) as (evs & rows & ->).
    destruct (IH (set_phase_events_logged evs
                    (set_csv_file (csv_file s ++ rows) s)))
      as (evs' & rows' & ->).
    exists evs', (rows ++ rows'). simpl. by rewrite app_assoc.
Qed.

Lemma check_phase_boundaries_shape (c : Q) (s : state) :
  exists evs rows,
    check_phase_boundaries c s
    = set_phase_events_logged evs (set_csv_file (csv_file s ++ rows) s).
Proof. apply check_boundaries_shape. Qed.

Lemma finish_tick_plots (s : state) : plots (final (finish_tick s)) = plots s.
Proof.
  unfold finish_tick, start_trial, start_break, stop_experiment.
  repeat case_match; simpl; reflexivity.
Qed.

Lemma last_deque_append {A : Type} (n : nat) (x : A) (d : list A) :
  (0 < n)%nat -> last (deque_append n x d) = Some x.
Proof.
  intros Hn. unfold deque_append.
  rewrite length_app. simpl.
  rewrite drop_app_le by lia. by rewrite last_snoc.
Qed.

Lemma get_reference_force_returns (s : state) (t : Q) :
  is_Some (mvc_normalized (current_trial_id s)) ->
  is_Some (get_reference_force s t).
Proof.
  intros [m Hm]. unfold get_reference_force. rewrite Hm.
  repeat case_match; eauto.
Qed.

(** C6.  On a tick of a running session that reads a sample, for any raw
    sample (negative, or above the reference) and a positive reference of
    the active grip type, the normalised force appended to the force buffer
    is [clamp((raw - 0) / reference, 0, 1)], and lies in [[0, 1]]. *)
Theorem update_plot_normalized_force
    (s : state) (now t0 raw_force m2 m3 m4 : Q) :
  experiment_running s = true ->
  start_time s = Some t0 ->
  is_Some (mvc_normalized (current_trial_id s)) ->
  (0 < select_max_force s)%Q ->
  exists v,
    last (force_data (plots (final
      (update_plot now (Some [raw_force; m2; m3; m4]) s)))) = Some v
    /\ (v == clamp ((raw_force - 0) / select_max_force s) 0 1)%Q
    /\ (0 <= v <= 1)%Q.
Proof.
  intros Hrun Ht0 Hid Hpos. unfold update_plot.
  rewrite Hrun, Ht0. simpl.
  destruct (check_phase_boundaries_shape
              (fmod (now - t0) 30) (set_time_elapsed (now - t0)%Q s))
    as (evs & rows & ->).
  change (select_max_force (set_phase_events_logged _ _))
    with (select_max_force s).
  destruct (normalized_force_clamp raw_force _ Hpos) as (v & -> & Hv & Hb).
  match goal with
  | |- context [get_reference_force ?s1 ?t] =>
      destruct (get_reference_force_returns s1 t Hid) as [ref_force ->]
  end.
  exists v. split; [|done].
  rewrite finish_tick_plots. simpl. apply last_deque_append.
  vm_compute. lia.
Qed.

Lemma update_plot_normalized_force_witness :
  exists v,
    last (force_data (plots (final
      (update_plot 1012 (Some [-7; 0; 0; 0]%Q) example_running)))) = Some v
    /\ (v == clamp ((-7 - 0) / select_max_force example_running) 0 1)%Q
    /\ (0 <= v <= 1)%Q.
Proof.
  apply (update_plot_normalized_force example_running 1012 1000 (-7) 0 0 0).
  - vm_compute. reflexivity.
  - vm_compute. reflexivity.
  - vm_compute. eauto.
  - vm_compute. reflexivity.
Defined.

(** A missing table, or a row without the motion's column, leaves the
    reference at the placeholder 100. *)
Lemma load_last_mvc_missing (s : state) :
  load_last_mvc None s = Returned (set_mvc (References 100 100 100) s).
Proof. reflexivity. Qed.

Lemma reference_of_missing (mvc_data : csv_row) (key : string) :
  mvc_data !! key = None -> reference_of mvc_data key = inr 100%Q.
Proof. intros H. unfold reference_of. rewrite H. reflexivity. Qed.

(** A reference of zero is not replaced: the division raises. *)
Lemma update_plot_zero_reference
    (s : state) (now t0 raw_force m2 m3 m4 : Q) :
  experiment_running s = true ->
  start_time s = Some t0 ->
  (select_max_force s == 0)%Q ->
  exception_of (update_plot now (Some [raw_force; m2; m3; m4]) s)
  = Some ZeroDivisionError.
Proof.
  intros Hrun Ht0 Hzero. unfold update_plot. rewrite Hrun, Ht0. simpl.
  destruct (check_phase_boundaries_shape
              (fmod (now - t0) 30) (set_time_elapsed (now - t0)%Q s))
    as (evs & rows & ->).
  change (select_max_force (set_phase_events_logged _ _))
    with (select_max_force s).
  unfold normalized_force, MIN_FORCE.
  assert (E : Qeq_bool (select_max_force s - 0) 0 = true).
  { apply Qeq_bool_iff. lra. }
  rewrite E. reflexivity.
Qed.

(** C3.  With a last calibration row whose index-pinch result is 0, the
    first tick of an index-pinch trial that reads a sample raises
    [ZeroDivisionError]: the zero reference is not replaced by a default. *)
Theorem zero_reference_raises :
  exception_of
    (run [ClickLoadMVC (Some zero_row); ClickStart 1000;
          Timeout 1001 (Some [5; 0; 0; 0]%Q)] example_session)
  = Some ZeroDivisionError.
Proof. vm_compute. reflexivity. Qed.

(** ** Construction of the sensor object *)

(** C7.  When [open] raises, the message is printed and the device
    attribute is set to [None]; the next statement calls a method on it, so
    the constructor of the sensor, and with it that of the experiment, ends
    with [AttributeError]. *)
Theorem sensor_constructor_raises_when_open_fails (e : string) :
  MVC.GDXForceSensor_init (Some e)
  = (["Error opening sensor: " ++ e]%string, inl AttributeError)
  /\ MVC.MVCExperiment_init (Some e)
    = (["Error opening sensor: " ++ e]%string, inl AttributeError).
Proof. split; reflexivity. Qed.

(** When [open] succeeds the constructor returns a started sensor. *)
Lemma sensor_constructor_returns :
  MVC.GDXForceSensor_init None
  = ([], inr (MVC.Sensor (Some MVC.Started) [] 0%Q false MVC.AtTest)).
Proof. reflexivity. Qed.
(** ** Shutdown order *)

Section Shutdown.

Import MVC.



Lemma existsb_is_set_sensor_stop (l : list instr) :
  existsb is_set_sensor_stop l = true <-> SetSensorStopEvent ∈ l.
Proof.
  rewrite existsb_exists. split.
  - intros (i & Hin & Hi). destruct i; try discriminate.
    by apply list_elem_of_In.
  - intros Hin. exists SetSensorStopEvent.
    split; [by apply list_elem_of_In|done].
Qed.













(** The statements of the sensor's [stop], in the order they are written. *)
Lemma GDXForceSensor_stop_order :
  GDXForceSensor_stop = [SetStopEvent; JoinThread; DeviceStop; DeviceClose].
Proof. reflexivity. Qed.

(** A shutdown that runs to its end: the worker sees the flag and returns,
    the join is passed, the device is closed. *)
Example shutdown_completes :
  let s :=
    schedule [SensorThread; Main; Main; SensorThread; SensorThread; Main;
              Main; Main] (entering GDXForceSensor_stop AtTest AtTest) in
  main s = [] /\ sys_device s = Closed
  /\ device_log s = [Read Started; DidStop; DidClose].
Proof. vm_compute. done. Qed.

(** While the worker has not returned, [join] keeps the GUI thread where it
    is. *)
Example join_blocks :
  let s :=
    schedule [Main; Main; Main; Main]
      (entering GDXForceSensor_stop InBody AtTest) in
  main s = [JoinThread; DeviceStop; DeviceClose] /\ sys_device s = Started.
Proof. vm_compute. done. Qed.

End Shutdown.

(** ** The trial blocks *)

Lemma swap_Permutation {A : Type} (i j : nat) (x : list A) : swap i j x ≡ₚ x.
Proof.
  unfold swap. destruct (x !! i) as [a|] eqn:Hi; [|done].
  destruct (x !! j) as [b|] eqn:Hj; [|done].
  by apply Permutation_insert_swap.
Qed.

Lemma shuffle_from_Permutation {A : Type} (rnd : nat -> nat) (i : nat)
    (x : list A) :
  shuffle_from rnd i x ≡ₚ x.
Proof.
  revert x. induction i as [|i IH]; intros x; simpl; [done|].
  rewrite IH. apply swap_Permutation.
Qed.

Lemma shuffle_Permutation {A : Type} (rnd : nat -> nat) (x : list A) :
  shuffle rnd x ≡ₚ x.
Proof. apply shuffle_from_Permutation. Qed.

(** Before the shuffle: 60 identifiers, 5 of each kind, each with a level
    that [int] reads. *)
Lemma conditions_fixed_multiset : fixed_multiset conditions.
Proof.
  split; [reflexivity|].
  apply (bool_decide_unpack _). vm_compute. exact I.
Qed.

Lemma conditions_levels :
  Forall (fun trial_id => is_Some (mvc_normalized trial_id)) conditions.
Proof. apply (bool_decide_unpack _). vm_compute. exact I. Qed.

Lemma occurrences_Permutation (trial_id : string) (l k : list string) :
  l ≡ₚ k -> occurrences trial_id l = occurrences trial_id k.
Proof. intros H. unfold occurrences. by rewrite H. Qed.

Lemma fixed_multiset_Permutation (l k : list string) :
  l ≡ₚ k -> fixed_multiset k -> fixed_multiset l.
Proof.
  intros H [Hlen Hocc]. split.
  - by rewrite H.
  - eapply Forall_impl; [exact Hocc|]. intros trial_id <-.
    by apply occurrences_Permutation.
Qed.

(** The constructor returns: the first identifier of the shuffled block
    exists and its level is read. *)
Lemma init_returns (rnd1 rnd2 : nat -> nat) :
  exists s0, init rnd1 rnd2 = Returned s0
             /\ trial_array1 s0 = shuffle rnd1 conditions
             /\ trial_array2 s0 = shuffle rnd2 conditions.
Proof.
  unfold init.
  pose proof (shuffle_Permutation rnd1 conditions) as Hp.
  destruct (shuffle rnd1 conditions !! 0%nat) as [trial_id|] eqn:H0.
  - assert (Hin : trial_id ∈ conditions).
    { rewrite <- Hp. eapply list_elem_of_lookup_2. exact H0. }
    pose proof conditions_levels as Hl.
    rewrite Forall_forall in Hl. destruct (Hl _ Hin) as [m Hm].
    simpl. rewrite Hm. eexists. split; [reflexivity|]. done.
  - apply lookup_ge_None in H0. apply Permutation_length in Hp.
    rewrite Hp in H0. vm_compute in H0. lia.
Qed.

Lemma check_phase_boundaries_blocks (c : Q) (s : state) :
  blocks (check_phase_boundaries c s) = blocks s.
Proof. by destruct (check_phase_boundaries_shape c s) as (? & ? & ->). Qed.

Lemma start_trial_blocks (s : state) : blocks (final (start_trial s)) = blocks s.
Proof. unfold start_trial. repeat case_match; done. Qed.

Lemma stop_experiment_blocks (s : state) : blocks (stop_experiment s) = blocks s.
Proof. unfold stop_experiment. repeat case_match; done. Qed.

Lemma start_break_blocks (s : state) : blocks (start_break s) = blocks s.
Proof. done. Qed.

Lemma prepare_next_array_blocks (s : state) :
  blocks (final (prepare_next_array s)) = blocks s.
Proof. unfold prepare_next_array. repeat case_match; done. Qed.

Lemma start_experiment_blocks (now : Q) (s : state) :
  blocks (start_experiment now s) = blocks s.
Proof. done. Qed.

Lemma load_last_mvc_blocks (d : option csv_row) (s : state) :
  blocks (final (load_last_mvc d s)) = blocks s.
Proof. unfold load_last_mvc. repeat case_match; done. Qed.

Lemma finish_tick_blocks (s : state) : blocks (final (finish_tick s)) = blocks s.
Proof.
  unfold finish_tick. repeat case_match; simpl;
    rewrite ?start_trial_blocks, ?stop_experiment_blocks; done.
Qed.

Lemma update_plot_blocks (now : Q) (m : option (list Q)) (s : state) :
  blocks (final (update_plot now m s)) = blocks s.
Proof.
  unfold update_plot.
  destruct (experiment_running s); [|done].
  destruct (start_time s) as [t0|]; [|done]. cbn [negb].
  set (s1 := check_phase_boundaries _ _).
  assert (H1 : blocks s1 = blocks s)
    by (unfold s1; by rewrite check_phase_boundaries_blocks).
  clearbody s1.
  destruct m as [[|raw [|m2 [|m3 [|m4 [|m5 ms]]]]]|]; try done.
  destruct (normalized_force _ _); [|done].
  destruct (get_reference_force _ _); [|done].
  by rewrite finish_tick_blocks.
Qed.

Lemma dispatch_blocks (c : call) (s : state) :
  blocks (final (dispatch c s)) = blocks s.
Proof.
  destruct c; simpl.
  - destruct (timer_active s); [apply update_plot_blocks|done].
  - destruct (break_timers s); [done|].
    by rewrite prepare_next_array_blocks.
  - done.
  - apply load_last_mvc_blocks.
  - apply stop_experiment_blocks.
Qed.

Lemma run_blocks (calls : list call) (s : state) :
  blocks (final (run calls s)) = blocks s.
Proof.
  revert s. induction calls as [|c calls IH]; intros s; simpl; [done|].
  pose proof (dispatch_blocks c s) as Hd.
  destruct (dispatch c s) as [s'|e s']; simpl in *; [|done].
  by rewrite IH.
Qed.

(** C8.  The constructor returns a session whose two blocks are the two
    shuffles of the generated list, each a permutation of it and so each of
    60 identifiers, 5 of every grip type and level; and whatever the event
    loop is asked to do afterwards, both blocks keep their contents. *)
Theorem trial_blocks_fixed (rnd1 rnd2 : nat -> nat) (calls : list call) :
  exists s0,
    init rnd1 rnd2 = Returned s0
    /\ blocks s0 = (shuffle rnd1 conditions, shuffle rnd2 conditions)
    /\ Forall (fun blk => blk ≡ₚ conditions /\ fixed_multiset blk)
         [trial_array1 s0; trial_array2 s0]
    /\ blocks (final (run calls s0)) = blocks s0.
Proof.
  destruct (init_returns rnd1 rnd2) as (s0 & Hinit & H1 & H2).
  exists s0. split; [done|]. split; [by rewrite H1, H2|].
  split; [|apply run_blocks].
  rewrite H1, H2.
  assert (Hblk : forall rnd,
             shuffle rnd conditions ≡ₚ conditions
             /\ fixed_multiset (shuffle rnd conditions)).
  { intros rnd. split; [apply shuffle_Permutation|].
    eapply fixed_multiset_Permutation;
      [apply shuffle_Permutation|apply conditions_fixed_multiset]. }
  apply Forall_cons. split; [apply Hblk|].
  apply Forall_cons. split; [apply Hblk|]. apply Forall_nil. done.
Qed.

(** ** The calibration averages *)

Section Calibration.

Import MVC.

Lemma pysum_fold_right (l : list Q) (a : Q) :
  (foldl Qplus a l == a + fold_right Qplus 0 l)%Q.
Proof.
  revert a. induction l as [|x l IH]; intros a; simpl; [ring|].
  rewrite IH. ring.
Qed.

(** A list that is not empty has a length that divides. *)
Lemma average_or_none_mean (x : Q) (l : list Q) :
  exists a, average_or_none (x :: l) = inr (Some a)
            /\ (a == mean (x :: l))%Q.
Proof.
  unfold average_or_none, pydiv.
  set (n := inject_Z (Z.of_nat (length (x :: l)))).
  assert (Hn : ~ (n == 0)%Q).
  { unfold n, Qeq. simpl. lia. }
  destruct (Qeq_bool n 0) eqn:E.
  { apply Qeq_bool_eq in E. done. }
  eexists. split; [reflexivity|].
  unfold mean, pysum. fold n. rewrite pysum_fold_right.
  field. done.
Qed.

Lemma average_or_none_spec (fs : list Q) :
  exists a, average_or_none fs = inr a
            /\ same_value a (match fs with [] => None | _ => Some (mean fs) end).
Proof.
  destruct fs as [|x l].
  - exists None. split; [done|constructor].
  - destruct (average_or_none_mean x l) as (a & Ha & Hm).
    exists (Some a). split; [done|by constructor].
Qed.

Lemma omap_all_None {A B : Type} (g : A -> option B) (l : list A) :
  Forall (fun i => g i = None) l -> omap g l = [].
Proof.
  induction 1 as [|i l Hi _ IH]; [done|]. simpl. by rewrite Hi.
Qed.

(** The comprehension over [zip] selects the samples of the window. *)
Lemma forces_between_offset (lo hi : Q) (ts fs pt pf : list Q) :
  length pt = length pf ->
  omap (fun i =>
          match (pt ++ ts) !! i, (pf ++ fs) !! i with
          | Some t, Some f =>
              if Qlt_le_dec t lo then None
              else if Qlt_le_dec hi t then None
              else Some f
          | _, _ => None
          end)
       (seq (length pt) (length ts))
  = forces_between lo hi ts fs.
Proof.
  revert fs pt pf. induction ts as [|t ts IH]; intros fs pt pf Hlen; [done|].
  destruct fs as [|f fs].
  - transitivity (@nil Q); [|done].
    apply omap_all_None, Forall_seq. intros i Hi.
    rewrite app_nil_r, (lookup_ge_None_2 pf i) by lia.
    by destruct (_ !! i).
  - cbn [length seq omap list_omap].
    rewrite (list_lookup_middle pt ts t (length pt)) by done.
    rewrite (list_lookup_middle pf fs f (length pt)) by done.
    specialize (IH fs (pt ++ [t]) (pf ++ [f])).
    rewrite !length_app, <- !app_assoc in IH. simpl in IH.
    rewrite Nat.add_1_r in IH. rewrite IH by lia.
    unfold forces_between. simpl zip. rewrite filter_cons. simpl fst.
    destruct (Qlt_le_dec t lo) as [Hlo|Hlo].
    { rewrite decide_False; [done|].
      intros H. bool_to_Q. lra. }
    destruct (Qlt_le_dec hi t) as [Hhi|Hhi].
    { rewrite decide_False; [done|].
      intros H. bool_to_Q. lra. }
    rewrite decide_True; [done|].
    apply andb_true_iff. split; by apply Qle_bool_iff.
Qed.

Lemma forces_between_window (lo hi : Q) (ts fs : list Q) :
  forces_between lo hi ts fs = window_forces lo hi ts fs.
Proof. symmetry. apply (forces_between_offset lo hi ts fs [] []). done. Qed.


(** What [finish_experiment] does, with the two averages it computes. *)
Lemma finish_experiment_returns (e : experiment) :
  exists e' a1 a2,
    finish_experiment e = Returned e'
    /\ average_or_none (forces_between 5 10 (time_data e) (force_data e))
       = inr a1
    /\ average_or_none (forces_between 20 25 (time_data e) (force_data e))
       = inr a2
    /\ mvc_value_label e' = update_mvc_label a1 a2 (overall_average a1 a2)
    /\ kept_or_saved e e'
         (<[motion e := default 0%Q (overall_average a1 a2)]> (results e)).
Proof.
  unfold finish_experiment. cbn [time_data force_data results motion].
  destruct (average_or_none_spec
              (forces_between 5 10 (time_data e) (force_data e)))
    as (a1 & -> & _).
  destruct (average_or_none_spec
              (forces_between 20 25 (time_data e) (force_data e)))
    as (a2 & -> & _).
  set (d := <[motion e := default 0%Q (overall_average a1 a2)]> (results e)).
  destruct (size d =? 3)%nat eqn:Hsize.
  - apply Nat.eqb_eq in Hsize. eexists _, a1, a2.
    split; [reflexivity|]. split; [done|]. split; [done|]. split; [done|].
    right. split; [done|]. split; [done|].
    eexists. split; [reflexivity|]. done.
  - apply Nat.eqb_neq in Hsize. eexists _, a1, a2.
    split; [reflexivity|]. split; [done|]. split; [done|]. split; [done|].
    left. done.
Qed.

Lemma overall_average_spec (a1 a2 m1 m2 : option Q) :
  same_value a1 m1 -> same_value a2 m2 ->
  same_value (overall_average a1 a2) (overall_mvc m1 m2).
Proof.
  intros [x y Hxy|] [x' y' Hxy'|]; simpl; constructor; try done.
  by rewrite Hxy, Hxy'.
Qed.

(** C5.  [finish_experiment] returns; the label shows, and the dictionary
    receives, averages that are: for each trial the arithmetic mean of the
    forces of the samples recorded in its window (5 to 10 s, 20 to 25 s),
    missing when the window is empty; and overall the mean of the two, or
    the one there is when exactly one window is empty. *)
Theorem finish_experiment_averages (e : experiment) :
  exists e' a1 a2 overall,
    finish_experiment e = Returned e'
    /\ mvc_value_label e' = update_mvc_label a1 a2 overall
    /\ kept_or_saved e e' (<[motion e := default 0%Q overall]> (results e))
    /\ same_value a1 (window_average 5 10 e)
    /\ same_value a2 (window_average 20 25 e)
    /\ same_value overall
         (overall_mvc (window_average 5 10 e) (window_average 20 25 e)).
Proof.
  destruct (finish_experiment_returns e)
    as (e' & a1 & a2 & Hret & H1 & H2 & Hlabel & Hkept).
  exists e', a1, a2, (overall_average a1 a2).
  assert (Hw : forall lo hi a,
             average_or_none
               (forces_between lo hi (time_data e) (force_data e)) = inr a ->
             same_value a (window_average lo hi e)).
  { intros lo hi a Ha. unfold window_average.
    rewrite <- forces_between_window.
    destruct (average_or_none_spec
                (forces_between lo hi (time_data e) (force_data e)))
      as (a' & Ha' & Hspec).
    rewrite Ha in Ha'. injection Ha' as <-.
    by destruct (forces_between lo hi (time_data e) (force_data e)). }
  split; [done|]. split; [done|]. split; [done|].
  split; [by apply Hw|]. split; [by apply Hw|].
  apply overall_average_spec; by apply Hw.
Qed.

(** The averages of a recording, computed. *)
Example finish_experiment_example :
  mvc_value_label (final (finish_experiment example_recording))
  = update_mvc_label (Some ((0 + 100 + 120 + 110) / 3)%Q)
      (Some ((0 + 90 + 100 + 95) / 3)%Q)
      (Some (((0 + 100 + 120 + 110) / 3 + (0 + 90 + 100 + 95) / 3) / 2)%Q).
Proof. reflexivity. Qed.

(** C10, as the code has it.  When neither window holds a sample,
    [finish_experiment] returns, the label shows every average as missing,
    and the value stored under the motion is 0: the dictionary stored into
    holds 0 there, and is the session's dictionary afterwards unless it
    then holds three motions, in which case it is written out as a row and
    the session's dictionary is emptied. *)
Theorem finish_experiment_no_samples (e : experiment) :
  window_forces 5 10 (time_data e) (force_data e) = [] ->
  window_forces 20 25 (time_data e) (force_data e) = [] ->
  exists e',
    finish_experiment e = Returned e'
    /\ mvc_value_label e' = update_mvc_label None None None
    /\ kept_or_saved e e' (<[motion e := 0%Q]> (results e))
    /\ (size (<[motion e := 0%Q]> (results e)) <> 3%nat ->
        results e' !! motion e = Some 0%Q).
Proof.
  intros Hw1 Hw2.
  destruct (finish_experiment_returns e)
    as (e' & a1 & a2 & Hret & H1 & H2 & Hlabel & Hkept).
  rewrite forces_between_window, Hw1 in H1. injection H1 as <-.
  rewrite forces_between_window, Hw2 in H2. injection H2 as <-.
  exists e'. split; [done|]. split; [done|]. split; [done|].
  intros Hsize. destruct Hkept as [(_ & -> & _)|(Hsize' & _)]; [|done].
  apply lookup_insert_eq.
Qed.

Lemma finish_experiment_no_samples_witness :
  exists e',
    finish_experiment example_silent = Returned e'
    /\ mvc_value_label e' = update_mvc_label None None None
    /\ kept_or_saved example_silent e'
         (<[motion example_silent := 0%Q]> (results example_silent))
    /\ (size (<[motion example_silent := 0%Q]> (results example_silent))
        <> 3%nat ->
        results e' !! motion example_silent = Some 0%Q).
Proof.
  apply (finish_experiment_no_samples example_silent); reflexivity.
Defined.

(** C10, as stated, fails for the third motion of a participant: the
    dictionary is emptied once the row is written, and the motion is
    absent from it when [finish_experiment] returns. *)
Lemma finish_experiment_third_motion_absent :
  window_forces 5 10 (time_data example_silent_third)
    (force_data example_silent_third) = []
  /\ window_forces 20 25 (time_data example_silent_third)
       (force_data example_silent_third) = []
  /\ exception_of (finish_experiment example_silent_third) = None
  /\ results (final (finish_experiment example_silent_third))
     !! motion example_silent_third = None
  /\ saved (final (finish_experiment example_silent_third))
     = [ResultRow "P01" (Some 251.3%Q) (Some 41.5%Q) (Some 0%Q)].
Proof. vm_compute. done. Qed.

End Calibration.

(** ** The event file *)

Lemma count_event_app (event : string) (l k : list row) :
  count_event event (l ++ k) = (count_event event l + count_event event k)%nat.
Proof. unfold count_event. by rewrite filter_app, length_app. Qed.

Lemma count_event_singleton (event : string) (r : row) :
  count_event event [r] = if String.eqb (row_event r) event then 1%nat else 0%nat.
Proof.
  unfold count_event. rewrite filter_cons.
  destruct (String.eqb_spec (row_event r) event) as [->|Hne].
  - by rewrite decide_True.
  - by rewrite decide_False.
Qed.

Lemma count_event_log_event (event : string) (section : nat)
    (ev trial_id : string) (s : state) :
  count_event event (csv_file (log_event section ev trial_id s))
  = (count_event event (csv_file s) + if String.eqb ev event then 1 else 0)%nat.
Proof.
  unfold log_event. simpl. rewrite count_event_app. f_equal.
  apply count_event_singleton.
Qed.

(** Rewrite the count of an event over rows just appended. *)
Ltac count_rows :=
  simpl;
  repeat rewrite ?count_event_app, ?count_event_singleton;
  simpl; try lia.

(** *** The 30 s boundary *)

(** Within a cycle no boundary check reaches the 30 s boundary. *)
Lemma check_boundary_ramp_down_stop (c : Q) (s : state) (be : Q * string) :
  (c < 30)%Q -> be ∈ phase_events ->
  count_event "RampDownPhaseStop" (csv_file (check_boundary c s be))
  = count_event "RampDownPhaseStop" (csv_file s).
Proof.
  intros Hc Hbe. destruct be as [b e]. unfold check_boundary.
  destruct (Qle_bool b c) eqn:Hb; [|done]. simpl.
  destruct (negb _); [|done]. apply Qle_bool_iff in Hb.
  unfold phase_events in Hbe.
  repeat (apply elem_of_cons in Hbe as [[= -> ->]|Hbe]);
    try (by apply elem_of_nil in Hbe); try count_rows.
  lra.
Qed.

Lemma check_boundaries_ramp_down_stop (c : Q) (l : list (Q * string))
    (s : state) :
  (c < 30)%Q -> l ⊆ phase_events ->
  count_event "RampDownPhaseStop" (csv_file (foldl (check_boundary c) s l))
  = count_event "RampDownPhaseStop" (csv_file s).
Proof.
  intros Hc. revert s. induction l as [|be l IH]; intros s Hl; [done|].
  simpl. rewrite IH by set_solver.
  apply check_boundary_ramp_down_stop; [done|set_solver].
Qed.

Lemma check_phase_boundaries_ramp_down_stop (x : Q) (s : state) :
  count_event "RampDownPhaseStop"
    (csv_file (check_phase_boundaries (fmod x 30) s))
  = count_event "RampDownPhaseStop" (csv_file s).
Proof.
  apply check_boundaries_ramp_down_stop; [|done].
  apply fmod_bounds. lra.
Qed.

Lemma start_trial_ramp_down_stop (s : state) :
  count_event "RampDownPhaseStop" (csv_file (final (start_trial s)))
  = count_event "RampDownPhaseStop" (csv_file s).
Proof.
  unfold start_trial. cbn [experiment_running trial_in_progress
    set_phase_events_logged].
  destruct (negb (experiment_running s) || trial_in_progress s); [done|].
  destruct (current_array _ !! _); [|done].
  destruct (mvc_normalized _) eqn:E; count_rows.
Qed.

Lemma stop_experiment_ramp_down_stop (s : state) :
  count_event "RampDownPhaseStop" (csv_file (stop_experiment s))
  = count_event "RampDownPhaseStop" (csv_file s).
Proof. unfold stop_experiment. destruct (_ || _); count_rows. Qed.

Lemma start_break_ramp_down_stop (s : state) :
  count_event "RampDownPhaseStop" (csv_file (start_break s))
  = count_event "RampDownPhaseStop" (csv_file s).
Proof. unfold start_break. count_rows. Qed.

Lemma prepare_next_array_ramp_down_stop (s : state) :
  count_event "RampDownPhaseStop" (csv_file (final (prepare_next_array s)))
  = count_event "RampDownPhaseStop" (csv_file s).
Proof.
  unfold prepare_next_array.
  destruct (current_array _ !! _); [|count_rows].
  destruct (mvc_normalized _); count_rows.
Qed.

Lemma finish_tick_ramp_down_stop (s : state) :
  count_event "RampDownPhaseStop" (csv_file (final (finish_tick s)))
  = count_event "RampDownPhaseStop" (csv_file s).
Proof.
  unfold finish_tick. destruct (Qle_bool 30 _); [|done].
  destruct (_ <=? _)%nat.
  - destruct (current_trial_array _); simpl final;
      rewrite ?start_break_ramp_down_stop, ?stop_experiment_ramp_down_stop;
      count_rows.
  - rewrite start_trial_ramp_down_stop. count_rows.
Qed.

Lemma update_plot_ramp_down_stop (now : Q) (m : option (list Q)) (s : state) :
  count_event "RampDownPhaseStop" (csv_file (final (update_plot now m s)))
  = count_event "RampDownPhaseStop" (csv_file s).
Proof.
  unfold update_plot.
  destruct (experiment_running s); [|done].
  destruct (start_time s) as [t0|]; [|done]. cbn [negb].
  set (s1 := check_phase_boundaries _ _).
  assert (H1 : count_event "RampDownPhaseStop" (csv_file s1)
               = count_event "RampDownPhaseStop" (csv_file s))
    by (unfold s1; by rewrite check_phase_boundaries_ramp_down_stop).
  clearbody s1.
  destruct m as [[|raw [|m2 [|m3 [|m4 [|m5 ms]]]]]|]; try done.
  destruct (normalized_force _ _); [|done].
  destruct (get_reference_force _ _); [|done].
  by rewrite finish_tick_ramp_down_stop.
Qed.

Lemma dispatch_ramp_down_stop (c : call) (s : state) :
  count_event "RampDownPhaseStop" (csv_file (final (dispatch c s)))
  = count_event "RampDownPhaseStop" (csv_file s).
Proof.
  destruct c; simpl.
  - destruct (timer_active s); [apply update_plot_ramp_down_stop|done].
  - destruct (break_timers s); [done|].
    by rewrite prepare_next_array_ramp_down_stop.
  - unfold start_experiment. count_rows.
  - unfold load_last_mvc. repeat case_match; done.
  - apply stop_experiment_ramp_down_stop.
Qed.

Lemma init_event_file (rnd1 rnd2 : nat -> nat) :
  csv_file (final (init rnd1 rnd2)) = [].
Proof.
  unfold init.
  generalize (shuffle rnd1 conditions) (shuffle rnd2 conditions).
  intros a1 a2. destruct (a1 !! 0%nat); [|done].
  cbn [current_trial_id set_current_trial_id].
  destruct (mvc_normalized _); done.
Qed.

(** C1.  From construction on, whatever the event loop is asked to do and
    however the ticks fall, the event file never holds a
    [RampDownPhaseStop] row: the cycle time is a remainder modulo 30 and
    never reaches the 30 s boundary the event is listed at. *)
Theorem ramp_down_stop_never_logged (rnd1 rnd2 : nat -> nat)
    (calls : list call) :
  count_event "RampDownPhaseStop"
    (csv_file (final (run calls (final (init rnd1 rnd2))))) = 0%nat.
Proof.
  assert (Hrun : forall cs s,
             count_event "RampDownPhaseStop" (csv_file (final (run cs s)))
             = count_event "RampDownPhaseStop" (csv_file s)).
  { induction cs as [|c cs IH]; intros s; [done|]. simpl.
    pose proof (dispatch_ramp_down_stop c s) as Hd.
    destruct (dispatch c s) as [s'|e s']; simpl in *; [|done].
    by rewrite IH. }
  by rewrite Hrun, init_event_file.
Qed.

Lemma filter_ext_Forall {A : Type} (P1 P2 : A -> Prop)
    `{!forall x, Decision (P1 x), !forall x, Decision (P2 x)} (l : list A) :
  Forall (fun x => P1 x <-> P2 x) l -> filter P1 l = filter P2 l.
Proof.
  induction 1 as [|x l Hx _ IH]; [done|].
  rewrite !filter_cons, IH.
  destruct (decide (P1 x)), (decide (P2 x)); [done|tauto|tauto|done].
Qed.

Lemma check_boundary_due (c : Q) (s : state) (be : Q * string) :
  due c (phase_events_logged s) be = true ->
  check_boundary c s be
  = set_phase_events_logged ({[be.2]} ∪ phase_events_logged s)
      (log_event (current_section s) be.2 (current_trial_id s) s).
Proof.
  destruct be as [b e]. unfold due, check_boundary. simpl. by intros ->.
Qed.

Lemma check_boundary_not_due (c : Q) (s : state) (be : Q * string) :
  due c (phase_events_logged s) be = false -> check_boundary c s be = s.
Proof.
  destruct be as [b e]. unfold due, check_boundary. simpl. by intros ->.
Qed.

(** One check fires the due boundaries, each once, in the order of the
    list, which is the ascending order of the offsets; the events fired
    join the set, so that none fires again before the set is emptied. *)
Lemma check_boundaries_fires (c : Q) (l : list (Q * string)) (s : state) :
  NoDup l.*2 ->
  let s' := foldl (check_boundary c) s l in
  csv_file s'
  = csv_file s
    ++ map (fun e => Row (current_section s) e (current_trial_id s))
         (fired c (phase_events_logged s) l)
  /\ phase_events_logged s'
     = phase_events_logged s ∪ list_to_set (fired c (phase_events_logged s) l)
  /\ current_section s' = current_section s
  /\ current_trial_id s' = current_trial_id s.
Proof.
  revert s. induction l as [|[b e] l IH]; intros s Hnd; cbv zeta.
  { simpl. rewrite app_nil_r. split; [done|]. split; [|done].
    unfold fired. simpl. by rewrite (right_id_L ∅ (∪)). }
  cbn [foldl]. rewrite fmap_cons in Hnd.
  apply NoDup_cons in Hnd as [He Hnd]. simpl in He.
  set (X := phase_events_logged s).
  assert (Hrest : forall Y, Y ⊆ X ∪ {[e]} -> X ⊆ Y ->
             fired c Y l = fired c X l).
  { intros Y HY HX. unfold fired. f_equal.
    apply filter_ext_Forall, Forall_forall. intros [b' e'] Hin.
    unfold due. simpl.
    assert (e' <> e).
    { intros ->. apply He. apply list_elem_of_fmap. by exists (b', e). }
    assert (bool_decide (e' ∈ Y) = bool_decide (e' ∈ X)) as ->; [|done].
    apply bool_decide_ext. split; [|apply HX].
    intros [?|?%elem_of_singleton]%HY%elem_of_union; done. }
  unfold fired at 1 2. rewrite filter_cons.
  destruct (due c X (b, e)) eqn:Hdue.
  - rewrite decide_True by done.
    rewrite (check_boundary_due c s (b, e) Hdue).
    set (s1 := set_phase_events_logged _ _).
    assert (H1 : csv_file s1
                 = csv_file s
                   ++ [Row (current_section s) e (current_trial_id s)])
      by done.
    assert (H2 : phase_events_logged s1 = {[e]} ∪ X) by done.
    assert (H3 : current_section s1 = current_section s) by done.
    assert (H4 : current_trial_id s1 = current_trial_id s) by done.
    clearbody s1.
    destruct (IH s1 Hnd) as (Hcsv & Hset & Hsec & Hid).
    rewrite Hcsv, Hset, Hsec, Hid, H1, H2, H3, H4.
    rewrite (Hrest ({[e]} ∪ X));
      [|by rewrite (comm_L (∪))|apply union_subseteq_r].
    split; [by rewrite <- app_assoc|]. split; [|done].
    unfold fired. simpl.
    by rewrite (comm_L (∪) {[e]} X), <- (assoc_L (∪)).
  - rewrite decide_False by (simpl; congruence).
    rewrite (check_boundary_not_due c s (b, e) Hdue).
    apply (IH s Hnd).
Qed.

Lemma check_phase_boundaries_fires (c : Q) (s : state) :
  let s' := check_phase_boundaries c s in
  csv_file s'
  = csv_file s
    ++ map (fun e => Row (current_section s) e (current_trial_id s))
         (fired c (phase_events_logged s) phase_events)
  /\ phase_events_logged s'
     = phase_events_logged s
       ∪ list_to_set (fired c (phase_events_logged s) phase_events).
Proof.
  destruct (check_boundaries_fires c phase_events s) as (H1 & H2 & _).
  { apply (bool_decide_unpack _). vm_compute. exact I. }
  done.
Qed.

(** An event of the set is not fired again. *)
Lemma fired_not_logged (c : Q) (logged : gset string) (e : string) :
  e ∈ logged -> e ∉ fired c logged phase_events.
Proof.
  intros He Hin. unfold fired in Hin.
  apply list_elem_of_fmap in Hin as ([b e'] & -> & Hin).
  apply list_elem_of_filter in Hin as [Hdue _].
  unfold due in Hdue. simpl in *.
  apply andb_true_iff in Hdue as [_ Hn].
  apply negb_true_iff, bool_decide_eq_false in Hn. done.
Qed.

(** A tick that skips the 5 s and the 10 s boundaries fires their four
    events, in order. *)
Example long_tick_fires_in_order :
  fired 12 {["RestPhaseStart"]} phase_events
  = ["RestPhaseStop"; "GetReadyStart"; "GetReadyStop"; "RampUpPhaseStart"].
Proof. vm_compute. reflexivity. Qed.

(** *** The trial sequencer *)

Lemma check_boundary_count (event : string) (c : Q) (s : state)
    (be : Q * string) :
  be.2 <> event ->
  count_event event (csv_file (check_boundary c s be))
  = count_event event (csv_file s).
Proof.
  destruct be as [b e]. simpl. intros Hne. unfold check_boundary.
  destruct (_ && _); [|done]. simpl.
  rewrite count_event_app, count_event_singleton. simpl.
  destruct (String.eqb_spec e event); [done|lia].
Qed.

Lemma check_boundaries_count (event : string) (c : Q) (l : list (Q * string))
    (s : state) :
  Forall (fun be => be.2 <> event) l ->
  count_event event (csv_file (foldl (check_boundary c) s l))
  = count_event event (csv_file s).
Proof.
  intros Hl. revert s. induction Hl as [|be l Hbe _ IH]; intros s; [done|].
  simpl. rewrite IH. by apply check_boundary_count.
Qed.

(** The boundary checks write none of the sequencer's rows. *)
Lemma check_phase_boundaries_count (event : string) (c : Q) (s : state) :
  event ∉ phase_events.*2 ->
  count_event event (csv_file (check_phase_boundaries c s))
  = count_event event (csv_file s).
Proof.
  intros Hev. apply check_boundaries_count.
  apply Forall_forall. intros be Hbe Heq. apply Hev.
  rewrite <- Heq. by apply list_elem_of_fmap_2.
Qed.

Lemma check_phase_boundaries_sequencer (c : Q) (s : state) :
  sequencer_of (check_phase_boundaries c s) = sequencer_of s.
Proof.
  unfold sequencer_of.
  rewrite (check_phase_boundaries_count "TrialEnd")
    by (apply (bool_decide_unpack _); vm_compute; exact I).
  rewrite (check_phase_boundaries_count "BreakStart")
    by (apply (bool_decide_unpack _); vm_compute; exact I).
  rewrite (check_phase_boundaries_count "SectionStop")
    by (apply (bool_decide_unpack _); vm_compute; exact I).
  destruct (check_phase_boundaries_shape c s) as (evs & rows & ->).
  reflexivity.
Qed.

Lemma start_trial_sequencer (s : state) :
  sequencer_of (final (start_trial s)) = sequencer_of s.
Proof.
  unfold start_trial. cbn [experiment_running trial_in_progress
    set_phase_events_logged].
  destruct (negb (experiment_running s) || trial_in_progress s); [done|].
  destruct (current_array _ !! _); [|done].
  destruct (mvc_normalized _);
    unfold sequencer_of; simpl; f_equal; count_rows.
Qed.

Lemma stop_experiment_sequencer (s : state) :
  sequencer_of (stop_experiment s) = q_stop (sequencer_of s).
Proof.
  unfold stop_experiment, q_stop. simpl.
  destruct (negb (experiment_running s) || experiment_ended s); [done|].
  unfold sequencer_of; simpl; f_equal; count_rows.
Qed.

Lemma start_break_sequencer (s : state) :
  sequencer_of (start_break s) = q_break (sequencer_of s).
Proof. unfold start_break, q_break, sequencer_of; simpl; f_equal; count_rows. Qed.

Lemma prepare_next_array_sequencer (s : state) :
  sequencer_of (final (prepare_next_array s)) = q_prepare (sequencer_of s).
Proof.
  unfold prepare_next_array.
  destruct (current_array _ !! _);
    [destruct (mvc_normalized _)|];
    unfold q_prepare, sequencer_of; simpl; f_equal; count_rows.
Qed.

Lemma start_experiment_sequencer (now : Q) (s : state) :
  sequencer_of (start_experiment now s) = q_start (sequencer_of s).
Proof.
  unfold start_experiment, q_start, sequencer_of; simpl; f_equal; count_rows.
Qed.

Lemma load_last_mvc_sequencer (d : option csv_row) (s : state) :
  sequencer_of (final (load_last_mvc d s)) = sequencer_of s.
Proof. unfold load_last_mvc. repeat case_match; done. Qed.

Lemma finish_tick_sequencer (s : state) :
  sequencer_of (final (finish_tick s))
  = q_finish (Qle_bool 30 (time_elapsed s - trial_start_time s))
      (sequencer_of s).
Proof.
  unfold finish_tick, q_finish.
  destruct (Qle_bool 30 _); [|done].
  set (s1 := set_current_trial_index _ _).
  assert (Hs1 : sequencer_of s1
    = Sequencer (current_trial_array s) (current_trial_index s + 1)
        (length (trial_array1 s)) (length (trial_array2 s))
        (break_timers s) (timer_active s) (experiment_running s)
        (experiment_ended s) (S (count_event "TrialEnd" (csv_file s)))
        (count_event "BreakStart" (csv_file s))
        (count_event "SectionStop" (csv_file s))).
  { unfold s1, sequencer_of; simpl; f_equal; count_rows. }
  assert (Hlen : length (current_array s1)
                 = match current_trial_array s with
                   | Array1 => length (trial_array1 s)
                   | Array2 => length (trial_array2 s)
                   end).
  { unfold s1, current_array, the_array. simpl.
    by destruct (current_trial_array s). }
  assert (Hidx : current_trial_index s1 = (current_trial_index s + 1)%nat)
    by done.
  assert (Harr : current_trial_array s1 = current_trial_array s) by done.
  clearbody s1. rewrite Hlen, Hidx, Harr.
  cbn [q_array q_index q_len1 q_len2 sequencer_of].
  destruct (_ <=? _)%nat.
  - destruct (current_trial_array s); simpl final;
      rewrite ?start_break_sequencer, ?stop_experiment_sequencer, Hs1; done.
  - by rewrite start_trial_sequencer.
Qed.

Lemma update_plot_sequencer (now : Q) (m : option (list Q)) (s : state) :
  exists sampled completed,
    sequencer_of (final (update_plot now m s))
    = q_update sampled completed (sequencer_of s).
Proof.
  unfold update_plot, q_update.
  cbn [q_running sequencer_of].
  destruct (experiment_running s); [|by exists false, false].
  destruct (start_time s) as [t0|]; [|by exists false, false]. cbn [negb].
  set (s1 := check_phase_boundaries _ _).
  assert (H1 : sequencer_of s1 = sequencer_of s)
    by (unfold s1; by rewrite check_phase_boundaries_sequencer).
  clearbody s1.
  destruct m as [[|raw [|m2 [|m3 [|m4 [|m5 ms]]]]]|];
    try (by exists false, false).
  destruct (normalized_force _ _); [|by exists false, false].
  destruct (get_reference_force _ _); [|by exists false, false].
  eexists true, _. simpl. rewrite finish_tick_sequencer. by rewrite <- H1.
Qed.

Lemma dispatch_sequencer (c : call) (s : state) :
  exists sampled completed,
    sequencer_of (final (dispatch c s))
    = q_dispatch c sampled completed (sequencer_of s).
Proof.
  destruct c; simpl.
  - change (q_timer (sequencer_of s)) with (timer_active s).
    destruct (timer_active s); [apply update_plot_sequencer|].
    by exists false, false.
  - exists false, false.
    change (q_break_timers (sequencer_of s)) with (break_timers s).
    destruct (break_timers s); [done|].
    by rewrite prepare_next_array_sequencer.
  - exists false, false. apply start_experiment_sequencer.
  - exists false, false. apply load_last_mvc_sequencer.
  - exists false, false. apply stop_experiment_sequencer.
Qed.

(** *** The sequencer's invariants *)

(** Split on every test the sequencer's transitions make. *)
Ltac sequencer_cases :=
  unfold q_dispatch, q_update, q_finish, q_stop, q_break, q_prepare, q_start;
  repeat match goal with
  | |- context [if ?b then _ else _] => destruct b eqn:?; simpl in *
  | |- context [match ?x with Array1 => _ | Array2 => _ end] =>
      destruct x eqn:?; simpl in *
  | |- context [match ?x with O => _ | S _ => _ end] =>
      destruct x eqn:?; simpl in *
  end;
  repeat match goal with
  | H : (_ <=? _)%nat = true |- _ => apply Nat.leb_le in H
  | H : (_ <=? _)%nat = false |- _ => apply Nat.leb_gt in H
  end.

Ltac pick_side :=
  first [ left; repeat split; simpl; (done || lia)
        | right; repeat split; simpl; (done || lia) ].

Lemma first_block_step (q0 q : sequencer) (c : call) (sampled completed : bool) :
  is_start c = false ->
  first_block_inv q0 q ->
  first_block_inv q0 (q_dispatch c sampled completed q).
Proof.
  intros Hc [(Ha & Ht & Hl & Hi & Hlt & Hb)|(Ht & Hb & Hn)];
    destruct q; unfold first_block_inv; simpl in *; subst;
    destruct c; try done; sequencer_cases; simplify_eq; pick_side.
Qed.

Lemma second_block_step (q0 q : sequencer) (c : call) (sampled completed : bool) :
  second_block_inv q0 q ->
  second_block_inv q0 (q_dispatch c sampled completed q).
Proof.
  intros (Harr & Htm & Hlen & Hss & Hidx). destruct q.
  unfold second_block_inv. simpl in *. subst.
  destruct c; sequencer_cases; simplify_eq;
    repeat split; simpl; try done; try lia;
    try (intros; simplify_eq); try (destruct Hidx; [done|]; lia).
Qed.

(** *** The event file only grows *)

Ltac log_grows :=
  simpl; rewrite <- ?app_assoc; first [reflexivity | by apply prefix_app_r].

Lemma check_phase_boundaries_grows (c : Q) (s : state) :
  csv_file s `prefix_of` csv_file (check_phase_boundaries c s).
Proof.
  destruct (check_phase_boundaries_shape c s) as (evs & rows & ->).
  log_grows.
Qed.

Lemma start_trial_grows (s : state) :
  csv_file s `prefix_of` csv_file (final (start_trial s)).
Proof.
  unfold start_trial. cbn [experiment_running trial_in_progress
    set_phase_events_logged].
  destruct (negb (experiment_running s) || trial_in_progress s); [done|].
  destruct (current_array _ !! _); [|done].
  destruct (mvc_normalized _); log_grows.
Qed.

Lemma stop_experiment_grows (s : state) :
  csv_file s `prefix_of` csv_file (stop_experiment s).
Proof. unfold stop_experiment. destruct (_ || _); log_grows. Qed.

Lemma start_break_grows (s : state) :
  csv_file s `prefix_of` csv_file (start_break s).
Proof. unfold start_break. log_grows. Qed.

Lemma prepare_next_array_grows (s : state) :
  csv_file s `prefix_of` csv_file (final (prepare_next_array s)).
Proof.
  unfold prepare_next_array.
  destruct (current_array _ !! _); [destruct (mvc_normalized _)|]; log_grows.
Qed.

Lemma finish_tick_grows (s : state) :
  csv_file s `prefix_of` csv_file (final (finish_tick s)).
Proof.
  unfold finish_tick. destruct (Qle_bool 30 _); [|done].
  set (s1 := set_current_trial_index _ _).
  assert (H1 : csv_file s `prefix_of` csv_file s1) by (unfold s1; log_grows).
  clearbody s1. etrans; [exact H1|].
  destruct (_ <=? _)%nat.
  - destruct (current_trial_array _); simpl final;
      [apply start_break_grows|apply stop_experiment_grows].
  - apply start_trial_grows.
Qed.

Lemma sample_grows (s s1 : state) (cycle_time : Q) (m : option (list Q)) :
  csv_file s `prefix_of` csv_file s1 ->
  csv_file s `prefix_of` csv_file (final
    match m with
    | Some [raw_force; _; _; _] =>
        match normalized_force raw_force (select_max_force s1) with
        | None => Raised ZeroDivisionError s1
        | Some new_force =>
            match get_reference_force s1 cycle_time with
            | None => Raised ValueError s1
            | Some ref_force =>
                finish_tick (append_buffers new_force ref_force s1)
            end
        end
    | _ => Returned s1
    end).
Proof.
  intros H1.
  destruct m as [[|raw [|m2 [|m3 [|m4 [|m5 ms]]]]]|]; try exact H1.
  destruct (normalized_force _ _); [|exact H1].
  destruct (get_reference_force _ _); [|exact H1].
  etrans; [exact H1|].
  exact (finish_tick_grows (append_buffers _ _ s1)).
Qed.

Lemma update_plot_grows (now : Q) (m : option (list Q)) (s : state) :
  csv_file s `prefix_of` csv_file (final (update_plot now m s)).
Proof.
  unfold update_plot.
  destruct (experiment_running s); [|reflexivity].
  destruct (start_time s) as [t0|]; [|reflexivity]. cbn [negb].
  apply sample_grows.
  exact (check_phase_boundaries_grows _ (set_time_elapsed (now - t0)%Q s)).
Qed.

Lemma dispatch_grows (c : call) (s : state) :
  csv_file s `prefix_of` csv_file (final (dispatch c s)).
Proof.
  destruct c; simpl.
  - destruct (timer_active s); [apply update_plot_grows|done].
  - destruct (break_timers s); [done|].
    etrans; [|apply prepare_next_array_grows]. done.
  - unfold start_experiment. log_grows.
  - unfold load_last_mvc. repeat case_match; done.
  - apply stop_experiment_grows.
Qed.

(** The event file is append-only. *)
Lemma run_grows (calls : list call) (s : state) :
  csv_file (final (run calls s))
  = csv_file s ++ appended s (final (run calls s)).
Proof.
  assert (H : csv_file s `prefix_of` csv_file (final (run calls s))).
  { revert s. induction calls as [|c calls IH]; intros s; [done|]. simpl.
    pose proof (dispatch_grows c s) as Hd.
    destruct (dispatch c s) as [s'|e s']; simpl in *; [|done].
    etrans; [exact Hd|apply IH]. }
  destruct H as [k Hk]. unfold appended. rewrite Hk.
  by rewrite drop_app_length.
Qed.

(** *** Both blocks end once *)

Lemma run_first_block (calls : list call) (s0 s : state) :
  forallb (fun c => negb (is_start c)) calls = true ->
  first_block_inv (sequencer_of s0) (sequencer_of s) ->
  first_block_inv (sequencer_of s0) (sequencer_of (final (run calls s))).
Proof.
  revert s. induction calls as [|c calls IH]; intros s Hcs Hinv; [done|].
  simpl in Hcs. apply andb_true_iff in Hcs as [Hc Hcs].
  apply negb_true_iff in Hc.
  destruct (dispatch_sequencer c s) as (sampled & completed & Hd).
  pose proof (first_block_step _ _ c sampled completed Hc Hinv) as Hstep.
  rewrite <- Hd in Hstep. simpl.
  destruct (dispatch c s) as [s'|e s']; simpl in *; [|done].
  by apply IH.
Qed.

Lemma run_second_block (calls : list call) (s0 s : state) :
  second_block_inv (sequencer_of s0) (sequencer_of s) ->
  second_block_inv (sequencer_of s0) (sequencer_of (final (run calls s))).
Proof.
  revert s. induction calls as [|c calls IH]; intros s Hinv; [done|].
  destruct (dispatch_sequencer c s) as (sampled & completed & Hd).
  pose proof (second_block_step _ _ c sampled completed Hinv) as Hstep.
  rewrite <- Hd in Hstep. simpl.
  destruct (dispatch c s) as [s'|e s']; simpl in *; [|done].
  by apply IH.
Qed.

(** The termination path run again writes nothing: the latch is set. *)
Lemma stop_experiment_latch (s : state) :
  stop_experiment (stop_experiment s) = stop_experiment s.
Proof.
  unfold stop_experiment.
  destruct (negb (experiment_running s) || experiment_ended s) eqn:E.
  - by rewrite E.
  - reflexivity.
Qed.

(** Once the session is not running the timer callback does nothing. *)
Lemma update_plot_not_running (now : Q) (m : option (list Q)) (s : state) :
  experiment_running s = false -> update_plot now m s = Returned s.
Proof. intros H. unfold update_plot. by rewrite H. Qed.

(** What does hold of the ends of the blocks.  The event file only grows,
    and for the rows a run appends:
    - from a state of the first block with no break pending, and as long
      as Start is not pressed again, the break is entered (a [BreakStart]
      row) exactly when the completions ([TrialEnd] rows) have exhausted
      the block, only once, and there is no further completion;
    - from a state of the second block in which the session has not ended,
      whatever is called and however often, at most one termination row
      ([SectionStop]) is written, and exactly one once the completions have
      exhausted the block. *)
Theorem blocks_end_once (s : state) (calls : list call) :
  let s' := final (run calls s) in
  let new := appended s s' in
  csv_file s' = csv_file s ++ new
  /\ (current_trial_array s = Array1 -> break_timers s = 0%nat ->
      (current_trial_index s < length (trial_array1 s))%nat ->
      forallb (fun c => negb (is_start c)) calls = true ->
      count_event "BreakStart" new
      = (if (length (trial_array1 s)
             <=? current_trial_index s + count_event "TrialEnd" new)%nat
         then 1 else 0)%nat
      /\ (current_trial_index s + count_event "TrialEnd" new
          <= length (trial_array1 s))%nat)
  /\ (current_trial_array s = Array2 -> break_timers s = 0%nat ->
      experiment_ended s = false ->
      (current_trial_index s < length (trial_array2 s))%nat ->
      (count_event "SectionStop" new <= 1)%nat
      /\ ((length (trial_array2 s)
           <= current_trial_index s + count_event "TrialEnd" new)%nat ->
          count_event "SectionStop" new = 1%nat)).
Proof.
  intros s' new. pose proof (run_grows calls s) as Hgrow.
  fold s' in Hgrow. fold new in Hgrow. split; [done|].
  pose proof (f_equal (count_event "TrialEnd") Hgrow) as Hte.
  pose proof (f_equal (count_event "BreakStart") Hgrow) as Hbs.
  pose proof (f_equal (count_event "SectionStop") Hgrow) as Hss.
  rewrite count_event_app in Hte, Hbs, Hss.
  split.
  - intros Harr Htm Hidx Hcalls.
    assert (Hinv : first_block_inv (sequencer_of s) (sequencer_of s')).
    { apply run_first_block; [done|]. left. done. }
    destruct (Nat.leb_spec0 (length (trial_array1 s))
                (current_trial_index s + count_event "TrialEnd" new));
      destruct Hinv as [(_ & _ & Hl & Hi & Hlt & Hb)|(_ & Hb & Hn)];
      simpl in *; lia.
  - intros Harr Htm Hend Hidx.
    assert (Hinv : second_block_inv (sequencer_of s) (sequencer_of s')).
    { apply run_second_block. repeat split; simpl; try done.
      rewrite Hend. lia. }
    destruct Hinv as (_ & _ & Hl & Hstop & Hi). simpl in *.
    destruct (experiment_ended s'); [lia|].
    destruct Hi as [Hi Hlt]; [done|]. lia.
Qed.

Lemma blocks_end_once_witness :
  count_event "BreakStart"
    (appended example_running (final (run block1_ticks example_running)))
  = 1%nat
  /\ count_event "SectionStop"
       (appended example_block2 (final (run block2_calls example_block2)))
     = 1%nat.
Proof.
  split.
  - destruct (blocks_end_once example_running block1_ticks) as (_ & H1 & _).
    destruct H1 as [Hb _].
    + vm_compute. reflexivity.
    + vm_compute. reflexivity.
    + vm_compute. lia.
    + vm_compute. reflexivity.
    + rewrite Hb. vm_compute. reflexivity.
  - destruct (blocks_end_once example_block2 block2_calls) as (_ & _ & H2).
    destruct H2 as [_ Hs].
    + vm_compute. reflexivity.
    + vm_compute. reflexivity.
    + vm_compute. reflexivity.
    + vm_compute. lia.
    + apply Hs. vm_compute. lia.
Defined.

(** C4.  The break path has no latch of the kind the termination path
    has: [start_break] stops the update timer and nothing else, so that a
    press of Start during the break, which is delivered as always, starts
    the timer again; the position is still past the end of the first
    block, and the tick 30 s later logs a 61st [TrialEnd] and enters the
    break a second time, with a second [SectionStop] and [BreakStart] for
    section 1 and a second switch to the next block pending. *)
Theorem break_entered_twice :
  let s := example_break in
  let s' := final (run [ClickStart 3000; tick 3031] s) in
  current_trial_array s = Array1
  /\ current_trial_index s = length (trial_array1 s)
  /\ count_event "TrialEnd" (csv_file s) = 60%nat
  /\ count_event "BreakStart" (csv_file s) = 1%nat
  /\ break_timers s = 1%nat
  /\ exception_of (run [ClickStart 3000; tick 3031] s) = None
  /\ events_of (appended s s')
     = ["SectionStart"; "TrialEnd"; "SectionStop"; "BreakStart"]
  /\ count_event "TrialEnd" (csv_file s') = 61%nat
  /\ count_event "BreakStart" (csv_file s') = 2%nat
  /\ break_timers s' = 2%nat.
Proof. vm_compute. done. Qed.

(** The first block of the example session: 60 completions, one break,
    the timer stopped; the two ticks after the break change nothing. *)
Example first_block_run :
  let s' := final (run block1_ticks example_running) in
  current_trial_index s' = 60%nat
  /\ timer_active s' = false
  /\ count_event "TrialEnd" (appended example_running s') = 60%nat
  /\ count_event "BreakStart" (appended example_running s') = 1%nat.
Proof. vm_compute. done. Qed.

(** The second block: the session ends on the 60th completion; pressing
    Start afterwards lets the completion check run on every tick, and
    closing the window runs the termination path again, yet there is one
    termination row. *)
Example second_block_run :
  let s' := final (run block2_calls example_block2) in
  experiment_ended s' = true
  /\ count_event "TrialEnd" (appended example_block2 s') = 62%nat
  /\ count_event "SectionStop" (appended example_block2 s') = 1%nat.
Proof. vm_compute. done. Qed.

(** *** What a trial logs *)

(** Ticks that skip two boundaries at once fire both pairs of events, in
    order; the tenth event, listed at 30 s, is not among them. *)
Example first_trial_events :
  events_of
    (appended example_session
       (final (run [ClickStart 1000; tick 1001; tick 1012; tick 1026;
                    tick 1029; tick 1030; tick 1031] example_session)))
  = ["SectionStart"; "RestPhaseStart"; "RestPhaseStop"; "GetReadyStart";
     "GetReadyStop"; "RampUpPhaseStart"; "RampUpPhaseStop"; "HoldPhaseStart";
     "HoldPhaseStop"; "RampDownPhaseStart"; "TrialEnd"; "TrialStart";
     "RestPhaseStart"].
Proof. vm_compute. reflexivity. Qed.

(** The set of fired events is emptied by [start_trial] only, which the
    break does not call: the first trial of the second block starts with
    the set the last trial of the first block left, and logs no phase
    event at all. *)
Example second_block_first_trial_events :
  size (phase_events_logged example_block2) = 9%nat
  /\ events_of
       (appended example_block2
          (final (run (map tick [5001; 5006; 5011; 5016; 5026; 5030; 5031]%Z)
                    example_block2)))
     = ["TrialEnd"; "TrialStart"; "RestPhaseStart"].
Proof. vm_compute. done. Qed.

(** ** More on the phase timer *)

(** The state after one check, in closed form. *)
Lemma check_phase_boundaries_exact (c : Q) (s : state) :
  check_phase_boundaries c s
  = set_phase_events_logged
      (phase_events_logged s
       ∪ list_to_set (fired c (phase_events_logged s) phase_events))
      (set_csv_file
         (csv_file s
          ++ map (fun e => Row (current_section s) e (current_trial_id s))
               (fired c (phase_events_logged s) phase_events)) s).
Proof.
  destruct (check_phase_boundaries_fires c s) as [Hcsv Hset].
  destruct (check_phase_boundaries_shape c s) as (evs & rows & Hs).
  rewrite Hs in Hcsv, Hset. simpl in Hcsv, Hset.
  rewrite Hs, Hcsv, Hset. reflexivity.
Qed.

Lemma filter_none {A : Type} (P : A -> Prop) `{!forall x, Decision (P x)}
    (l : list A) :
  Forall (fun x => ~ P x) l -> filter P l = [].
Proof.
  induction 1 as [|x l Hx _ IH]; [done|].
  rewrite filter_cons, decide_False by done. exact IH.
Qed.

(** In a list of ascending offsets the boundaries reached at [c1] come
    before the others. *)
Lemma filter_split_ascending (P : Q * string -> Prop)
    `{!forall be, Decision (P be)} (c1 : Q) (l : list (Q * string)) :
  ascending l ->
  filter P l
  = filter (fun be => P be /\ Qle_bool be.1 c1 = true) l
    ++ filter (fun be => P be /\ Qle_bool be.1 c1 = false) l.
Proof.
  induction l as [|[b e] l IH]; [done|]. intros [Hall Hs].
  specialize (IH Hs). rewrite !filter_cons. simpl.
  destruct (Qle_bool b c1) eqn:Hb.
  - destruct (decide (P (b, e))) as [HP|HP].
    + rewrite decide_True by done.
      rewrite decide_False by (intros [_ ?]; done).
      simpl. by rewrite IH.
    + rewrite !decide_False by (intros [? _]; done). done.
  - assert (Hnone :
      filter (fun be => P be /\ Qle_bool be.1 c1 = true) l = []).
    { apply filter_none, Forall_forall. intros [b' e'] Hin [_ Hle].
      simpl in *. rewrite Forall_forall in Hall.
      specialize (Hall _ Hin). simpl in Hall. bool_to_Q. lra. }
    rewrite Hnone in IH |- *.
    destruct (decide (P (b, e))) as [HP|HP].
    + rewrite decide_False by (intros [_ ?]; done).
      rewrite decide_True by done. simpl. by rewrite IH.
    + rewrite !decide_False by (intros [? _]; done). simpl. by rewrite IH.
Qed.

Lemma NoDup_names_offset (l : list (Q * string)) (b b' : Q) (e : string) :
  NoDup l.*2 -> (b, e) ∈ l -> (b', e) ∈ l -> b = b'.
Proof.
  induction l as [|[b0 e0] l IH]; intros Hnd H1 H2.
  { by apply elem_of_nil in H1. }
  rewrite fmap_cons in Hnd. apply NoDup_cons in Hnd as [Hnot Hnd].
  simpl in Hnot.
  apply elem_of_cons in H1 as [H1|H1]; apply elem_of_cons in H2 as [H2|H2].
  - congruence.
  - injection H1 as -> ->. exfalso. apply Hnot.
    apply list_elem_of_fmap. by exists (b', e0).
  - injection H2 as -> ->. exfalso. apply Hnot.
    apply list_elem_of_fmap. by exists (b, e0).
  - by apply IH.
Qed.

Lemma elem_of_fired (c : Q) (X : gset string) (l : list (Q * string))
    (e : string) :
  e ∈ fired c X l <-> exists b, (b, e) ∈ l /\ due c X (b, e) = true.
Proof.
  unfold fired. rewrite list_elem_of_fmap. split.
  - intros ([b e'] & -> & Hin). apply list_elem_of_filter in Hin as [Hd Hin].
    by exists b.
  - intros (b & Hin & Hd). exists (b, e). split; [done|].
    by apply list_elem_of_filter.
Qed.

(** What is due at [c2] is what was due at [c1], then what has become due
    since. *)
Lemma fired_split (c1 c2 : Q) (X : gset string) (l : list (Q * string)) :
  (c1 <= c2)%Q -> NoDup l.*2 -> ascending l ->
  fired c2 X l
  = fired c1 X l ++ fired c2 (X ∪ list_to_set (fired c1 X l)) l.
Proof.
  intros Hc Hnd Hasc. unfold fired at 1 2 3.
  rewrite <- fmap_app. f_equal.
  rewrite (filter_split_ascending _ c1 l Hasc). f_equal.
  - apply list_filter_iff. intros [b e]. unfold due. simpl.
    split.
    + intros [H1 H2]. bool_to_Q. apply andb_true_iff. split; [|done].
      by apply Qle_bool_iff.
    + intros H. bool_to_Q. split; [|by apply Qle_bool_iff].
      apply andb_true_iff. split; [|done]. apply Qle_bool_iff. lra.
  - apply filter_ext_Forall, Forall_forall. intros [b e] Hin.
    unfold due. simpl. split.
    + intros [H1 H2]. apply andb_true_iff in H1 as [Hb He].
      apply andb_true_iff. split; [done|].
      apply negb_true_iff, bool_decide_eq_false.
      apply negb_true_iff, bool_decide_eq_false in He.
      intros [HX|HF]%elem_of_union; [done|].
      apply elem_of_list_to_set, elem_of_fired in HF as (b' & Hin' & Hd).
      rewrite (NoDup_names_offset l b b' e Hnd Hin Hin') in H2.
      unfold due in Hd. simpl in Hd.
      apply andb_true_iff in Hd as [Hd _]. congruence.
    + intros H. apply andb_true_iff in H as [Hb He].
      apply negb_true_iff, bool_decide_eq_false in He.
      assert (HX : e ∉ X) by (intros ?; apply He, elem_of_union; by left).
      split.
      * apply andb_true_iff. split; [done|].
        by apply negb_true_iff, bool_decide_eq_false.
      * destruct (Qle_bool b c1) eqn:Hb1; [|done]. exfalso. apply He.
        apply elem_of_union. right.
        apply elem_of_list_to_set, elem_of_fired. exists b. split; [done|].
        unfold due. simpl. rewrite Hb1. simpl.
        by apply negb_true_iff, bool_decide_eq_false.
Qed.

Lemma phase_events_ascending : ascending phase_events.
Proof. simpl. repeat split; repeat constructor; simpl; lra. Qed.

Lemma phase_events_NoDup : NoDup phase_events.*2.
Proof. apply (bool_decide_unpack _). vm_compute. exact I. Qed.

(** In the model, where a row does not carry the clock reading taken when
    it was written, a check at [c1] followed by a check at [c2 >= c1] gives
    the state the check at [c2] alone gives. *)
Lemma check_phase_boundaries_twice (c1 c2 : Q) (s : state) :
  (c1 <= c2)%Q ->
  check_phase_boundaries c2 (check_phase_boundaries c1 s)
  = check_phase_boundaries c2 s.
Proof.
  intros Hc.
  rewrite (check_phase_boundaries_exact c1 s).
  rewrite (check_phase_boundaries_exact c2 s).
  rewrite (check_phase_boundaries_exact c2 (set_phase_events_logged _ _)).
  cbn [phase_events_logged csv_file current_section current_trial_id
       set_phase_events_logged set_csv_file].
  rewrite (fired_split c1 c2 (phase_events_logged s) phase_events Hc
             phase_events_NoDup phase_events_ascending).
  set (F1 := fired c1 (phase_events_logged s) phase_events).
  set (F2 := fired c2 (phase_events_logged s ∪ list_to_set F1) phase_events).
  rewrite map_app, list_to_set_app_L, !(assoc_L (∪)), <- app_assoc.
  reflexivity.
Qed.

(** X1.  Within a trial the granularity of the ticks does not matter to
    which phase events are logged: for cycle times [c1 <= c2], a check at
    [c1] followed by a check at [c2] leaves the same set of fired events as
    the check at [c2] alone, and the event file names the same events, for
    the same section and trial, in the same order.  When each row was
    written is not compared: the rows the earlier check writes are written
    then.  With [c1 = c2]: a repeated check logs nothing. *)
Theorem check_phase_boundaries_granularity (c1 c2 : Q) (s : state) :
  (c1 <= c2)%Q ->
  phase_events_logged (check_phase_boundaries c2 (check_phase_boundaries c1 s))
  = phase_events_logged (check_phase_boundaries c2 s)
  /\ logged (csv_file (check_phase_boundaries c2
                         (check_phase_boundaries c1 s)))
     = logged (csv_file (check_phase_boundaries c2 s)).
Proof.
  intros Hc. by rewrite (check_phase_boundaries_twice c1 c2 s Hc).
Qed.

Lemma check_phase_boundaries_granularity_witness :
  phase_events_logged
    (check_phase_boundaries 12 (check_phase_boundaries 4 example_running))
  = phase_events_logged (check_phase_boundaries 12 example_running)
  /\ logged (csv_file (check_phase_boundaries 12
                         (check_phase_boundaries 4 example_running)))
     = logged (csv_file (check_phase_boundaries 12 example_running)).
Proof.
  apply (check_phase_boundaries_granularity 4 12 example_running).
  vm_compute. discriminate.
Defined.

(** ** What a session keeps *)

(** *** Well-formedness *)

Lemma conditions_targets :
  Forall (fun trial_id =>
            exists m, mvc_normalized trial_id = Some m
                      /\ within 0 (4 # 5) m) conditions.
Proof.
  assert (H : forallb (fun trial_id =>
                match mvc_normalized trial_id with
                | Some m => Qle_bool 0 m && Qle_bool m (4 # 5)
                | None => false
                end) conditions = true) by (vm_compute; reflexivity).
  rewrite forallb_forall in H. apply Forall_forall. intros trial_id Hin.
  apply list_elem_of_In in Hin. specialize (H _ Hin).
  destruct (mvc_normalized trial_id) as [m|]; [|done].
  exists m. split; [done|]. bool_to_Q. by split.
Qed.

Lemma well_formed_target (s : state) :
  well_formed s ->
  exists m, mvc_normalized (current_trial_id s) = Some m /\ within 0 (4 # 5) m.
Proof.
  intros (_ & _ & Hid & _). pose proof conditions_targets as H.
  rewrite Forall_forall in H. by apply H.
Qed.

(** The reference force stays between zero and the target. *)
Lemma get_reference_force_bounds (s : state) (t m : Q) :
  mvc_normalized (current_trial_id s) = Some m -> (0 <= m)%Q ->
  exists v, get_reference_force s t = Some v /\ within 0 m v.
Proof.
  intros Hm Hpos. unfold get_reference_force, within. rewrite Hm.
  destruct (Qle_bool 0 t && Qltb t 10) eqn:E1;
    [|destruct (Qle_bool 10 t && Qltb t 15) eqn:E2;
      [|destruct (Qle_bool 15 t && Qltb t 25) eqn:E3;
        [|destruct (Qle_bool 25 t && Qltb t 30) eqn:E4]]];
    eexists; (split; [reflexivity|]); bool_to_Q; try lra;
    try (exfalso; lra).
  - assert (Hr : (m * (t - 10) / 5 == m * ((t - 10) / 5))%Q) by field.
    rewrite Hr. set (r := ((t - 10) / 5)%Q).
    assert (Hr5 : (5 * r == t - 10)%Q) by (unfold r; field).
    clearbody r. assert (0 <= r /\ r <= 1)%Q as [? ?] by (split; lra).
    split; nra.
  - set (r := ((t - 25) / 5)%Q).
    assert (Hr5 : (5 * r == t - 25)%Q) by (unfold r; field).
    clearbody r. assert (0 <= r /\ r <= 1)%Q as [? ?] by (split; lra).
    split; nra.
Qed.

(** *** The buffers *)

Lemma length_deque_append {A : Type} (n : nat) (x : A) (d : list A) :
  length (deque_append n x d) = Nat.min n (S (length d)).
Proof.
  unfold deque_append. rewrite length_drop, length_app. simpl. lia.
Qed.

Lemma Forall_deque_append {A : Type} (P : A -> Prop) (n : nat) (x : A)
    (d : list A) :
  Forall P d -> P x -> Forall P (deque_append n x d).
Proof.
  intros Hd Hx. unfold deque_append. apply Forall_drop, Forall_app.
  split; [done|]. by constructor.
Qed.

(** Whatever the reference, a normalised force that is computed lies in
    [[0, 1]]. *)
Lemma normalized_force_within (raw_force MAX_FORCE v : Q) :
  normalized_force raw_force MAX_FORCE = Some v -> within 0 1 v.
Proof.
  unfold normalized_force. destruct (Qeq_bool _ _); [done|].
  intros [= <-]. unfold pymax, pymin, within.
  set (q := (_ / _)%Q).
  destruct (Qltb 1 q) eqn:E1;
    [destruct (Qltb 0 1) eqn:E2|destruct (Qltb 0 q) eqn:E2];
    bool_to_Q; lra.
Qed.

Lemma append_buffers_ok (new_force ref_force : Q) (s : state) :
  buffers_ok (plots s) -> within 0 1 new_force ->
  within 0 (4 # 5) ref_force ->
  buffers_ok (plots (append_buffers new_force ref_force s)).
Proof.
  intros (H1 & H2 & H3 & H4 & H5 & H6) Hv Hr.
  unfold append_buffers, buffers_ok. simpl.
  rewrite !length_deque_append, H1, H2, H3.
  repeat split; try done; try lia; by apply Forall_deque_append.
Qed.

Lemma empty_buffers_ok : buffers_ok empty_buffers.
Proof. unfold buffers_ok. simpl. repeat split; (lia || constructor). Qed.

(** *** Method by method *)

(** What the three properties depend on. *)
Lemma well_formed_frame (s s' : state) :
  blocks s' = blocks s ->
  current_trial_id s' = current_trial_id s ->
  experiment_running s' = experiment_running s ->
  start_time s' = start_time s ->
  well_formed s -> well_formed s'.
Proof.
  intros [= H1 H2] H3 H4 H5 (Ha & Hb & Hc & Hd).
  unfold well_formed. rewrite H1, H2, H3, H4, H5. done.
Qed.

Lemma check_phase_boundaries_well_formed (c : Q) (s : state) :
  well_formed s -> well_formed (check_phase_boundaries c s).
Proof.
  destruct (check_phase_boundaries_shape c s) as (evs & rows & ->).
  by apply well_formed_frame.
Qed.

Lemma well_formed_lookup (s : state) (i : nat) (trial_id : string) :
  well_formed s -> current_array s !! i = Some trial_id ->
  trial_id ∈ conditions.
Proof.
  intros (H1 & H2 & _) Hi. apply list_elem_of_lookup_2 in Hi.
  unfold current_array, the_array in Hi.
  destruct (current_trial_array s); [by rewrite <- H1|by rewrite <- H2].
Qed.

Lemma conditions_level (trial_id : string) :
  trial_id ∈ conditions -> is_Some (mvc_normalized trial_id).
Proof.
  intros Hin. pose proof conditions_levels as H.
  rewrite Forall_forall in H. by apply H.
Qed.

Lemma start_trial_well_formed (s : state) :
  well_formed s ->
  well_formed (final (start_trial s))
  /\ ((current_trial_index s < length (current_array s))%nat ->
      exception_of (start_trial s) = None).
Proof.
  intros Hwf. unfold start_trial.
  cbn [experiment_running trial_in_progress set_phase_events_logged].
  destruct (negb (experiment_running s) || trial_in_progress s).
  { split; [|done]. by apply (well_formed_frame s). }
  set (s1 := set_trial_in_progress true _).
  assert (Hwf1 : well_formed s1) by (by apply (well_formed_frame s)).
  assert (Harr : current_array s1 = current_array s) by done.
  assert (Hidx : current_trial_index s1 = current_trial_index s) by done.
  clearbody s1. rewrite Harr, Hidx.
  destruct (current_array s !! current_trial_index s) as [trial_id|] eqn:Hl.
  - assert (Hin : trial_id ∈ conditions).
    { apply (well_formed_lookup s1 (current_trial_index s)); [done|].
      by rewrite Harr. }
    cbn [current_trial_id set_phase_events_logged log_event set_csv_file
         set_trial_start_time set_current_trial_id].
    destruct (conditions_level _ Hin) as [m ->].
    split; [|done].
    destruct Hwf1 as (Ha & Hb & Hc & Hd). by repeat split.
  - split; [done|]. intros Hlt. apply lookup_ge_None in Hl. lia.
Qed.

Lemma stop_experiment_well_formed (s : state) :
  well_formed s -> well_formed (stop_experiment s).
Proof.
  intros (Ha & Hb & Hc & Hd). unfold stop_experiment.
  destruct (_ || _); by repeat split.
Qed.

Lemma start_break_well_formed (s : state) :
  well_formed s -> well_formed (start_break s).
Proof. by apply well_formed_frame. Qed.

Lemma start_experiment_well_formed (now : Q) (s : state) :
  well_formed s -> well_formed (start_experiment now s).
Proof. intros (Ha & Hb & Hc & Hd). by repeat split. Qed.

Lemma prepare_next_array_well_formed (s : state) :
  well_formed s ->
  well_formed (final (prepare_next_array s))
  /\ exception_of (prepare_next_array s) = None.
Proof.
  intros Hwf. unfold prepare_next_array.
  set (s1 := set_current_trial_index 0 _).
  assert (Hwf1 : well_formed s1) by (by apply (well_formed_frame s)).
  assert (Harr : current_array s1 = trial_array2 s) by done.
  assert (Hidx : current_trial_index s1 = 0%nat) by done.
  clearbody s1. rewrite Harr, Hidx.
  destruct (trial_array2 s !! 0%nat) as [trial_id|] eqn:Hl.
  - assert (Hin : trial_id ∈ conditions).
    { destruct Hwf as (_ & H2 & _). rewrite <- H2.
      by eapply list_elem_of_lookup_2. }
    cbn [current_trial_id set_time_elapsed set_trial_start_time
         set_start_time set_current_trial_id clear_buffers set_plots].
    destruct (conditions_level _ Hin) as [m ->].
    split; [|done].
    destruct Hwf1 as (Ha & Hb & Hc & Hd). by repeat split.
  - exfalso. apply lookup_ge_None in Hl.
    destruct Hwf as (_ & H2 & _). apply Permutation_length in H2.
    rewrite H2 in Hl. vm_compute in Hl. lia.
Qed.

Lemma finish_tick_well_formed (s : state) :
  well_formed s ->
  well_formed (final (finish_tick s))
  /\ exception_of (finish_tick s) = None.
Proof.
  intros Hwf. unfold finish_tick. destruct (Qle_bool 30 _); [|done].
  set (s1 := set_current_trial_index _ _).
  assert (Hwf1 : well_formed s1) by (by apply (well_formed_frame s)).
  clearbody s1.
  destruct (_ <=? _)%nat eqn:Hle.
  - destruct (current_trial_array s1); cbn [final exception_of];
      (split; [|done]).
    + by apply start_break_well_formed.
    + by apply stop_experiment_well_formed.
  - apply Nat.leb_gt in Hle.
    destruct (start_trial_well_formed s1 Hwf1) as [H1 H2]. auto.
Qed.

(** The part of [update_plot] after the boundary check. *)
Lemma sample_keeps (s1 : state) (cycle_time : Q) (m : option (list Q)) :
  well_formed s1 -> buffers_ok (plots s1) ->
  let o :=
    match m with
    | Some [raw_force; _; _; _] =>
        match normalized_force raw_force (select_max_force s1) with
        | None => Raised ZeroDivisionError s1
        | Some new_force =>
            match get_reference_force s1 cycle_time with
            | None => Raised ValueError s1
            | Some ref_force =>
                finish_tick (append_buffers new_force ref_force s1)
            end
        end
    | _ => Returned s1
    end in
  well_formed (final o) /\ buffers_ok (plots (final o))
  /\ mvc (final o) = mvc s1
  /\ (exception_of o = None \/ exception_of o = Some ZeroDivisionError)
  /\ (~ (select_max_force s1 == 0)%Q -> exception_of o = None).
Proof.
  intros Hwf Hbuf.
  destruct m as [[|raw [|m2 [|m3 [|m4 [|m5 ms]]]]]|]; cbv zeta;
    try (cbn [final exception_of];
         split; [done|]; split; [done|]; split; [done|];
         split; [by left|done]).
  destruct (normalized_force raw (select_max_force s1)) as [v|] eqn:Hv.
  2:{ cbn [final exception_of].
      split; [done|]; split; [done|]; split; [done|]; split; [by right|].
      intros Hnz. unfold normalized_force, MIN_FORCE in Hv.
      destruct (Qeq_bool (select_max_force s1 - 0) 0) eqn:E; [|done].
      apply Qeq_bool_eq in E. exfalso. apply Hnz. lra. }
  destruct (well_formed_target s1 Hwf) as (tm & Htm & [Htm0 Htm1]).
  destruct (get_reference_force_bounds s1 cycle_time tm Htm Htm0)
    as (r & -> & [Hr0 Hr1]).
  set (s2 := append_buffers v r s1).
  assert (Hwf2 : well_formed s2) by (by apply (well_formed_frame s1)).
  assert (Hbuf2 : buffers_ok (plots s2)).
  { apply append_buffers_ok; [done|by eapply normalized_force_within|].
    split; lra. }
  assert (Hmvc : mvc s2 = mvc s1) by done.
  clearbody s2.
  destruct (finish_tick_well_formed s2 Hwf2) as [H1 H2].
  rewrite finish_tick_plots. split; [done|]. split; [done|].
  split; [|by auto].
  rewrite <- Hmvc. unfold finish_tick, start_trial, start_break,
    stop_experiment. repeat case_match; reflexivity.
Qed.

Lemma update_plot_keeps (now : Q) (m : option (list Q)) (s : state) :
  well_formed s -> buffers_ok (plots s) ->
  well_formed (final (update_plot now m s))
  /\ buffers_ok (plots (final (update_plot now m s)))
  /\ mvc (final (update_plot now m s)) = mvc s
  /\ (exception_of (update_plot now m s) = None
      \/ exception_of (update_plot now m s) = Some ZeroDivisionError)
  /\ (references_nonzero s -> exception_of (update_plot now m s) = None).
Proof.
  intros Hwf Hbuf. unfold update_plot.
  destruct (experiment_running s) eqn:Hrun;
    [|cbn [negb final exception_of];
      split; [done|]; split; [done|]; split; [done|];
      split; [by left|done]].
  destruct (start_time s) as [t0|] eqn:Ht0.
  2:{ destruct Hwf as (_ & _ & _ & Hst). destruct (Hst Hrun). congruence. }
  cbn [negb].
  set (s1 := check_phase_boundaries _ _).
  assert (Hs1 : well_formed s1 /\ plots s1 = plots s /\ mvc s1 = mvc s
                /\ current_trial_id s1 = current_trial_id s).
  { unfold s1.
    split; [apply check_phase_boundaries_well_formed;
            by apply (well_formed_frame s)|].
    by destruct (check_phase_boundaries_shape
                   (fmod (time_elapsed (set_time_elapsed (now - t0)%Q s)) 30)
                   (set_time_elapsed (now - t0)%Q s))
      as (evs & rows & ->). }
  clearbody s1. destruct Hs1 as (Hwf1 & Hp1 & Hm1 & Hid1).
  rewrite <- Hp1 in Hbuf.
  destruct (sample_keeps s1 (fmod (time_elapsed (set_time_elapsed (now - t0)%Q s)) 30)
              m Hwf1 Hbuf) as (H1 & H2 & H3 & H4 & H5).
  split; [exact H1|]. split; [exact H2|]. split; [by rewrite <- Hm1|].
  split; [exact H4|]. intros (Hf & Hp & Hq). apply H5.
  unfold select_max_force. rewrite Hm1.
  repeat case_match; done.
Qed.

(** *** Loading the calibration *)

Lemma full_grasp_motion : "Full Grasp (Grip)" ∈ motions.
Proof. unfold motions. set_solver. Qed.

Lemma index_pinch_motion : "Pinch (Index Finger)" ∈ motions.
Proof. unfold motions. set_solver. Qed.

Lemma middle_pinch_motion : "Pinch (Middle Finger)" ∈ motions.
Proof. unfold motions. set_solver. Qed.

Lemma float_min_nonzero (q : Q) : (float_min <= Qabs q)%Q -> ~ (q == 0)%Q.
Proof.
  intros Hq H0. rewrite H0 in Hq.
  assert (Hpos : (0 < float_min)%Q) by reflexivity.
  change (Qabs 0) with 0%Q in Hq. lra.
Qed.

Lemma usable_row_entry (d : csv_row) (motion : string) :
  usable_row d -> motion ∈ motions ->
  (exists v, reference_of d motion = inr v /\ ~ (v == 0)%Q)
  /\ (d !! motion = None
      \/ exists text q, d !! motion = Some (Some text)
                        /\ pyfloat text = Some q).
Proof.
  intros Hd Hin. unfold usable_row in Hd. rewrite Forall_forall in Hd.
  specialize (Hd _ Hin). unfold reference_of.
  destruct (d !! motion) as [[text|]|]; simpl; [|done|].
  - destruct Hd as [_ Hd].
    destruct (pyfloat text) as [q|] eqn:Hq; [|done]. simpl.
    split; [|right; by exists text, q].
    exists q. split; [done|]. by apply float_min_nonzero.
  - split; [|by left]. eexists. split; [reflexivity|].
    vm_compute. discriminate.
Qed.

Lemma calculate_mvc_percentages_returns (d : csv_row) (ms : list string) :
  Forall (fun motion =>
            d !! motion = None
            \/ exists text q, d !! motion = Some (Some text)
                              /\ pyfloat text = Some q) ms ->
  exists r, calculate_mvc_percentages_from ms d = inr r.
Proof.
  induction 1 as [|motion ms Hm _ IH]; simpl; [by eexists|].
  destruct IH as [r ->].
  destruct Hm as [->|(text & q & -> & ->)]; by eexists.
Qed.

(** What an exception of the percentages says of the row. *)
Lemma calculate_mvc_percentages_raises (d : csv_row) (ms : list string)
    (x : exn) :
  calculate_mvc_percentages_from ms d = inl x ->
  (x = TypeError /\ exists motion, motion ∈ ms /\ d !! motion = Some None)
  \/ (x = ValueError
      /\ exists motion text,
           motion ∈ ms /\ d !! motion = Some (Some text)
           /\ pyfloat text = None).
Proof.
  induction ms as [|m ms IH]; simpl; [done|].
  assert (Hrest :
    calculate_mvc_percentages_from ms d = inl x ->
    (x = TypeError
     /\ exists motion, motion ∈ m :: ms /\ d !! motion = Some None)
    \/ (x = ValueError
        /\ exists motion text,
             motion ∈ m :: ms /\ d !! motion = Some (Some text)
             /\ pyfloat text = None)).
  { intros H. destruct (IH H) as [[-> (motion & Hin & Hd)]
                                 |[-> (motion & text & Hin & Hd)]].
    - left. split; [done|]. exists motion.
      split; [by apply elem_of_cons; right|done].
    - right. split; [done|]. exists motion, text.
      split; [by apply elem_of_cons; right|done]. }
  destruct (d !! m) as [[text|]|] eqn:Hd.
  - destruct (pyfloat text) as [q|] eqn:Hp.
    + destruct (calculate_mvc_percentages_from ms d); [|done].
      intros [= ->]. by apply Hrest.
    + intros [= <-]. right. split; [done|]. exists m, text.
      split; [by apply elem_of_cons; left|done].
  - intros [= <-]. left. split; [done|]. exists m.
    split; [by apply elem_of_cons; left|done].
  - destruct (calculate_mvc_percentages_from ms d); [|done].
    intros [= ->]. by apply Hrest.
Qed.

Lemma reference_of_raises (d : csv_row) (key : string) (x : exn) :
  reference_of d key = inl x -> x = TypeError /\ d !! key = Some None.
Proof.
  unfold reference_of. destruct (d !! key) as [[text|]|]; simpl; try done.
  by intros [= <-].
Qed.

(** Load MVC changes the references only. *)
Lemma load_last_mvc_frame (mvc_data : option csv_row) (s : state) :
  blocks (final (load_last_mvc mvc_data s)) = blocks s
  /\ current_trial_id (final (load_last_mvc mvc_data s)) = current_trial_id s
  /\ experiment_running (final (load_last_mvc mvc_data s))
     = experiment_running s
  /\ start_time (final (load_last_mvc mvc_data s)) = start_time s
  /\ plots (final (load_last_mvc mvc_data s)) = plots s.
Proof. unfold load_last_mvc. repeat case_match; done. Qed.

(** What an exception of Load MVC says of the row. *)
Lemma load_last_mvc_raises (mvc_data : option csv_row) (s : state)
    (x : exn) :
  exception_of (load_last_mvc mvc_data s) = Some x ->
  exists d,
    mvc_data = Some d
    /\ ((x = TypeError
         /\ exists motion, motion ∈ motions /\ d !! motion = Some None)
        \/ (x = ValueError
            /\ exists motion text,
                 motion ∈ motions /\ d !! motion = Some (Some text)
                 /\ pyfloat text = None)).
Proof.
  unfold load_last_mvc. destruct mvc_data as [d|]; [|done].
  destruct (bool_decide (d = ∅)); [done|]. intros Hx. exists d.
  split; [done|].
  assert (Hkey : forall key,
            key ∈ motions -> reference_of d key = inl x ->
            x = TypeError
            /\ exists motion, motion ∈ motions /\ d !! motion = Some None).
  { intros key Hin Hr. apply reference_of_raises in Hr as [-> Hd].
    split; [done|]. by exists key. }
  destruct (reference_of d "Full Grasp (Grip)") as [x1|v1] eqn:E1.
  { injection Hx as ->. left. apply (Hkey _ full_grasp_motion E1). }
  destruct (reference_of d "Pinch (Index Finger)") as [x2|v2] eqn:E2.
  { injection Hx as ->. left. apply (Hkey _ index_pinch_motion E2). }
  destruct (reference_of d "Pinch (Middle Finger)") as [x3|v3] eqn:E3.
  { injection Hx as ->. left. apply (Hkey _ middle_pinch_motion E3). }
  destruct (calculate_mvc_percentages d) as [x4|r] eqn:E4; [|done].
  injection Hx as ->. by apply calculate_mvc_percentages_raises.
Qed.

Lemma load_last_mvc_keeps (mvc_data : option csv_row) (s : state) :
  well_formed s ->
  well_formed (final (load_last_mvc mvc_data s))
  /\ plots (final (load_last_mvc mvc_data s)) = plots s
  /\ (match mvc_data with Some d => usable_row d | None => True end ->
      exception_of (load_last_mvc mvc_data s) = None
      /\ references_nonzero (final (load_last_mvc mvc_data s))).
Proof.
  intros Hwf.
  destruct (load_last_mvc_frame mvc_data s) as (F1 & F2 & F3 & F4 & F5).
  split; [by apply (well_formed_frame s)|]. split; [done|].
  assert (H100 : references_nonzero (set_mvc (References 100 100 100) s)).
  { repeat split; vm_compute; discriminate. }
  unfold load_last_mvc. destruct mvc_data as [d|]; [|done].
  destruct (bool_decide (d = ∅)); [done|]. intros Hd.
  destruct (usable_row_entry d "Full Grasp (Grip)" Hd full_grasp_motion)
    as [(v1 & -> & Hv1) _].
  destruct (usable_row_entry d "Pinch (Index Finger)" Hd index_pinch_motion)
    as [(v2 & -> & Hv2) _].
  destruct (usable_row_entry d "Pinch (Middle Finger)" Hd
              middle_pinch_motion)
    as [(v3 & -> & Hv3) _].
  destruct (calculate_mvc_percentages_returns d motions) as [r Hr].
  { apply Forall_forall. intros motion Hin. by apply usable_row_entry. }
  unfold calculate_mvc_percentages. rewrite Hr. cbn [exception_of final].
  split; [done|]. by repeat split.
Qed.

(** *** Call by call *)

Lemma stop_experiment_frame (s : state) :
  plots (stop_experiment s) = plots s /\ mvc (stop_experiment s) = mvc s.
Proof. unfold stop_experiment. by destruct (_ || _). Qed.

Lemma dispatch_keeps (c : call) (s : state) :
  well_formed s -> buffers_ok (plots s) ->
  well_formed (final (dispatch c s))
  /\ buffers_ok (plots (final (dispatch c s)))
  /\ (references_nonzero s ->
      match c with ClickLoadMVC (Some d) => usable_row d | _ => True end ->
      exception_of (dispatch c s) = None
      /\ references_nonzero (final (dispatch c s))).
Proof.
  intros Hwf Hbuf. destruct c as [now m| |now|d|]; simpl.
  - destruct (timer_active s).
    + destruct (update_plot_keeps now m s Hwf Hbuf)
        as (H1 & H2 & H3 & _ & H5).
      split; [done|]. split; [done|].
      intros Hnz _. split; [by apply H5|].
      unfold references_nonzero. by rewrite H3.
    + split; [done|]. split; [done|]. done.
  - destruct (break_timers s) as [|n].
    { split; [done|]. split; [done|]. done. }
    set (s1 := set_break_timers n s).
    assert (Hwf1 : well_formed s1) by (by apply (well_formed_frame s)).
    destruct (prepare_next_array_well_formed s1 Hwf1) as [H1 H2].
    assert (Hfr : plots (final (prepare_next_array s1)) = empty_buffers
                  /\ mvc (final (prepare_next_array s1)) = mvc s).
    { unfold prepare_next_array in *.
      destruct (current_array _ !! _); [|done].
      destruct (mvc_normalized _); done. }
    destruct Hfr as [Hp Hm].
    split; [done|]. split; [rewrite Hp; apply empty_buffers_ok|].
    intros Hnz _. split; [done|].
    unfold references_nonzero. by rewrite Hm.
  - split; [by apply start_experiment_well_formed|].
    split; [apply empty_buffers_ok|]. done.
  - destruct (load_last_mvc_keeps d s Hwf) as (H1 & H2 & H4).
    split; [done|]. split; [by rewrite H2|].
    intros _ Hd. apply H4. by destruct d.
  - destruct (stop_experiment_frame s) as [Hp Hm].
    split; [by apply stop_experiment_well_formed|].
    split; [by rewrite Hp|].
    intros Hnz _. split; [done|]. unfold references_nonzero. by rewrite Hm.
Qed.

(** What an exception of a call says: a tick divides by a reference that
    is zero; Load MVC reads a row with a cell that is no number, or with
    no cell where the line is short. *)
Lemma dispatch_raises (c : call) (s : state) (x : exn) :
  well_formed s -> buffers_ok (plots s) ->
  exception_of (dispatch c s) = Some x ->
  (x = ZeroDivisionError /\ is_timeout c = true
   /\ ~ references_nonzero (final (dispatch c s)))
  \/ exists d,
       c = ClickLoadMVC (Some d)
       /\ ((x = TypeError
            /\ exists motion, motion ∈ motions /\ d !! motion = Some None)
           \/ (x = ValueError
               /\ exists motion text,
                    motion ∈ motions /\ d !! motion = Some (Some text)
                    /\ pyfloat text = None)).
Proof.
  intros Hwf Hbuf. destruct c as [now m| |now|d|]; simpl.
  - destruct (timer_active s); [|done].
    destruct (update_plot_keeps now m s Hwf Hbuf)
      as (_ & _ & H3 & [H4|H4] & H5); rewrite H4; [done|].
    intros [= <-]. left. split; [done|]. split; [done|].
    intros Hnz. unfold references_nonzero in Hnz. rewrite H3 in Hnz.
    specialize (H5 Hnz). congruence.
  - destruct (break_timers s) as [|n]; [done|].
    set (s1 := set_break_timers n s).
    assert (Hwf1 : well_formed s1) by (by apply (well_formed_frame s)).
    destruct (prepare_next_array_well_formed s1 Hwf1) as [_ ->]. done.
  - done.
  - intros Hx. right.
    destruct (load_last_mvc_raises d s x Hx) as (d' & -> & H).
    by exists d'.
  - done.
Qed.

(** *** From construction on *)

Lemma init_keeps (rnd1 rnd2 : nat -> nat) :
  well_formed (final (init rnd1 rnd2))
  /\ plots (final (init rnd1 rnd2)) = empty_buffers
  /\ mvc (final (init rnd1 rnd2)) = References 100 100 100.
Proof.
  unfold init.
  pose proof (shuffle_Permutation rnd1 conditions) as H1.
  pose proof (shuffle_Permutation rnd2 conditions) as H2.
  revert H1 H2.
  generalize (shuffle rnd1 conditions) (shuffle rnd2 conditions).
  intros a1 a2 H1 H2.
  destruct (a1 !! 0%nat) as [trial_id|] eqn:H0.
  - assert (Hin : trial_id ∈ conditions).
    { rewrite <- H1. by eapply list_elem_of_lookup_2. }
    cbn [current_trial_id set_current_trial_id].
    destruct (conditions_level _ Hin) as [m ->].
    by repeat split.
  - exfalso. apply lookup_ge_None in H0. apply Permutation_length in H1.
    rewrite H1 in H0. vm_compute in H0. lia.
Qed.

Lemma run_keeps (calls : list call) (s : state) :
  well_formed s -> buffers_ok (plots s) ->
  well_formed (final (run calls s))
  /\ buffers_ok (plots (final (run calls s))).
Proof.
  revert s. induction calls as [|c calls IH]; intros s Hwf Hbuf; [done|].
  destruct (dispatch_keeps c s Hwf Hbuf) as (H1 & H2 & _).
  simpl. destruct (dispatch c s) as [s'|e s']; simpl in *; [|done].
  by apply IH.
Qed.

Lemma run_raises (calls : list call) (s : state) (x : exn) :
  well_formed s -> buffers_ok (plots s) ->
  exception_of (run calls s) = Some x ->
  (x = ZeroDivisionError /\ ~ references_nonzero (final (run calls s)))
  \/ exists d,
       ClickLoadMVC (Some d) ∈ calls
       /\ ((x = TypeError
            /\ exists motion, motion ∈ motions /\ d !! motion = Some None)
           \/ (x = ValueError
               /\ exists motion text,
                    motion ∈ motions /\ d !! motion = Some (Some text)
                    /\ pyfloat text = None)).
Proof.
  revert s. induction calls as [|c calls IH]; intros s Hwf Hbuf; [done|].
  destruct (dispatch_keeps c s Hwf Hbuf) as (H1 & H2 & _).
  pose proof (dispatch_raises c s x Hwf Hbuf) as Hc.
  simpl. destruct (dispatch c s) as [s'|e s']; simpl in *.
  - intros Hx. destruct (IH s' H1 H2 Hx) as [?|(d & Hin & H)]; [by left|].
    right. exists d. split; [by apply elem_of_cons; right|done].
  - intros Hx. destruct (Hc Hx) as [(-> & _ & Hnz)|(d & -> & H)];
      [by left|].
    right. exists d. split; [by apply elem_of_cons; left|done].
Qed.

Lemma run_usable (calls : list call) (s : state) :
  well_formed s -> buffers_ok (plots s) -> references_nonzero s ->
  loads_usable calls ->
  exception_of (run calls s) = None.
Proof.
  revert s. induction calls as [|c calls IH]; intros s Hwf Hbuf Hnz Hcs;
    [done|].
  apply Forall_cons in Hcs as [Hc Hcs].
  destruct (dispatch_keeps c s Hwf Hbuf) as (H1 & H2 & H4).
  destruct (H4 Hnz Hc) as [H5 H6].
  simpl. destruct (dispatch c s) as [s'|e s']; simpl in *; [|done].
  by apply IH.
Qed.

(** X2.  From construction on, whatever the event loop is asked to do,
    the four plot buffers have the same length, hold at most
    [SAMPLE_RATE * 30] entries, the forces plotted lie in [[0, 1]] and the
    reference forces plotted lie in [[0, 0.8]]. *)
Theorem session_buffers (rnd1 rnd2 : nat -> nat) (calls : list call) :
  buffers_ok (plots (final (run calls (final (init rnd1 rnd2))))).
Proof.
  destruct (init_keeps rnd1 rnd2) as (Hwf & Hp & _).
  apply run_keeps; [done|]. rewrite Hp. apply empty_buffers_ok.
Qed.

(** The cell a concrete row has for a motion, and the number a concrete
    text is read as. *)
Ltac look_up :=
  cbv beta;
  match goal with
  | |- context [?d !! ?k] =>
      let c := eval vm_compute in (d !! k) in
      change (d !! k) with c; cbv beta iota
  end.

Ltac parse :=
  match goal with
  | |- context [pyfloat ?text] =>
      let c := eval vm_compute in (pyfloat text) in
      change (pyfloat text) with c; cbv beta iota
  end.

(** X3.  From construction on, with every calibration row loaded holding,
    for the three motions, no cell, or plain text (digits, a sign, a point)
    whose number, if it is one, is zero or not below [float_min]: a run of
    the event loop returns, or ends in one of three ways and no other, so
    never with an [IndexError] or an [AttributeError]: with the
    [ZeroDivisionError] of a tick, a reference being zero; with the
    [ValueError] of Load MVC on a row with a cell that is no number; or
    with the [TypeError] of Load MVC on a row from a line too short to
    have a motion's cell.  The rows are kept to those that [pyfloat] reads
    as [float] does: on other text [float] may read a number where
    [pyfloat] reads none, or zero where the number is not. *)
Theorem session_exceptions (rnd1 rnd2 : nat -> nat) (calls : list call) :
  loads_exact calls ->
  exception_of (run calls (final (init rnd1 rnd2))) = None
  \/ (exception_of (run calls (final (init rnd1 rnd2)))
      = Some ZeroDivisionError
      /\ ~ references_nonzero (final (run calls (final (init rnd1 rnd2)))))
  \/ (exception_of (run calls (final (init rnd1 rnd2))) = Some ValueError
      /\ exists d motion text,
           ClickLoadMVC (Some d) ∈ calls /\ motion ∈ motions
           /\ d !! motion = Some (Some text) /\ pyfloat text = None)
  \/ (exception_of (run calls (final (init rnd1 rnd2))) = Some TypeError
      /\ exists d motion,
           ClickLoadMVC (Some d) ∈ calls /\ motion ∈ motions
           /\ d !! motion = Some None).
Proof.
  intros _. destruct (init_keeps rnd1 rnd2) as (Hwf & Hp & _).
  assert (Hbuf : buffers_ok (plots (final (init rnd1 rnd2))))
    by (rewrite Hp; apply empty_buffers_ok).
  destruct (exception_of (run calls (final (init rnd1 rnd2)))) as [x|] eqn:E;
    [|by left].
  right.
  destruct (run_raises calls _ x Hwf Hbuf E)
    as [[-> Hnz]|(d & Hin & [[-> (motion & Hm & Hd)]
                            |[-> (motion & text & Hm & Hd & Hp')]])].
  - by left.
  - right. right. split; [done|]. by exists d, motion.
  - right. left. split; [done|]. by exists d, motion, text.
Qed.

Lemma garbled_row_exact : exact_row garbled_row.
Proof.
  unfold exact_row, motions.
  repeat (apply Forall_cons; split); try apply Forall_nil; try exact I;
    look_up.
  - split; [reflexivity|]. parse. right. vm_compute. discriminate.
  - split; [reflexivity|]. parse. exact I.
  - split; [reflexivity|]. parse. right. vm_compute. discriminate.
Qed.

Lemma session_exceptions_witness :
  exception_of
    (run [ClickLoadMVC (Some garbled_row); ClickStart 1000; tick 1001]
       (final (init (fun _ => 0%nat) (fun i => (i * 7 + 3)%nat))))
  = None
  \/ (exception_of
        (run [ClickLoadMVC (Some garbled_row); ClickStart 1000; tick 1001]
           (final (init (fun _ => 0%nat) (fun i => (i * 7 + 3)%nat))))
      = Some ZeroDivisionError
      /\ ~ references_nonzero
             (final
                (run [ClickLoadMVC (Some garbled_row); ClickStart 1000;
                      tick 1001]
                   (final (init (fun _ => 0%nat)
                             (fun i => (i * 7 + 3)%nat))))))
  \/ (exception_of
        (run [ClickLoadMVC (Some garbled_row); ClickStart 1000; tick 1001]
           (final (init (fun _ => 0%nat) (fun i => (i * 7 + 3)%nat))))
      = Some ValueError
      /\ exists d motion text,
           ClickLoadMVC (Some d)
           ∈ [ClickLoadMVC (Some garbled_row); ClickStart 1000; tick 1001]
           /\ motion ∈ motions
           /\ d !! motion = Some (Some text) /\ pyfloat text = None)
  \/ (exception_of
        (run [ClickLoadMVC (Some garbled_row); ClickStart 1000; tick 1001]
           (final (init (fun _ => 0%nat) (fun i => (i * 7 + 3)%nat))))
      = Some TypeError
      /\ exists d motion,
           ClickLoadMVC (Some d)
           ∈ [ClickLoadMVC (Some garbled_row); ClickStart 1000; tick 1001]
           /\ motion ∈ motions /\ d !! motion = Some None).
Proof.
  apply (session_exceptions (fun _ => 0%nat) (fun i => (i * 7 + 3)%nat)).
  unfold loads_exact.
  apply Forall_cons_2; [exact garbled_row_exact|].
  repeat (apply Forall_cons_2; [exact I|]). apply Forall_nil_2.
Defined.

(** The three ways in which a run ends early, each by an example. *)
Example session_exceptions_examples :
  let s0 := final (init (fun _ => 0%nat) (fun i => (i * 7 + 3)%nat)) in
  exception_of (run [ClickLoadMVC (Some garbled_row); ClickStart 1000] s0)
  = Some ValueError
  /\ exception_of (run [ClickLoadMVC (Some short_row); ClickStart 1000] s0)
     = Some TypeError
  /\ full_grasp_mvc (mvc (final (run [ClickLoadMVC (Some short_row)] s0)))
     = 251.3%Q.
Proof. vm_compute. done. Qed.

(** X4.  From construction on, a run raises nothing as long as every
    calibration row loaded has, for each of the three motions, no column,
    or a cell with a plain number (digits, a sign, a point) not below
    [float_min] in magnitude, so that the float read from it is not zero;
    in particular when no calibration is loaded at all. *)
Theorem session_never_raises (rnd1 rnd2 : nat -> nat) (calls : list call) :
  loads_usable calls ->
  exception_of (run calls (final (init rnd1 rnd2))) = None.
Proof.
  intros Hcs. destruct (init_keeps rnd1 rnd2) as (Hwf & Hp & Hm).
  apply run_usable; try done.
  - rewrite Hp. apply empty_buffers_ok.
  - unfold references_nonzero. rewrite Hm. simpl.
    repeat split; vm_compute; discriminate.
Qed.

Lemma usable_example_usable : usable_row usable_example.
Proof.
  unfold usable_row, motions.
  repeat (apply Forall_cons; split); try apply Forall_nil; try exact I;
    look_up.
  - split; [reflexivity|]. parse. vm_compute. discriminate.
  - split; [reflexivity|]. parse. vm_compute. discriminate.
Qed.

Lemma session_never_raises_witness :
  exception_of
    (run [ClickLoadMVC (Some usable_example); ClickStart 1000; tick 1001;
          tick 1031; CloseEvent]
       (final (init (fun _ => 0%nat) (fun i => (i * 7 + 3)%nat))))
  = None.
Proof.
  apply (session_never_raises (fun _ => 0%nat) (fun i => (i * 7 + 3)%nat)).
  unfold loads_usable.
  apply Forall_cons_2; [exact usable_example_usable|].
  repeat (apply Forall_cons_2; [exact I|]). apply Forall_nil_2.
Defined.

(** ** The order of the trials *)

Lemma shows_current_frame (s s' : state) :
  blocks s' = blocks s ->
  current_trial_array s' = current_trial_array s ->
  current_trial_index s' = current_trial_index s ->
  current_trial_id s' = current_trial_id s ->
  shows_current s -> shows_current s'.
Proof.
  intros [= H1 H2] H3 H4 H5 Hs trial_id.
  unfold current_array, the_array. rewrite H1, H2, H3, H4, H5. apply Hs.
Qed.

Lemma shows_current_set (s s' : state) (o : option string) :
  blocks s' = blocks s ->
  current_trial_array s' = current_trial_array s ->
  current_trial_index s' = current_trial_index s ->
  current_array s !! current_trial_index s = o ->
  (forall trial_id, o = Some trial_id -> current_trial_id s' = trial_id) ->
  shows_current s'.
Proof.
  intros [= H1 H2] H3 H4 Hl Hid trial_id.
  unfold current_array, the_array in *. rewrite H1, H2, H3, H4, Hl.
  apply Hid.
Qed.

Lemma start_trial_shows_current (s : state) :
  shows_current s \/ (experiment_running s = true /\ trial_in_progress s = false) ->
  shows_current (final (start_trial s)).
Proof.
  intros Hs. unfold start_trial.
  cbn [experiment_running trial_in_progress set_phase_events_logged].
  destruct (experiment_running s), (trial_in_progress s); simpl negb;
    cbn [orb];
    try (destruct Hs as [Hs|[? ?]]; [|done];
         by apply (shows_current_frame s)).
  set (s1 := set_trial_in_progress true _).
  destruct (current_array s1 !! current_trial_index s1) as [trial_id|] eqn:Hl.
  - cbn [current_trial_id set_phase_events_logged log_event set_csv_file
         set_trial_start_time set_current_trial_id].
    destruct (mvc_normalized trial_id); cbn [final];
      apply (shows_current_set s1 _ (Some trial_id)); try done;
      by intros ? [= <-].
  - cbn [final]. by apply (shows_current_set s1 _ None).
Qed.

Lemma finish_tick_shows_current (s : state) :
  experiment_running s = true -> shows_current s ->
  shows_current (final (finish_tick s)).
Proof.
  intros Hrun Hs. unfold finish_tick. destruct (Qle_bool 30 _); [|done].
  set (s1 := set_current_trial_index _ _).
  assert (Hrun1 : experiment_running s1 = true) by done.
  assert (Hip : trial_in_progress s1 = false) by done.
  clearbody s1.
  destruct (_ <=? _)%nat eqn:Hle.
  - apply Nat.leb_le in Hle.
    assert (Hnone : shows_current s1).
    { intros trial_id Hl. apply lookup_lt_Some in Hl. lia. }
    destruct (current_trial_array s1); cbn [final].
    + by apply (shows_current_frame s1).
    + unfold stop_experiment. destruct (_ || _); [done|].
      by apply (shows_current_frame s1).
  - apply start_trial_shows_current. by right.
Qed.

Lemma sample_shows_current (s1 : state) (cycle_time : Q)
    (m : option (list Q)) :
  experiment_running s1 = true -> shows_current s1 ->
  shows_current (final
    match m with
    | Some [raw_force; _; _; _] =>
        match normalized_force raw_force (select_max_force s1) with
        | None => Raised ZeroDivisionError s1
        | Some new_force =>
            match get_reference_force s1 cycle_time with
            | None => Raised ValueError s1
            | Some ref_force =>
                finish_tick (append_buffers new_force ref_force s1)
            end
        end
    | _ => Returned s1
    end).
Proof.
  intros Hrun Hs.
  destruct m as [[|raw [|m2 [|m3 [|m4 [|m5 ms]]]]]|]; try exact Hs.
  destruct (normalized_force _ _); [|exact Hs].
  destruct (get_reference_force _ _); [|exact Hs].
  apply finish_tick_shows_current; [done|].
  by apply (shows_current_frame s1).
Qed.

Lemma update_plot_shows_current (now : Q) (m : option (list Q)) (s : state) :
  shows_current s -> shows_current (final (update_plot now m s)).
Proof.
  intros Hs. unfold update_plot.
  destruct (experiment_running s) eqn:Hrun; [|done].
  destruct (start_time s) as [t0|]; [|done]. cbn [negb].
  apply sample_shows_current.
  - by destruct (check_phase_boundaries_shape
                   (fmod (time_elapsed (set_time_elapsed (now - t0)%Q s)) 30)
                   (set_time_elapsed (now - t0)%Q s))
      as (evs & rows & ->).
  - destruct (check_phase_boundaries_shape
                (fmod (time_elapsed (set_time_elapsed (now - t0)%Q s)) 30)
                (set_time_elapsed (now - t0)%Q s))
      as (evs & rows & ->).
    by apply (shows_current_frame s).
Qed.

Lemma prepare_next_array_shows_current (s : state) :
  shows_current (final (prepare_next_array s)).
Proof.
  unfold prepare_next_array.
  set (s1 := set_current_trial_index 0 _).
  destruct (current_array s1 !! current_trial_index s1) as [trial_id|] eqn:Hl.
  - cbn [current_trial_id set_time_elapsed set_trial_start_time
         set_start_time set_current_trial_id clear_buffers set_plots].
    destruct (mvc_normalized trial_id); cbn [final];
      apply (shows_current_set s1 _ (Some trial_id)); try done;
      by intros ? [= <-].
  - cbn [final]. by apply (shows_current_set s1 _ None).
Qed.

Lemma dispatch_shows_current (c : call) (s : state) :
  shows_current s -> shows_current (final (dispatch c s)).
Proof.
  intros Hs. destruct c as [now m| |now|d|]; simpl.
  - destruct (timer_active s); [by apply update_plot_shows_current|done].
  - destruct (break_timers s); [done|].
    apply prepare_next_array_shows_current.
  - by apply (shows_current_frame s).
  - unfold load_last_mvc. repeat case_match; cbn [final];
      by apply (shows_current_frame s).
  - unfold stop_experiment. destruct (_ || _); [done|].
    by apply (shows_current_frame s).
Qed.

(** X5.  From construction on, whatever the event loop is asked to do, the
    trial identifier shown and logged is the one at the current position
    of the block in use, as long as that position is inside the block. *)
Theorem session_shows_current (rnd1 rnd2 : nat -> nat) (calls : list call) :
  shows_current (final (run calls (final (init rnd1 rnd2)))).
Proof.
  assert (Hrun : forall cs s,
             shows_current s -> shows_current (final (run cs s))).
  { induction cs as [|c cs IH]; intros s Hs; [done|]. simpl.
    pose proof (dispatch_shows_current c s Hs) as Hd.
    destruct (dispatch c s) as [s'|e s']; simpl in *; [|done].
    by apply IH. }
  apply Hrun. unfold init.
  generalize (shuffle rnd1 conditions) (shuffle rnd2 conditions).
  intros a1 a2.
  set (s1 := State a1 a2 _ _ _ _ _ _ _ _ _ _ _ _ _ _ _ _ _ _).
  assert (Hl : current_array s1 !! current_trial_index s1 = a1 !! 0%nat)
    by done.
  destruct (a1 !! 0%nat) as [trial_id|] eqn:H0.
  - cbn [current_trial_id set_current_trial_id].
    destruct (mvc_normalized trial_id); cbn [final];
      apply (shows_current_set s1 _ (Some trial_id)); try done;
      by intros ? [= <-].
  - cbn [final]. by apply (shows_current_set s1 _ None).
Qed.

(** A trial that does start. *)
Lemma start_trial_proceeds (s : state) (next : string) :
  experiment_running s = true -> trial_in_progress s = false ->
  current_array s !! current_trial_index s = Some next ->
  is_Some (mvc_normalized next) ->
  exists s',
    start_trial s = Returned s'
    /\ current_trial_index s' = current_trial_index s
    /\ current_trial_id s' = next
    /\ trial_start_time s' = time_elapsed s
    /\ phase_events_logged s' = ∅
    /\ trial_in_progress s' = true
    /\ csv_file s' = csv_file s ++ [Row (current_section s) "TrialStart" next].
Proof.
  intros Hrun Hip Hl [m Hm]. unfold start_trial.
  cbn [experiment_running trial_in_progress set_phase_events_logged].
  rewrite Hrun, Hip. cbn [negb orb].
  set (s1 := set_trial_in_progress true _).
  assert (Hl1 : current_array s1 !! current_trial_index s1 = Some next)
    by exact Hl.
  rewrite Hl1.
  cbn [current_trial_id set_current_trial_id set_trial_start_time log_event
       set_csv_file set_phase_events_logged].
  rewrite Hm. eexists. split; [reflexivity|]. by repeat split.
Qed.

(** The trial transition when another trial is left. *)
Lemma finish_tick_next (s : state) (next : string) :
  experiment_running s = true ->
  (30 <= time_elapsed s - trial_start_time s)%Q ->
  current_array s !! (current_trial_index s + 1)%nat = Some next ->
  is_Some (mvc_normalized next) ->
  exists s',
    finish_tick s = Returned s'
    /\ current_trial_index s' = (current_trial_index s + 1)%nat
    /\ current_trial_id s' = next
    /\ trial_start_time s' = time_elapsed s
    /\ phase_events_logged s' = ∅
    /\ trial_in_progress s' = true
    /\ csv_file s'
       = csv_file s
         ++ [Row (current_section s) "TrialEnd" (current_trial_id s);
             Row (current_section s) "TrialStart" next].
Proof.
  intros Hrun Hdur Hl Hm. unfold finish_tick.
  apply Qle_bool_iff in Hdur. rewrite Hdur.
  set (s1 := set_current_trial_index _ _).
  assert (Hl1 : current_array s1 !! current_trial_index s1 = Some next)
    by exact Hl.
  assert (Hlt : (length (current_array s1) <=? current_trial_index s1)%nat
                = false).
  { apply Nat.leb_gt. by eapply lookup_lt_Some. }
  rewrite Hlt.
  destruct (start_trial_proceeds s1 next) as (s' & -> & H1 & H2 & H3 & H4 & H5 & H6);
    try done.
  exists s'. split; [done|]. rewrite H1, H2, H3, H4, H5, H6.
  repeat split; try done. unfold s1. simpl. by rewrite <- app_assoc.
Qed.

(** X6.  A tick of a running session that reads a sample 30 s or more
    after the trial started, with another trial left in the block: the
    phase events due are logged, then [TrialEnd] for the trial shown and
    [TrialStart] for the next identifier of the block, which becomes the
    trial shown; the new trial starts at this tick's elapsed time with an
    empty set of fired events. *)
Theorem completing_tick_starts_next
    (s : state) (now t0 raw_force m2 m3 m4 : Q) (next : string) :
  experiment_running s = true ->
  start_time s = Some t0 ->
  well_formed s ->
  ~ (select_max_force s == 0)%Q ->
  (30 <= now - t0 - trial_start_time s)%Q ->
  current_array s !! (current_trial_index s + 1)%nat = Some next ->
  exists s',
    update_plot now (Some [raw_force; m2; m3; m4]) s = Returned s'
    /\ current_trial_index s' = (current_trial_index s + 1)%nat
    /\ current_trial_id s' = next
    /\ trial_start_time s' = (now - t0)%Q
    /\ phase_events_logged s' = ∅
    /\ trial_in_progress s' = true
    /\ csv_file s'
       = csv_file s
         ++ map (fun e => Row (current_section s) e (current_trial_id s))
              (fired (fmod (now - t0) 30) (phase_events_logged s)
                 phase_events)
         ++ [Row (current_section s) "TrialEnd" (current_trial_id s);
             Row (current_section s) "TrialStart" next].
Proof.
  intros Hrun Ht0 Hwf Hnz Hdur Hnext. unfold update_plot.
  rewrite Hrun, Ht0. cbn [negb].
  rewrite check_phase_boundaries_exact.
  cbn [phase_events_logged csv_file current_section current_trial_id
       time_elapsed set_time_elapsed].
  set (s1 := set_phase_events_logged _ _).
  assert (Hmax : select_max_force s1 = select_max_force s) by done.
  rewrite Hmax. unfold normalized_force at 1, MIN_FORCE.
  destruct (Qeq_bool (select_max_force s - 0) 0) eqn:E.
  { apply Qeq_bool_eq in E. exfalso. apply Hnz. lra. }
  destruct (well_formed_target s Hwf) as (tm & Htm & Htm0 & _).
  destruct (get_reference_force_bounds s1 (fmod (now - t0) 30) tm Htm Htm0)
    as (r & -> & _).
  set (s2 := append_buffers _ r s1).
  assert (Hin : next ∈ conditions)
    by (by apply (well_formed_lookup s (current_trial_index s + 1))).
  destruct (finish_tick_next s2 next) as (s' & -> & H1 & H2 & H3 & H4 & H5 & H6);
    try done.
  { by apply conditions_level. }
  exists s'. split; [done|]. rewrite H1, H2, H3, H4, H5, H6.
  repeat split; try done. unfold s2, s1. simpl. by rewrite <- !app_assoc.
Qed.

Lemma completing_tick_starts_next_witness :
  exists s',
    update_plot 1031 (Some [50; 0; 0; 0]%Q) example_running = Returned s'
    /\ current_trial_index s'
       = (current_trial_index example_running + 1)%nat
    /\ current_trial_id s' = "IndexPinch20"
    /\ trial_start_time s' = (1031 - 1000)%Q
    /\ phase_events_logged s' = ∅
    /\ trial_in_progress s' = true
    /\ csv_file s'
       = csv_file example_running
         ++ map (fun e => Row (current_section example_running) e
                            (current_trial_id example_running))
              (fired (fmod (1031 - 1000) 30)
                 (phase_events_logged example_running) phase_events)
         ++ [Row (current_section example_running) "TrialEnd"
               (current_trial_id example_running);
             Row (current_section example_running) "TrialStart"
               "IndexPinch20"].
Proof.
  apply (completing_tick_starts_next example_running 1031 1000 50 0 0 0
           "IndexPinch20").
  - vm_compute. reflexivity.
  - vm_compute. reflexivity.
  - destruct (init_keeps (fun _ => 0%nat) (fun i => (i * 7 + 3)%nat))
      as (Hwf & _).
    by apply start_experiment_well_formed.
  - vm_compute. discriminate.
  - vm_compute. discriminate.
  - vm_compute. reflexivity.
Defined.

(** ** The break *)

Lemma init_buffers_ok (rnd1 rnd2 : nat -> nat) :
  buffers_ok (plots (final (init rnd1 rnd2))).
Proof.
  destruct (init_keeps rnd1 rnd2) as (_ & -> & _). apply empty_buffers_ok.
Qed.

Lemma run_from_init_well_formed (rnd1 rnd2 : nat -> nat)
    (calls : list call) :
  well_formed (final (run calls (final (init rnd1 rnd2)))).
Proof.
  apply run_keeps; [apply init_keeps|apply init_buffers_ok].
Qed.

(** While the update timer is stopped no tick is delivered. *)
Lemma ticks_not_delivered (s : state) (ticks : list (Q * option (list Q))) :
  timer_active s = false ->
  run (map (fun t => Timeout t.1 t.2) ticks) s = Returned s.
Proof.
  intros Hta. induction ticks as [|[t ms] ticks IH]; [done|].
  simpl. rewrite Hta. exact IH.
Qed.

Lemma prepare_next_array_returns (s : state) (first : string) :
  trial_array2 s !! 0%nat = Some first ->
  is_Some (mvc_normalized first) ->
  exists s1,
    prepare_next_array s = Returned s1
    /\ current_section s1 = 2%nat
    /\ current_trial_array s1 = Array2
    /\ current_trial_index s1 = 0%nat
    /\ current_trial_id s1 = first
    /\ time_elapsed s1 = 0%Q /\ trial_start_time s1 = 0%Q
    /\ plots s1 = empty_buffers
    /\ csv_file s1 = csv_file s ++ [Row (current_section s) "BreakStop" ""]
    /\ timer_active s1 = timer_active s.
Proof.
  intros Hl [m Hm]. unfold prepare_next_array.
  set (s0 := set_current_trial_index 0 _).
  assert (Hl0 : current_array s0 !! current_trial_index s0 = Some first)
    by exact Hl.
  rewrite Hl0.
  cbn [current_trial_id set_time_elapsed set_trial_start_time
       set_start_time set_current_trial_id clear_buffers set_plots].
  rewrite Hm. eexists. split; [reflexivity|]. by repeat split.
Qed.

(** X7.  When the break timer fires on a well-formed session whose update
    timer is stopped, the session is set to the first trial of the second
    block in section 2 with time and buffers reset and one [BreakStop] row
    logged for the old section; the update timer stays stopped, so that
    ticks are not delivered until Start is pressed. *)
Theorem break_timeout_waits_for_start
    (s : state) (n : nat) (ticks : list (Q * option (list Q))) :
  well_formed s -> break_timers s = S n -> timer_active s = false ->
  exists s1 first,
    dispatch BreakTimeout s = Returned s1
    /\ trial_array2 s !! 0%nat = Some first
    /\ current_section s1 = 2%nat
    /\ current_trial_array s1 = Array2
    /\ current_trial_index s1 = 0%nat
    /\ current_trial_id s1 = first
    /\ time_elapsed s1 = 0%Q /\ trial_start_time s1 = 0%Q
    /\ plots s1 = empty_buffers
    /\ csv_file s1 = csv_file s ++ [Row (current_section s) "BreakStop" ""]
    /\ run (map (fun t => Timeout t.1 t.2) ticks) s1 = Returned s1.
Proof.
  intros Hwf Hbt Hta. simpl. rewrite Hbt.
  destruct (trial_array2 s !! 0%nat) as [first|] eqn:Hl.
  2:{ exfalso. apply lookup_ge_None in Hl.
      destruct Hwf as (_ & H2 & _). apply Permutation_length in H2.
      rewrite H2 in Hl. vm_compute in Hl. lia. }
  assert (Hin : first ∈ conditions).
  { destruct Hwf as (_ & H2 & _). rewrite <- H2.
    by eapply list_elem_of_lookup_2. }
  destruct (prepare_next_array_returns (set_break_timers n s) first Hl
              (conditions_level _ Hin))
    as (s1 & Hret & H1 & H2 & H3 & H4 & H5 & H6 & H7 & H8 & H9).
  exists s1, first. split; [done|]. split; [done|].
  repeat split; try done. apply ticks_not_delivered. by rewrite H9.
Qed.

Lemma example_break_well_formed : well_formed example_break.
Proof.
  unfold example_break, example_session. apply run_from_init_well_formed.
Qed.

Lemma example_break_pending : break_timers example_break = 1%nat.
Proof. vm_compute. reflexivity. Qed.

Lemma example_break_stopped : timer_active example_break = false.
Proof. vm_compute. reflexivity. Qed.

Lemma break_timeout_waits_for_start_witness :
  exists s1 first,
    dispatch BreakTimeout example_break = Returned s1
    /\ trial_array2 example_break !! 0%nat = Some first
    /\ current_section s1 = 2%nat
    /\ current_trial_array s1 = Array2
    /\ current_trial_index s1 = 0%nat
    /\ current_trial_id s1 = first
    /\ time_elapsed s1 = 0%Q /\ trial_start_time s1 = 0%Q
    /\ plots s1 = empty_buffers
    /\ csv_file s1
       = csv_file example_break
         ++ [Row (current_section example_break) "BreakStop" ""]
    /\ run (map (fun t => Timeout t.1 t.2) [(4000%Q, None)]) s1
       = Returned s1.
Proof.
  exact (break_timeout_waits_for_start example_break 0 [(4000%Q, None)]
           example_break_well_formed example_break_pending
           example_break_stopped).
Defined.

(** ** Loading the calibration *)

Lemma reference_of_value (d : csv_row) (key : string) :
  d !! key <> Some None -> reference_of d key = inr (reference_value d key).
Proof.
  intros Hd. unfold reference_of, reference_value.
  by destruct (d !! key) as [[text|]|].
Qed.

Lemma reference_of_none (d : csv_row) (key : string) :
  d !! key = Some None -> reference_of d key = inl TypeError.
Proof. intros Hd. unfold reference_of. by rewrite Hd. Qed.

Lemma calculate_mvc_percentages_unparsable (d : csv_row) (ms : list string) :
  (forall motion, motion ∈ ms -> d !! motion <> Some None) ->
  (exists motion text,
     motion ∈ ms /\ d !! motion = Some (Some text) /\ pyfloat text = None) ->
  calculate_mvc_percentages_from ms d = inl ValueError.
Proof.
  induction ms as [|m ms IH]; intros Hno (motion & text & Hin & Hd & Hp).
  { by apply elem_of_nil in Hin. }
  assert (Hrest : m <> motion ->
            calculate_mvc_percentages_from ms d = inl ValueError).
  { intros Hne. apply IH.
    - intros motion' Hin'. apply Hno. by apply elem_of_cons; right.
    - exists motion, text. apply elem_of_cons in Hin as [->|Hin]; done. }
  simpl. destruct (d !! m) as [[text'|]|] eqn:Hm.
  - destruct (pyfloat text') as [q|] eqn:Hp'; [|done].
    rewrite Hrest; [done|]. intros ->. congruence.
  - exfalso. apply (Hno m); [by apply elem_of_cons; left|done].
  - rewrite Hrest; [done|]. intros ->. congruence.
Qed.

(** A row with a cell for each motion it has a column for takes Load MVC
    through the three references to the percentages. *)
Lemma load_last_mvc_cells (d : csv_row) (s : state) :
  d <> ∅ ->
  (forall motion, motion ∈ motions -> d !! motion <> Some None) ->
  mvc (final (load_last_mvc (Some d) s))
  = References (reference_value d "Full Grasp (Grip)")
      (reference_value d "Pinch (Index Finger)")
      (reference_value d "Pinch (Middle Finger)")
  /\ exception_of (load_last_mvc (Some d) s)
     = match calculate_mvc_percentages d with
       | inl x => Some x
       | inr _ => None
       end.
Proof.
  intros Hne Hno. unfold load_last_mvc.
  rewrite bool_decide_eq_false_2 by done.
  rewrite !reference_of_value
    by (apply Hno; first [apply full_grasp_motion
                         |apply index_pinch_motion
                         |apply middle_pinch_motion]).
  by destruct (calculate_mvc_percentages d).
Qed.

(** A row from a line too short to have a motion's cell stops Load MVC at
    the first such cell. *)
Lemma load_last_mvc_short (d : csv_row) (s : state) (motion : string) :
  d <> ∅ -> motion ∈ motions -> d !! motion = Some None ->
  exception_of (load_last_mvc (Some d) s) = Some TypeError.
Proof.
  intros Hne Hin Hd. unfold load_last_mvc.
  rewrite bool_decide_eq_false_2 by done.
  apply reference_of_none in Hd.
  destruct (reference_of d "Full Grasp (Grip)") as [x1|v1] eqn:E1.
  { by apply reference_of_raises in E1 as [-> _]. }
  destruct (reference_of d "Pinch (Index Finger)") as [x2|v2] eqn:E2.
  { by apply reference_of_raises in E2 as [-> _]. }
  destruct (reference_of d "Pinch (Middle Finger)") as [x3|v3] eqn:E3.
  { by apply reference_of_raises in E3 as [-> _]. }
  exfalso. unfold motions in Hin. rewrite !elem_of_cons in Hin.
  destruct Hin as [->|[->|[->|Hin]]]; try congruence.
  by apply elem_of_nil in Hin.
Qed.

(** X8.  Load MVC on a row that is not empty, the text in the cells of
    the three motions being plain (digits, a sign, a point): it raises
    [TypeError] exactly when the row has no cell for one of the motions,
    the line being too short; it raises [ValueError] exactly when every
    motion the row has a column for has a cell and the text of one of them
    is not a number; and where every such motion has a cell the three
    references have been set, each to the number in the cell, or to the
    placeholder 100 without a column or a number, also where [ValueError]
    is raised.  The text is kept plain because on other text (an exponent,
    [inf], [nan], blanks) [float] reads a number where [pyfloat] reads
    none. *)
Theorem load_last_mvc_error (d : csv_row) (s : state) :
  d <> ∅ -> plain_row d ->
  (exception_of (load_last_mvc (Some d) s) = Some TypeError
   <-> exists motion, motion ∈ motions /\ d !! motion = Some None)
  /\ (exception_of (load_last_mvc (Some d) s) = Some ValueError
      <-> (forall motion, motion ∈ motions -> d !! motion <> Some None)
          /\ exists motion text,
               motion ∈ motions /\ d !! motion = Some (Some text)
               /\ pyfloat text = None)
  /\ ((forall motion, motion ∈ motions -> d !! motion <> Some None) ->
      mvc (final (load_last_mvc (Some d) s))
      = References (reference_value d "Full Grasp (Grip)")
          (reference_value d "Pinch (Index Finger)")
          (reference_value d "Pinch (Middle Finger)")).
Proof.
  intros Hne _.
  destruct (decide (Exists (fun motion => d !! motion = Some None) motions))
    as [Hex|Hno].
  - apply Exists_exists in Hex as (motion & Hin & Hd).
    rewrite (load_last_mvc_short d s motion Hne Hin Hd).
    split; [split; [by exists motion|done]|].
    split; [split; [done|]|].
    + intros [Hno _]. by destruct (Hno motion Hin).
    + intros Hno. by destruct (Hno motion Hin).
  - assert (Hno' : forall motion, motion ∈ motions -> d !! motion <> Some None).
    { intros motion Hin Hd. apply Hno, Exists_exists. by exists motion. }
    destruct (load_last_mvc_cells d s Hne Hno') as [Hmvc ->].
    split; [|split; [|done]].
    + split.
      * destruct (calculate_mvc_percentages d) as [x|r] eqn:E; [|done].
        intros [= ->].
        apply calculate_mvc_percentages_raises in E
          as [[_ H]|[? _]]; done.
      * intros (motion & Hin & Hd). by destruct (Hno' motion Hin).
    + split.
      * destruct (calculate_mvc_percentages d) as [x|r] eqn:E; [|done].
        intros [= ->]. split; [done|].
        apply calculate_mvc_percentages_raises in E
          as [[? _]|[_ H]]; done.
      * intros [_ H]. unfold calculate_mvc_percentages.
        by rewrite (calculate_mvc_percentages_unparsable d motions Hno' H).
Qed.

Lemma garbled_row_plain : plain_row garbled_row.
Proof.
  unfold plain_row, motions.
  repeat (apply Forall_cons; split); try apply Forall_nil; try exact I;
    look_up; reflexivity.
Qed.

Lemma garbled_row_not_empty : garbled_row <> ∅.
Proof.
  intros H. apply (f_equal (fun m => m !! "Full Grasp (Grip)")) in H.
  vm_compute in H. discriminate.
Qed.

Lemma load_last_mvc_error_witness :
  (exception_of (load_last_mvc (Some garbled_row) example_session)
   = Some TypeError
   <-> exists motion, motion ∈ motions /\ garbled_row !! motion = Some None)
  /\ (exception_of (load_last_mvc (Some garbled_row) example_session)
      = Some ValueError
      <-> (forall motion,
             motion ∈ motions -> garbled_row !! motion <> Some None)
          /\ exists motion text,
               motion ∈ motions /\ garbled_row !! motion = Some (Some text)
               /\ pyfloat text = None)
  /\ ((forall motion,
         motion ∈ motions -> garbled_row !! motion <> Some None) ->
      mvc (final (load_last_mvc (Some garbled_row) example_session))
      = References (reference_value garbled_row "Full Grasp (Grip)")
          (reference_value garbled_row "Pinch (Index Finger)")
          (reference_value garbled_row "Pinch (Middle Finger)")).
Proof.
  exact (load_last_mvc_error garbled_row example_session
           garbled_row_not_empty garbled_row_plain).
Defined.

(** The two rows of the examples: the cell that is no number raises
    [ValueError] with its reference at the placeholder; the short line
    raises [TypeError] with the first reference set and the others as they
    were. *)
Example load_last_mvc_error_examples :
  exception_of (load_last_mvc (Some garbled_row) example_session)
  = Some ValueError
  /\ mvc (final (load_last_mvc (Some garbled_row) example_session))
     = References 251.3 100 38.75
  /\ exception_of (load_last_mvc (Some short_row) example_session)
     = Some TypeError
  /\ mvc (final (load_last_mvc (Some short_row) example_session))
     = References 251.3 100 100.
Proof. vm_compute. done. Qed.

(** * The instruction label *)

Lemma Qltb_true (x y : Q) : (x < y)%Q -> Qltb x y = true.
Proof. apply Qltb_lt. Qed.

Lemma Qltb_false (x y : Q) : (y <= x)%Q -> Qltb x y = false.
Proof. apply Qltb_ge. Qed.

Lemma Qle_bool_true (x y : Q) : (x <= y)%Q -> Qle_bool x y = true.
Proof. apply Qle_bool_iff. Qed.

Lemma int_of_float_floor (x : Q) :
  (0 <= x)%Q -> (inject_Z (int_of_float x) <= x < inject_Z (int_of_float x) + 1)%Q.
Proof.
  intros Hx. unfold int_of_float.
  rewrite (Qltb_false x 0) by exact Hx.
  pose proof (Qfloor_le x) as Hlo. pose proof (Qlt_floor x) as Hhi.
  rewrite inject_Z_plus in Hhi. change (inject_Z 1) with 1%Q in Hhi.
  split; assumption.
Qed.

Lemma Qfloor_unique (x : Q) (z : Z) :
  (inject_Z z <= x < inject_Z z + 1)%Q -> Qfloor x = z.
Proof.
  intros [Hlo Hhi].
  pose proof (Qfloor_le x) as Flo. pose proof (Qlt_floor x) as Fhi.
  rewrite inject_Z_plus in Fhi. change (inject_Z 1) with 1%Q in Fhi.
  assert (H1 : (inject_Z z < inject_Z (Qfloor x) + 1)%Q) by lra.
  assert (H2 : (inject_Z (Qfloor x) < inject_Z z + 1)%Q) by lra.
  change 1%Q with (inject_Z 1) in H1, H2.
  rewrite <- inject_Z_plus in H1, H2.
  rewrite <- Zlt_Qlt in H1, H2. lia.
Qed.

(** X9.  Called on the cycle time of any elapsed time, as [update_plot]
    calls it, [update_phase_instruction] always sets the label: it is
    blank only between 5 s and 10 s, with the style sheet kept, and
    otherwise shows the whole seconds left until the countdown's end.  In
    the rest phase, before 5 s, that end is the 10 s mark, so that the
    number shown there never falls below 5. *)
Theorem instruction_countdown (time_elapsed : Q) (l : label) :
  let t := fmod time_elapsed 30 in
  let l' := update_phase_instruction t l in
  (blank l' = true /\ (5 <= t < 10)%Q /\ styleSheet l' = styleSheet l)
  \/ exists n : Z,
       shown_number l' = Some n
       /\ (inject_Z n <= countdown_end t - t < inject_Z n + 1)%Q
       /\ ((t < 5)%Q -> (5 <= n <= 10)%Z).
Proof.
  intros t l'. subst l'.
  assert (Ht : (0 <= t /\ t < 30)%Q) by (apply fmod_bounds; lra).
  clearbody t. destruct Ht as [Ht0 Ht30].
  unfold update_phase_instruction.
  rewrite (Qle_bool_true 0 t Ht0). cbn [andb].
  destruct (Qlt_le_dec t 5) as [H5|H5].
  { rewrite (Qltb_true t 5) by exact H5. right.
    eexists. split; [reflexivity|].
    pose proof (int_of_float_floor (10 - t)) as Hf.
    unfold countdown_end. destruct (Qlt_le_dec t 10); [|lra].
    split; [apply Hf; lra|]. intros _.
    destruct Hf as [Hlo Hhi]; [lra|].
    assert (H1 : (inject_Z 5 < inject_Z (int_of_float (10 - t)) + inject_Z 1)%Q)
      by (change (inject_Z 5) with 5%Q; change (inject_Z 1) with 1%Q; lra).
    assert (H2 : (inject_Z (int_of_float (10 - t)) <= inject_Z 10)%Q)
      by (change (inject_Z 10) with 10%Q; lra).
    rewrite <- inject_Z_plus in H1.
    rewrite <- Zlt_Qlt in H1. rewrite <- Zle_Qle in H2. lia. }
  rewrite (Qltb_false t 5) by exact H5.
  rewrite (Qle_bool_true 5 t H5). cbn [andb].
  destruct (Qlt_le_dec t 10) as [H10|H10].
  { rewrite (Qltb_true t 10) by exact H10. cbv zeta.
    destruct (int_of_float (t * 3) mod 2 =? 0)%Z.
    - right. eexists. split; [reflexivity|].
      unfold countdown_end. destruct (Qlt_le_dec t 10); [|lra].
      split; [apply int_of_float_floor; lra|lra].
    - left. split; [reflexivity|]. split; [lra|reflexivity]. }
  rewrite (Qltb_false t 10) by exact H10.
  rewrite (Qle_bool_true 10 t H10). cbn [andb].
  destruct (Qlt_le_dec t 15) as [H15|H15].
  { rewrite (Qltb_true t 15) by exact H15. right.
    eexists. split; [reflexivity|].
    unfold countdown_end. destruct (Qlt_le_dec t 10); [lra|].
    destruct (Qlt_le_dec t 15); [|lra].
    split; [apply int_of_float_floor; lra|lra]. }
  rewrite (Qltb_false t 15) by exact H15.
  rewrite (Qle_bool_true 15 t H15). cbn [andb].
  destruct (Qlt_le_dec t 25) as [H25|H25].
  { rewrite (Qltb_true t 25) by exact H25. right.
    eexists. split; [reflexivity|].
    unfold countdown_end. destruct (Qlt_le_dec t 10); [lra|].
    destruct (Qlt_le_dec t 15); [lra|]. destruct (Qlt_le_dec t 25); [|lra].
    split; [apply int_of_float_floor; lra|lra]. }
  rewrite (Qltb_false t 25) by exact H25.
  rewrite (Qle_bool_true 25 t H25). cbn [andb].
  rewrite (Qltb_true t 30) by exact Ht30. right.
  eexists. split; [reflexivity|].
  unfold countdown_end. destruct (Qlt_le_dec t 10); [lra|].
  destruct (Qlt_le_dec t 15); [lra|]. destruct (Qlt_le_dec t 25); [lra|].
  split; [apply int_of_float_floor; lra|lra].
Qed.

(** X10.  Between 5 s and 10 s the label is shown or blank by the parity
    of the thirds of a second elapsed: a third of a second later it has
    always switched. *)
Theorem get_ready_blinks_by_thirds (t : Q) (l1 l2 : label) :
  (5 <= t)%Q -> (t + (1 # 3) < 10)%Q ->
  blank (update_phase_instruction (t + (1 # 3)) l2)
  = negb (blank (update_phase_instruction t l1)).
Proof.
  intros H5 H10.
  assert (Hfl : int_of_float ((t + (1 # 3)) * 3) = (int_of_float (t * 3) + 1)%Z).
  { pose proof (int_of_float_floor (t * 3)) as Hf.
    unfold int_of_float at 1. rewrite Qltb_false by lra.
    apply Qfloor_unique. rewrite inject_Z_plus.
    change (inject_Z 1) with 1%Q. lra. }
  unfold update_phase_instruction.
  rewrite !(Qle_bool_true 0) by lra.
  rewrite !(Qltb_false _ 5) by lra. cbn [andb].
  rewrite !(Qle_bool_true 5) by lra.
  rewrite !(Qltb_true _ 10) by lra. cbn [andb]. cbv zeta.
  rewrite Hfl.
  set (z := int_of_float (t * 3)).
  assert (Hz : ((z + 1) mod 2 =? 0)%Z = negb (z mod 2 =? 0)%Z).
  { destruct (Z.eqb_spec (z mod 2) 0) as [E|E];
      destruct (Z.eqb_spec ((z + 1) mod 2) 0) as [E'|E']; simpl; try done;
      exfalso; revert E E'; Z.div_mod_to_equations; lia. }
  rewrite Hz. by destruct (z mod 2 =? 0)%Z.
Qed.

Lemma get_ready_blinks_by_thirds_witness :
  blank (update_phase_instruction (6 + (1 # 3)) (Label [] ""))
  = negb (blank (update_phase_instruction 6 (Label [] ""))).
Proof.
  apply (get_ready_blinks_by_thirds 6 (Label [] "") (Label [] ""));
    lra.
Defined.

(** * The measurement session of the calibration tool *)

Section Measurement.

Import MVC.

(** ** The sensor's worker *)

(** X11.  Whatever the reads did, in turn, the worker of the sensor object
    has queued the first value of every reading that had one, after what
    the queue held, and taken nothing out; [get_force] gives the first
    value of the last reading that did not raise, 0 when that reading was
    empty or [None], and the value from before when every read raised. *)
Theorem read_sensor_data_latest (rs : list reading) (sn : sensor) :
  data_queue (read_sensor_data rs sn) = data_queue sn ++ omap first_value rs
  /\ get_force (read_sensor_data rs sn)
     = match last (filter (fun r => answered r = true) rs) with
       | Some r => default 0%Q (first_value r)
       | None => get_force sn
       end.
Proof.
  unfold read_sensor_data.
  induction rs as [|r rs IH] using rev_ind.
  - simpl. by rewrite app_nil_r.
  - rewrite foldl_app. simpl. destruct IH as [IHq IHf].
    rewrite omap_app, filter_app. simpl.
    destruct r as [[[|m0 m]|]|]; simpl.
    + rewrite IHq, app_nil_r. split; [done|].
      rewrite filter_cons_True by done. rewrite filter_nil.
      by rewrite last_snoc.
    + rewrite IHq, app_assoc. split; [done|].
      rewrite filter_cons_True by done. rewrite filter_nil.
      by rewrite last_snoc.
    + rewrite IHq, app_nil_r. split; [done|].
      rewrite filter_cons_True by done. rewrite filter_nil.
      by rewrite last_snoc.
    + rewrite IHq, app_nil_r. split; [done|].
      rewrite filter_cons_False by done. rewrite filter_nil, app_nil_r.
      exact IHf.
Qed.

(** ** One tick *)

Lemma drain_last (queue : list (Q * Q)) (d : Q) :
  drain queue d = default d (snd <$> last queue).
Proof.
  revert d. induction queue as [|[t f] queue IH]; intros d; [done|].
  destruct queue as [|tf queue]; [done|].
  change (drain ((t, f) :: tf :: queue) d) with (drain (tf :: queue) f).
  rewrite IH, last_cons_cons.
  destruct (last (tf :: queue)) eqn:E; [done|].
  by apply last_None in E.
Qed.

Lemma last_capped {A : Type} (b : bool) (l : list A) (x : A) :
  (b = true -> l <> []) ->
  last (if b then drop 1 (l ++ [x]) else l ++ [x]) = Some x.
Proof.
  intros Hb. destruct b; [|apply last_snoc].
  destruct l as [|y l]; [by destruct Hb|].
  simpl. rewrite drop_0. apply last_snoc.
Qed.

Lemma update_measurement_data (now1 now2 g : Q) (s : session) :
  global_start_time s = Some g ->
  exists text,
    update_measurement now1 now2 s
    = let td := time_data (exp s) ++ [(now1 - g)%Q] in
      let fd :=
        force_data (exp s)
        ++ [if in_trial (phase s) then drain (force_queue s) 0 else 0%Q] in
      set_force_queue (if in_trial (phase s) then [] else force_queue s)
        (set_exp
           (set_data
              (if (1500 <? length td)%nat then drop 1 td else td)
              (if (1500 <? length td)%nat then drop 1 fd else fd)
              (set_countdown_label text (exp s))) s).
Proof.
  intros Hg. unfold update_measurement. rewrite Hg.
  destruct (phase s) as [[]|]; simpl; eexists;
    destruct (1500 <? _)%nat; reflexivity.
Qed.

Lemma update_measurement_idle (now1 now2 : Q) (s : session) :
  global_start_time s = None -> update_measurement now1 now2 s = s.
Proof. intros Hg. unfold update_measurement. by rewrite Hg. Qed.

(** X12.  A tick of a started session whose recording moves in step
    records the time since the start together with a force: in the two
    trial phases the force of the newest entry of the queue, 0 when the
    queue is empty, and the queue is left empty; in every other phase 0,
    and the queue is left as it is, so that what was queued before a trial
    is thrown away at its first tick. *)
Theorem tick_records_newest (now1 now2 g : Q) (s : session) :
  global_start_time s = Some g ->
  length (time_data (exp s)) = length (force_data (exp s)) ->
  last (time_data (exp (update_measurement now1 now2 s)))
  = Some (now1 - g)%Q
  /\ if in_trial (phase s) then
       force_queue (update_measurement now1 now2 s) = []
       /\ last (force_data (exp (update_measurement now1 now2 s)))
          = Some (default 0%Q (snd <$> last (force_queue s)))
     else
       force_queue (update_measurement now1 now2 s) = force_queue s
       /\ last (force_data (exp (update_measurement now1 now2 s)))
          = Some 0%Q.
Proof.
  intros Hg Hlen.
  destruct (update_measurement_data now1 now2 g s Hg) as [text ->].
  cbv zeta. cbn [exp set_exp set_force_queue time_data force_data set_data
                 force_queue].
  assert (Hne : forall A (l : list A) (x : A),
             length l = length (time_data (exp s)) ->
             (1500 <? length (time_data (exp s) ++ [(now1 - g)%Q]))%nat = true ->
             l <> []).
  { intros A l x Hl E. apply Nat.ltb_lt in E.
    rewrite length_app in E. simpl in E.
    destruct l; [simpl in Hl; lia|done]. }
  split; [apply last_capped; by apply Hne|].
  destruct (in_trial (phase s)); (split; [reflexivity|]).
  - rewrite <- drain_last. apply last_capped. by apply Hne.
  - apply last_capped. by apply Hne.
Qed.

Lemma tick_records_newest_witness :
  last (time_data (exp (update_measurement 1005.05 1005.05 example_trial1)))
  = Some (1005.05 - 1000)%Q
  /\ if in_trial (phase example_trial1) then
       force_queue (update_measurement 1005.05 1005.05 example_trial1) = []
       /\ last (force_data
                  (exp (update_measurement 1005.05 1005.05 example_trial1)))
          = Some (default 0%Q (snd <$> last (force_queue example_trial1)))
     else
       force_queue (update_measurement 1005.05 1005.05 example_trial1)
       = force_queue example_trial1
       /\ last (force_data
                  (exp (update_measurement 1005.05 1005.05 example_trial1)))
          = Some 0%Q.
Proof.
  apply (tick_records_newest 1005.05 1005.05 1000 example_trial1);
    reflexivity.
Defined.

(** The tick of the example: the stale 3 of the countdown and the 120 are
    passed over for the newest force, 125. *)
Example tick_records_newest_example :
  in_trial (phase example_trial1) = true
  /\ force_queue example_trial1
     = [(1004.99, 3); (1005.01, 120); (1005.03, 125)]%Q
  /\ force_data (exp (update_measurement 1005.05 1005.05 example_trial1))
     = [125%Q].
Proof. vm_compute. done. Qed.

(** ** The averaging windows *)

Lemma forces_between_snoc (lo hi t f : Q) (td fd : list Q) :
  length td = length fd ->
  forces_between lo hi (td ++ [t]) (fd ++ [f])
  = forces_between lo hi td fd
    ++ (if Qle_bool lo t && Qle_bool t hi then [f] else []).
Proof.
  intros Hlen. unfold forces_between.
  rewrite zip_with_app by exact Hlen. rewrite filter_app, map_app.
  f_equal. simpl. rewrite filter_cons, filter_nil. simpl.
  destruct (Qle_bool lo t && Qle_bool t hi); by case_decide.
Qed.

(** X13.  The averaging windows go by the clock and the force recorded by
    the phase: a tick that falls into a window while the session is not in
    a trial phase (the single shot that starts or ends the trial is a
    timer of its own) adds a zero to the forces averaged over that
    window. *)
Theorem tick_outside_trial_counts (now1 now2 g lo hi : Q) (s : session) :
  global_start_time s = Some g ->
  in_trial (phase s) = false ->
  length (time_data (exp s)) = length (force_data (exp s)) ->
  (length (time_data (exp s)) < 1500)%nat ->
  (lo <= now1 - g)%Q -> (now1 - g <= hi)%Q ->
  forces_between lo hi
    (time_data (exp (update_measurement now1 now2 s)))
    (force_data (exp (update_measurement now1 now2 s)))
  = forces_between lo hi (time_data (exp s)) (force_data (exp s)) ++ [0%Q].
Proof.
  intros Hg Hph Hlen Hcap Hlo Hhi.
  destruct (update_measurement_data now1 now2 g s Hg) as [text ->].
  cbv zeta. cbn [exp set_exp set_force_queue time_data force_data set_data].
  rewrite Hph.
  assert (E : (1500 <? length (time_data (exp s) ++ [(now1 - g)%Q]))%nat
              = false).
  { apply Nat.ltb_ge. rewrite length_app. simpl. lia. }
  rewrite E. rewrite forces_between_snoc by exact Hlen.
  by rewrite (Qle_bool_true _ _ Hlo), (Qle_bool_true _ _ Hhi).
Qed.


Lemma tick_outside_trial_counts_witness :
  forces_between 5 10
    (time_data (exp (update_measurement 1005 1005 example_countdown)))
    (force_data (exp (update_measurement 1005 1005 example_countdown)))
  = forces_between 5 10 (time_data (exp example_countdown))
      (force_data (exp example_countdown)) ++ [0%Q].
Proof.
  apply (tick_outside_trial_counts 1005 1005 1000 5 10 example_countdown);
    try reflexivity.
  - vm_compute. lia.
  - vm_compute. discriminate.
  - vm_compute. discriminate.
Defined.

(** The zero of such a tick halves the first average of a run whose only
    other sample in the window is 120. *)
Example diluted_average :
  mvc_value_label
    (exp (final (run [TimerTimeout 1005 1005; Shot StartTrial1 1005.01;
                      Poll 1005.02 120; TimerTimeout 1005.05 1005.05;
                      Shot EndTrial1 1010.01]
                   example_countdown)))
  = update_mvc_label (Some ((0 + 0 + 120) / 2)%Q) None None.
Proof. reflexivity. Qed.

(** ** The recording along a session *)

Lemma recording_ok_mono (fs fs' : list Q) (s : session) :
  (forall f, f ∈ fs -> f ∈ fs') -> recording_ok fs s -> recording_ok fs' s.
Proof.
  intros Hsub (H1 & H2 & H3 & H4).
  split; [done|]. split; [done|]. split.
  - eapply Forall_impl; [exact H3|]. intros f [->|Hf]; [by left|].
    right. by apply Hsub.
  - eapply Forall_impl; [exact H4|]. intros tf Hf. by apply Hsub.
Qed.

Lemma recording_ok_frame (fs : list Q) (s s' : session) :
  time_data (exp s') = time_data (exp s) ->
  force_data (exp s') = force_data (exp s) ->
  force_queue s' = force_queue s ->
  recording_ok fs s -> recording_ok fs s'.
Proof. unfold recording_ok. by intros -> -> ->. Qed.

Lemma drain_elem_of (queue : list (Q * Q)) (fs : list Q) :
  Forall (fun tf => tf.2 ∈ fs) queue ->
  drain queue 0 = 0%Q \/ drain queue 0 ∈ fs.
Proof.
  intros Hq. rewrite drain_last.
  destruct (last queue) as [tf|] eqn:E; [|by left].
  right. simpl. rewrite Forall_forall in Hq. apply Hq.
  apply last_Some in E as [l ->]. set_solver.
Qed.

Lemma update_measurement_recording (fs : list Q) (now1 now2 : Q)
    (s : session) :
  recording_ok fs s -> recording_ok fs (update_measurement now1 now2 s).
Proof.
  intros (H1 & H2 & H3 & H4).
  destruct (global_start_time s) as [g|] eqn:Hg;
    [|by rewrite update_measurement_idle].
  destruct (update_measurement_data now1 now2 g s Hg) as [text ->].
  cbv zeta. unfold recording_ok.
  cbn [exp set_exp set_force_queue time_data force_data set_data
       force_queue].
  assert (Hf : Forall (fun f => f = 0%Q \/ f ∈ fs)
                 (force_data (exp s)
                  ++ [if in_trial (phase s) then drain (force_queue s) 0
                      else 0%Q])).
  { apply Forall_app. split; [done|]. apply Forall_singleton.
    destruct (in_trial (phase s)); [by apply drain_elem_of|by left]. }
  split; [|split; [|split]].
  - destruct (1500 <? _)%nat; rewrite ?length_drop, !length_app; simpl; lia.
  - destruct (1500 <? _)%nat eqn:E.
    + rewrite length_drop, length_app. simpl. lia.
    + apply Nat.ltb_ge in E. rewrite length_app in *. simpl in *. lia.
  - destruct (1500 <? _)%nat; [|done]. by apply Forall_drop.
  - by destruct (in_trial (phase s)).
Qed.

Lemma start_experiment_recording (fs : list Q) (now : Q) (s : session) :
  recording_ok fs s -> recording_ok fs (start_experiment now s).
Proof.
  intros (H1 & H2 & H3 & H4). unfold start_experiment.
  destruct (placeholder_selected s); [done|].
  unfold recording_ok. simpl. split; [done|]. split; [lia|]. by split.
Qed.

Lemma finish_experiment_data (e : experiment) :
  time_data (final (finish_experiment e)) = time_data e
  /\ force_data (final (finish_experiment e)) = force_data e.
Proof.
  unfold finish_experiment.
  destruct (average_or_none _) as [x1|a1]; [done|].
  destruct (average_or_none _) as [x2|a2]; [done|].
  by destruct (size _ =? 3)%nat.
Qed.

Lemma invoke_recording (fs : list Q) (cb : callback) (now : Q)
    (s : session) :
  recording_ok fs s -> recording_ok fs (final (invoke cb now s)).
Proof.
  intros H. destruct cb; simpl.
  - by eapply recording_ok_frame; [..|exact H].
  - unfold end_trial1. destruct (average_or_zero _);
      by eapply recording_ok_frame; [..|exact H].
  - by eapply recording_ok_frame; [..|exact H].
  - unfold end_trial2. destruct (average_or_zero _);
      [by eapply recording_ok_frame; [..|exact H]|].
    destruct (average_or_zero _);
      by eapply recording_ok_frame; [..|exact H].
  - unfold finish_session.
    destruct (finish_experiment_data (exp s)) as [Ht Hf].
    destruct (finish_experiment (exp s)) as [e|x e];
      by eapply recording_ok_frame; [..|exact H].
Qed.

Lemma dispatch_recording (fs : list Q) (c : call) (s : session) :
  recording_ok fs s -> recording_ok (fs ++ polled [c]) (final (dispatch c s)).
Proof.
  intros H.
  assert (H' : recording_ok (fs ++ polled [c]) s).
  { eapply recording_ok_mono; [|exact H]. intros f Hf.
    apply elem_of_app. by left. }
  destruct c as [now f|now1 now2| |cb now|now| |text|text]; simpl.
  - destruct (force_thread_stop s); [exact H'|]. simpl.
    destruct H' as (H1 & H2 & H3 & H4).
    split; [done|]. split; [done|]. split; [done|].
    simpl. apply Forall_app. split; [done|]. apply Forall_singleton.
    simpl. set_solver.
  - destruct (timer_active (exp s)); [|exact H'].
    by apply update_measurement_recording.
  - destruct (blink_timer_active s); [|exact H'].
    by eapply recording_ok_frame; [..|exact H'].
  - destruct (fire cb (single_shots s)) as [shots|]; [|exact H'].
    apply invoke_recording.
    by eapply recording_ok_frame; [..|exact H'].
  - destruct (start_button_enabled s); [|exact H'].
    by apply start_experiment_recording.
  - by eapply recording_ok_frame; [..|exact H'].
  - destruct (_ && _); [|exact H'].
    by eapply recording_ok_frame; [..|exact H'].
  - by eapply recording_ok_frame; [..|exact H'].
Qed.

Lemma run_recording (calls : list call) (fs : list Q) (s : session) :
  recording_ok fs s -> recording_ok (fs ++ polled calls) (final (run calls s)).
Proof.
  revert fs s. induction calls as [|c calls IH]; intros fs s H.
  - simpl. by rewrite app_nil_r.
  - pose proof (dispatch_recording fs c s H) as Hc.
    assert (Hp : polled (c :: calls) = polled [c] ++ polled calls)
      by apply (omap_app _ [c] calls).
    rewrite Hp, app_assoc. clear Hp. cbn [run].
    destruct (dispatch c s) as [s'|x s']; simpl in Hc |- *.
    + by apply IH.
    + eapply recording_ok_mono; [|exact Hc]. intros f Hf.
      apply elem_of_app. by left.
Qed.

(** X14.  Whatever is asked of a session after its construction, the
    times and forces recorded move in step and never number more than
    1500, and every force recorded, as every force waiting in the queue,
    is 0 or one the force thread has queued. *)
Theorem session_recording (open_error : option string)
    (console : list string) (sn : sensor) (e : experiment)
    (calls : list call) :
  MVCExperiment_init open_error = (console, inr (sn, e)) ->
  recording_ok (polled calls) (final (run calls (session_init e))).
Proof.
  intros Hinit. apply (run_recording calls [] (session_init e)).
  unfold MVCExperiment_init in Hinit.
  destruct (GDXForceSensor_init open_error) as [c [x|sn']];
    [by injection Hinit|].
  injection Hinit as _ _ <-.
  unfold recording_ok. simpl. split; [done|]. split; [lia|]. by split.
Qed.

Lemma session_recording_witness :
  recording_ok
    (polled [SelectMotion "Full Grasp (Grip)"; ClickStart 1000;
             Poll 1004.99 3; Shot StartTrial1 1005; Poll 1005.01 120;
             TimerTimeout 1005.05 1005.05])
    (final
       (run [SelectMotion "Full Grasp (Grip)"; ClickStart 1000;
             Poll 1004.99 3; Shot StartTrial1 1005; Poll 1005.01 120;
             TimerTimeout 1005.05 1005.05]
          (session_init
             (Experiment [] [] ∅ "Choose the motion" ""
                (update_mvc_label None None None)
                "Select a movement from the dropdown menu and press Start when ready."
                false [])))).
Proof.
  apply (session_recording None []
           (Sensor (Some Started) [] 0%Q false AtTest)).
  reflexivity.
Defined.

End Measurement.

(** * The sensor check *)

Section SensorCheck.

Import Gdxtest.

Lemma clip_plotted (value : Q) : clip (value / 50) (-1) 1 = plotted value.
Proof.
  unfold clip, plotted. cbv zeta.
  destruct (Qlt_le_dec (value / 50) (-1)) as [H|H].
  - by rewrite (Qltb_true _ _ H).
  - rewrite (Qltb_false _ _ H).
    destruct (Qlt_le_dec 1 (value / 50)) as [H'|H'].
    + by rewrite (Qltb_true _ _ H').
    + by rewrite (Qltb_false _ _ H').
Qed.

Lemma plotted_within (value : Q) : within (-1) 1 (plotted value).
Proof.
  unfold plotted, within. cbv zeta.
  destruct (Qlt_le_dec (value / 50) (-1)); [lra|].
  destruct (Qlt_le_dec 1 (value / 50)); lra.
Qed.

Lemma shift_in_rows (measurements : list Q) :
  forall (i : nat) (y : list (list Q)),
    (i <= length y)%nat ->
    exists y',
      shift_in i measurements y
      = (if decide (i + length measurements <= length y)%nat
         then Returned y' else Raised IndexError y')
      /\ length y' = length y
      /\ forall j row,
           y !! j = Some row ->
           y' !! j
           = Some (pushed row (if decide (i <= j)%nat
                               then measurements !! (j - i)%nat else None)).
Proof.
  induction measurements as [|v m IH]; intros i y Hi.
  - exists y. simpl. rewrite decide_True by lia. split; [done|].
    split; [done|]. intros j row Hj. rewrite Hj.
    by destruct (decide (i <= j)%nat).
  - cbn [shift_in]. cbv zeta. rewrite clip_plotted.
    destruct (y !! i) as [row_i|] eqn:Hyi.
    + pose proof (lookup_lt_Some _ _ _ Hyi) as Hlt.
      destruct (IH (S i) (<[i := drop 1 row_i ++ [plotted v]]> y))
        as (y' & Hs & Hlen & Hrows).
      { rewrite length_insert. lia. }
      rewrite length_insert in Hs, Hlen.
      exists y'. split.
      { rewrite Hs. cbn [length].
        repeat case_decide; done || lia. }
      split; [done|]. intros j row Hj.
      destruct (decide (j = i)) as [->|Hne].
      * rewrite (Hrows i (drop 1 row_i ++ [plotted v])).
        2:{ apply list_lookup_insert_eq. lia. }
        rewrite decide_False by lia. rewrite decide_True by lia.
        rewrite Nat.sub_diag. simpl. congruence.
      * rewrite (Hrows j row).
        2:{ by rewrite list_lookup_insert_ne. }
        destruct (decide (S i <= j)%nat) as [H1|H1].
        -- rewrite decide_True by lia.
           replace (j - i)%nat with (S (j - S i)) by lia. done.
        -- rewrite decide_False by lia. done.
    + apply lookup_ge_None in Hyi. exists y. simpl.
      rewrite decide_False by lia. split; [done|]. split; [done|].
      intros j row Hj. pose proof (lookup_lt_Some _ _ _ Hj).
      rewrite decide_False by lia. done.
Qed.

Lemma drop_pushed (k : nat) (row l : list Q) (value : option Q) :
  row <> [] ->
  drop k (pushed row value ++ l)
  = drop (length (from_option (fun v => [v]) [] value) + k)
      (row ++ from_option (fun v => [plotted v]) [] value ++ l).
Proof.
  intros Hne. destruct value as [v|]; simpl; [|done].
  destruct row as [|r row]; [done|]. simpl. rewrite drop_0.
  by rewrite <- app_assoc.
Qed.

Lemma pushed_nonempty (row : list Q) (value : option Q) :
  row <> [] -> pushed row value <> [].
Proof.
  intros Hne. destruct value as [v|]; [|done]. simpl.
  by destruct (drop 1 row).
Qed.

Lemma channel_cons (i : nat) (m : list Q) (queue : list (list Q)) :
  channel i (m :: queue)
  = from_option (fun v => [v]) [] (m !! i) ++ channel i queue.
Proof. unfold channel. simpl. by destruct (m !! i). Qed.

Lemma shifted_cons (y y1 y' : list (list Q)) (m : list Q)
    (queue : list (list Q)) :
  Forall (fun row => row <> []) y ->
  length y1 = length y ->
  (forall j row, y !! j = Some row -> y1 !! j = Some (pushed row (m !! j))) ->
  shifted y1 y' queue -> shifted y y' (m :: queue).
Proof.
  intros Hne Hlen Hrows [Hlen' Hrows']. split; [congruence|].
  intros i row Hi. rewrite (Hrows' i _ (Hrows i row Hi)).
  rewrite channel_cons. f_equal.
  rewrite Forall_forall in Hne.
  rewrite drop_pushed by (apply Hne; by eapply list_elem_of_lookup_2).
  rewrite length_app, map_app. f_equal. f_equal.
  by destruct (m !! i).
Qed.

Lemma shift_in_nonempty (y y1 : list (list Q)) (m : list Q) :
  Forall (fun row => row <> []) y ->
  length y1 = length y ->
  (forall j row, y !! j = Some row -> y1 !! j = Some (pushed row (m !! j))) ->
  Forall (fun row => row <> []) y1.
Proof.
  intros Hne Hlen Hrows. apply Forall_lookup. intros j row1 Hj.
  destruct (y !! j) as [row|] eqn:Hyj.
  - rewrite (Hrows j row Hyj) in Hj. injection Hj as <-.
    apply pushed_nonempty. rewrite Forall_lookup in Hne. by eapply Hne.
  - apply lookup_ge_None in Hyj. apply lookup_lt_Some in Hj. lia.
Qed.

Lemma shift_in_from_0 (m : list Q) (y : list (list Q)) :
  exists y1,
    shift_in 0 m y
    = (if decide (length m <= length y)%nat
       then Returned y1 else Raised IndexError y1)
    /\ length y1 = length y
    /\ forall j row, y !! j = Some row -> y1 !! j = Some (pushed row (m !! j)).
Proof.
  destruct (shift_in_rows m 0 y) as (y1 & Hs & Hlen & Hrows); [lia|].
  exists y1. split; [exact Hs|]. split; [done|].
  intros j row Hj. rewrite (Hrows j row Hj).
  rewrite decide_True by lia. by rewrite Nat.sub_0_r.
Qed.

Lemma process_returns (queue : list (list Q)) :
  forall y : list (list Q),
    Forall (fun row => row <> []) y ->
    Forall (fun m => length m <= length y)%nat queue ->
    exists y', process queue y = Returned (Globals y' [])
               /\ shifted y y' queue.
Proof.
  induction queue as [|m queue IH]; intros y Hne Hfit.
  - exists y. split; [done|]. split; [done|].
    intros i row Hi. simpl. by rewrite app_nil_r.
  - apply Forall_cons in Hfit as [Hm Hfit].
    destruct (shift_in_from_0 m y) as (y1 & Hs & Hlen & Hrows).
    rewrite decide_True in Hs by exact Hm.
    destruct (IH y1) as (y' & Hp & Hsh).
    { by eapply shift_in_nonempty. }
    { by rewrite Hlen. }
    exists y'. simpl. rewrite Hs. split; [exact Hp|].
    by eapply shifted_cons.
Qed.

Lemma process_raises (good later : list (list Q)) (m : list Q) :
  forall y : list (list Q),
    Forall (fun row => row <> []) y ->
    Forall (fun m => length m <= length y)%nat good ->
    (length y < length m)%nat ->
    exists y', process (good ++ m :: later) y
               = Raised IndexError (Globals y' later)
               /\ shifted y y' (good ++ [m]).
Proof.
  induction good as [|m0 good IH]; intros y Hne Hfit Hlong.
  - destruct (shift_in_from_0 m y) as (y1 & Hs & Hlen & Hrows).
    rewrite decide_False in Hs by lia.
    exists y1. simpl. rewrite Hs. split; [done|].
    eapply shifted_cons; [done..|]. split; [done|].
    intros i row Hi. simpl. by rewrite app_nil_r.
  - apply Forall_cons in Hfit as [Hm Hfit].
    destruct (shift_in_from_0 m0 y) as (y1 & Hs & Hlen & Hrows).
    rewrite decide_True in Hs by exact Hm.
    destruct (IH y1) as (y' & Hp & Hsh).
    { by eapply shift_in_nonempty. }
    { by rewrite Hlen. }
    { by rewrite Hlen. }
    exists y'. simpl. rewrite Hs. split; [exact Hp|].
    by eapply shifted_cons.
Qed.

Lemma window_ok_nonempty (y : list (list Q)) :
  window_ok y -> Forall (fun row => row <> []) y.
Proof.
  intros H. eapply Forall_impl; [exact H|].
  intros row [Hlen _] ->. vm_compute in Hlen. discriminate.
Qed.

Lemma shifted_window (y y' : list (list Q)) (queue : list (list Q)) :
  window_ok y -> shifted y y' queue ->
  window_ok y'
  /\ forall i row,
       y !! i = Some row ->
       y' !! i
       = Some (last_n max_points (row ++ map plotted (channel i queue))).
Proof.
  intros Hok [Hlen Hrows].
  assert (Hlast : forall i row,
             y !! i = Some row ->
             y' !! i
             = Some (last_n max_points
                       (row ++ map plotted (channel i queue)))).
  { intros i row Hi. rewrite (Hrows i row Hi). f_equal.
    unfold last_n. f_equal. rewrite length_app, length_map.
    unfold window_ok in Hok. rewrite Forall_lookup in Hok.
    destruct (Hok i row Hi) as [-> _]. lia. }
  split; [|exact Hlast].
  apply Forall_lookup. intros i row' Hi'.
  destruct (y !! i) as [row|] eqn:Hi.
  2:{ apply lookup_ge_None in Hi. apply lookup_lt_Some in Hi'. lia. }
  rewrite (Hrows i row Hi) in Hi'. injection Hi' as <-.
  unfold window_ok in Hok. rewrite Forall_lookup in Hok.
  destruct (Hok i row Hi) as [Hl Hw]. split.
  - rewrite length_drop, length_app, length_map. lia.
  - apply Forall_drop, Forall_app. split; [done|].
    apply Forall_map, Forall_true. intros v. apply plotted_within.
Qed.

(** X15.  When no waiting reading has more values than there are rows,
    [update] returns with the queue empty, and every row holds the last
    [max_points] values of what it held followed by the plotted values of
    its sensor, one for each reading that has a value for that sensor, in
    the order read; the window stays full, with values in [[-1, 1]]. *)
Theorem update_window (g : globals) :
  window_ok (y_data g) ->
  Forall (fun m => length m <= length (y_data g))%nat (data_queue g) ->
  exists y',
    update g = Returned (Globals y' [])
    /\ length y' = length (y_data g)
    /\ window_ok y'
    /\ forall i row,
         y_data g !! i = Some row ->
         y' !! i
         = Some (last_n max_points
                   (row ++ map plotted (channel i (data_queue g)))).
Proof.
  intros Hok Hfit.
  destruct (process_returns (data_queue g) (y_data g)) as (y' & Hp & Hsh);
    [by apply window_ok_nonempty|done|].
  exists y'. split; [exact Hp|]. split; [apply Hsh|].
  by apply shifted_window.
Qed.

(** ** Readings and updates in any order *)

Lemma pushed_window (row : list Q) (value : option Q) :
  length row = max_points /\ Forall (within (-1) 1) row ->
  length (pushed row value) = max_points
  /\ Forall (within (-1) 1) (pushed row value).
Proof.
  intros [Hlen Hw]. destruct value as [v|]; [|done]. simpl. split.
  - rewrite length_app, length_drop, Hlen. by vm_compute.
  - apply Forall_app. split; [by apply Forall_drop|].
    apply Forall_singleton, plotted_within.
Qed.

Lemma shift_in_window (m : list Q) (y : list (list Q)) :
  window_ok y ->
  window_ok (final (shift_in 0 m y))
  /\ length (final (shift_in 0 m y)) = length y.
Proof.
  intros Hok.
  destruct (shift_in_from_0 m y) as (y1 & Hs & Hlen & Hrows).
  assert (Hy1 : final (shift_in 0 m y) = y1)
    by (rewrite Hs; by case_decide).
  rewrite Hy1. split; [|done].
  apply Forall_lookup. intros j row1 Hj.
  destruct (y !! j) as [row|] eqn:Hyj.
  - rewrite (Hrows j row Hyj) in Hj. injection Hj as <-.
    apply pushed_window. unfold window_ok in Hok.
    rewrite Forall_lookup in Hok. by eapply Hok.
  - apply lookup_ge_None in Hyj. apply lookup_lt_Some in Hj. lia.
Qed.

Lemma process_check_ok (queue : list (list Q)) :
  forall y : list (list Q),
    window_ok y ->
    window_ok (y_data (final (process queue y)))
    /\ length (y_data (final (process queue y))) = length y
    /\ (length (data_queue (final (process queue y))) <= length queue)%nat.
Proof.
  induction queue as [|m queue IH]; intros y Hok; [by simpl|].
  destruct (shift_in_window m y Hok) as [Hok1 Hlen1].
  cbn [process].
  destruct (shift_in 0 m y) as [y1|x y1]; simpl in Hok1, Hlen1.
  - destruct (IH y1 Hok1) as (H1 & H2 & H3).
    split; [done|]. split; [congruence|]. simpl. lia.
  - simpl. split; [done|]. split; [done|]. lia.
Qed.

Lemma do_step_check_ok (n : nat) (st : step) (g : globals) :
  check_ok n g -> check_ok n (final (do_step st g)).
Proof.
  intros (Hn & Hok & Hq). destruct st as [[m|]|]; simpl.
  - unfold sensor_reading_thread_body.
    destruct (length (data_queue g) <? maxsize)%nat eqn:E; [|done].
    apply Nat.ltb_lt in E. split; [done|]. split; [done|].
    simpl. rewrite length_app. simpl. lia.
  - done.
  - unfold update.
    destruct (process_check_ok (data_queue g) (y_data g) Hok)
      as (H1 & H2 & H3).
    split; [congruence|]. split; [done|]. lia.
Qed.

Lemma run_check_ok (n : nat) (steps : list step) :
  forall g : globals, check_ok n g -> check_ok n (final (run steps g)).
Proof.
  induction steps as [|st steps IH]; intros g Hg; [done|].
  pose proof (do_step_check_ok n st g Hg) as Hst. cbn [run].
  destruct (do_step st g) as [g'|x g']; simpl in Hst |- *; [by apply IH|done].
Qed.

Lemma start_check_ok (n : nat) : check_ok n (start n).
Proof.
  split; [apply length_replicate|]. split; [|simpl; lia].
  apply Forall_replicate. split; [apply length_replicate|].
  apply Forall_replicate. split; vm_compute; discriminate.
Qed.

(** X16.  However the passes of the reading thread and the calls of
    [update] fall, the window keeps one full row of [max_points] values in
    [[-1, 1]] per enabled sensor, and the queue never holds more than
    [maxsize] readings; this is so also where an [update] raised. *)
Theorem check_keeps_window (num_sensors : nat) (steps : list step) :
  check_ok num_sensors (final (run steps (start num_sensors))).
Proof. apply run_check_ok, start_check_ok. Qed.

Lemma example_queue_window_ok : window_ok (y_data example_queue).
Proof. unfold example_queue. apply (run_check_ok 2), start_check_ok. Qed.

Lemma example_queue_fits :
  Forall (fun m => length m <= length (y_data example_queue))%nat
    (data_queue example_queue).
Proof.
  change (data_queue example_queue)
    with [[25; -10]; [75; 5]; [-60; 0]]%Q.
  repeat apply Forall_cons_2; try apply Forall_nil_2;
    apply Nat.leb_le; reflexivity.
Qed.

Lemma update_window_witness :
  exists y',
    update example_queue = Returned (Globals y' [])
    /\ length y' = length (y_data example_queue)
    /\ window_ok y'
    /\ forall i row,
         y_data example_queue !! i = Some row ->
         y' !! i
         = Some (last_n max_points
                   (row ++ map plotted (channel i (data_queue example_queue)))).
Proof.
  exact (update_window example_queue example_queue_window_ok
           example_queue_fits).
Defined.

(** The first row of the example: three plotted values behind 197 zeros. *)
Example update_window_example :
  y_data (final (update example_queue)) !! 0%nat
  = Some (replicate 197 0%Q ++ [25 / 50; 1; -1]%Q).
Proof. vm_compute. reflexivity. Qed.

(** X17.  A waiting reading with more values than there are rows makes
    [update] raise [IndexError]: the readings before it and the values of
    that reading for which there is a row have been shifted in, the
    reading is gone from the queue, and the readings behind it stay
    queued. *)
Theorem update_long_reading (g : globals) (good later : list (list Q))
    (m : list Q) :
  window_ok (y_data g) ->
  data_queue g = good ++ m :: later ->
  Forall (fun m0 => length m0 <= length (y_data g))%nat good ->
  (length (y_data g) < length m)%nat ->
  exists y',
    update g = Raised IndexError (Globals y' later)
    /\ length y' = length (y_data g)
    /\ window_ok y'
    /\ forall i row,
         y_data g !! i = Some row ->
         y' !! i
         = Some (last_n max_points
                   (row ++ map plotted (channel i (good ++ [m])))).
Proof.
  intros Hok Hq Hfit Hlong. unfold update. rewrite Hq.
  destruct (process_raises good later m (y_data g)) as (y' & Hp & Hsh);
    [by apply window_ok_nonempty|done|done|].
  exists y'. split; [exact Hp|]. split; [apply Hsh|].
  by apply shifted_window.
Qed.

Lemma example_long_reading_window_ok :
  window_ok (y_data example_long_reading).
Proof.
  unfold example_long_reading. apply (run_check_ok 2), start_check_ok.
Qed.

Lemma example_long_reading_queue :
  data_queue example_long_reading
  = [[25; -10]%Q] ++ [1; 2; 3]%Q :: [[-60; 0]%Q].
Proof. reflexivity. Qed.

Lemma example_long_reading_fits :
  Forall (fun m0 => length m0 <= length (y_data example_long_reading))%nat
    [[25; -10]%Q].
Proof. apply Forall_singleton, Nat.leb_le. reflexivity. Qed.

Lemma example_long_reading_long :
  (length (y_data example_long_reading) < length [1; 2; 3]%Q)%nat.
Proof. apply Nat.ltb_lt. reflexivity. Qed.

Lemma update_long_reading_witness :
  exists y',
    update example_long_reading
    = Raised IndexError (Globals y' [[-60; 0]%Q])
    /\ length y' = length (y_data example_long_reading)
    /\ window_ok y'
    /\ forall i row,
         y_data example_long_reading !! i = Some row ->
         y' !! i
         = Some (last_n max_points
                   (row ++ map plotted
                             (channel i ([[25; -10]%Q] ++ [[1; 2; 3]%Q])))).
Proof.
  exact (update_long_reading example_long_reading [[25; -10]%Q]
           [[-60; 0]%Q] [1; 2; 3]%Q example_long_reading_window_ok
           example_long_reading_queue example_long_reading_fits
           example_long_reading_long).
Defined.

End SensorCheck.

Section StartButton.

Import MVC.

Lemma invoke_start (cb : callback) (now : Q) (s : session) :
  start_button_enabled (final (invoke cb now s)) = start_button_enabled s
  /\ global_start_time (final (invoke cb now s)) = global_start_time s.
Proof.
  destruct cb; simpl; try done.
  - unfold end_trial1. by destruct (average_or_zero _).
  - unfold end_trial2. destruct (average_or_zero _); [done|].
    by destruct (average_or_zero _).
  - unfold finish_session. by destruct (finish_experiment (exp s)).
Qed.

Lemma dispatch_start (c : call) (s : session) :
  is_selection c = false ->
  start_button_enabled s = false ->
  start_button_enabled (final (dispatch c s)) = false
  /\ global_start_time (final (dispatch c s)) = global_start_time s.
Proof.
  intros Hc Hs.
  destruct c as [now f|now1 now2| |cb now|now| |text|text]; simpl;
    try done.
  - by destruct (force_thread_stop s).
  - destruct (timer_active (exp s)); [|done]. simpl.
    unfold update_measurement.
    destruct (global_start_time s) as [g|] eqn:Hg; [|by rewrite Hg].
    destruct (phase s) as [[]|]; simpl; by destruct (_ <? _)%nat.
  - by destruct (blink_timer_active s).
  - destruct (fire cb (single_shots s)) as [shots|]; [|done].
    destruct (invoke_start cb now (set_single_shots shots s)) as [-> ->].
    done.
  - by rewrite Hs.
Qed.

Lemma run_start (calls : list call) :
  forall s : session,
    Forall (fun c => is_selection c = false) calls ->
    start_button_enabled s = false ->
    start_button_enabled (final (run calls s)) = false
    /\ global_start_time (final (run calls s)) = global_start_time s.
Proof.
  induction calls as [|c calls IH]; intros s Hcs Hs; [done|].
  apply Forall_cons in Hcs as [Hc Hcs].
  destruct (dispatch_start c s Hc Hs) as [H1 H2]. cbn [run].
  destruct (dispatch c s) as [s'|x s']; simpl in H1, H2 |- *; [|done].
  destruct (IH s' Hcs H1) as [H3 H4]. split; [done|congruence].
Qed.

(** X18.  Once Start has been pressed with a motion chosen, the button
    stays disabled and the start time stays that of the press whatever
    follows, a finished or stopped measurement included, as long as the
    choice in the dropdown is not changed: no later press of Start is
    delivered. *)
Theorem start_disabled_until_selection (now : Q) (s : session)
    (calls : list call) :
  start_button_enabled s = true ->
  placeholder_selected s = false ->
  Forall (fun c => is_selection c = false) calls ->
  start_button_enabled (final (run (ClickStart now :: calls) s)) = false
  /\ global_start_time (final (run (ClickStart now :: calls) s)) = Some now.
Proof.
  intros Hen Hsel Hcs. cbn [run dispatch]. rewrite Hen.
  destruct (run_start calls (start_experiment now s) Hcs) as [H1 H2].
  - unfold start_experiment. by rewrite Hsel.
  - split; [done|]. rewrite H2. unfold start_experiment. by rewrite Hsel.
Qed.

Lemma start_disabled_until_selection_witness :
  start_button_enabled
    (final (run (ClickStart 1000
                 :: [Shot StartTrial1 1005; Shot EndTrial1 1010;
                     Shot StartTrial2 1020; Shot EndTrial2 1025;
                     Shot FinishExperiment 1030; ClickStart 1040])
              example_chosen)) = false
  /\ global_start_time
       (final (run (ClickStart 1000
                    :: [Shot StartTrial1 1005; Shot EndTrial1 1010;
                        Shot StartTrial2 1020; Shot EndTrial2 1025;
                        Shot FinishExperiment 1030; ClickStart 1040])
                 example_chosen)) = Some 1000%Q.
Proof.
  apply (start_disabled_until_selection 1000 example_chosen);
    [reflexivity|reflexivity|].
  repeat apply Forall_cons_2; try apply Forall_nil_2; reflexivity.
Defined.

End StartButton.
